(** * SpotBot: a shallow embedding of the Slack bot's handlers

    The repository holds two variants of the same bot:

    - the multi-tenant HTTP/OAuth bot ([app.js]), whose handlers are gated
      by a per-workspace "active channel" kept in the Installation
      collection (module [MultiTenant]);
    - the earlier single-tenant socket-mode bot, whose spot and pics
      listeners are gated by a hard-coded channel id and whose other
      handlers are not gated at all (module [SingleTenant]).

    Handlers are asynchronous JavaScript functions that talk to MongoDB
    through Mongoose and to Slack through Bolt.  They are embedded as
    computations in a small state-and-exception monad: the state holds the
    two collections and the chronological trace of observable events
    ([ack], [say], [console.error], [users.info] calls, store operations);
    the environment holds what the handler cannot control (the clock, the
    outcome of the remote identity lookup, whether the store rejects an
    operation, the Spot schema the process loaded, the locale's date
    rendering).

    Conventions of the embedding:

    - a handler is the body of a listener; which messages Bolt routes to it
      (the pattern given to [app.message]) is outside the embedding;
    - [ack] and [say] are output events and do not fail;
    - [console.log] lines are omitted, [console.error] is an event;
    - a collection is the list of its documents in insertion order; a
      query filter constrains exactly the fields it names;
    - the store fixes no order among groups or documents that compare
      equal; the model keeps them in first-appearance order. *)

From Stdlib Require Import String Ascii List ZArith Bool Lia.
From Stdlib Require Import Sorting.Sorted Sorting.Permutation.
From Stdlib Require Import DecimalString DecimalNat.
Import ListNotations.

Local Open Scope string_scope.
Local Open Scope Z_scope.

(* ===================================================================== *)
(** * JavaScript built-ins used by the handlers *)
(* ===================================================================== *)

Definition code (c : ascii) : nat := nat_of_ascii c.

Definition in_range (lo hi : nat) (c : ascii) : bool :=
  (Nat.leb lo (code c) && Nat.leb (code c) hi)%bool.

(** A string is truthy in JavaScript iff it is not empty. *)
Definition truthy (s : string) : bool :=
  match s with EmptyString => false | String _ _ => true end.

(** ** [parseInt(string)] with no radix argument

    The value is the exact integer denoted by the longest digit prefix;
    [None] stands for [NaN].  (JavaScript rounds values beyond 2^53 to the
    nearest double; no comparison made by the handlers depends on it.) *)

Definition is_ascii_ws (c : ascii) : bool :=
  (in_range 9 13 c || Nat.eqb (code c) 32)%bool.

(** White space encoded on two or three bytes (UTF-8): U+00A0; U+1680,
    U+2000..U+200A, U+2028, U+2029, U+202F, U+205F, U+3000, U+FEFF. *)
Definition is_ws2 (a b : ascii) : bool :=
  (Nat.eqb (code a) 194 && Nat.eqb (code b) 160)%bool.

Definition is_ws3 (a b c : ascii) : bool :=
  let '(x, y, z) := (code a, code b, code c) in
  ((Nat.eqb x 225 && Nat.eqb y 154 && Nat.eqb z 128)
   || (Nat.eqb x 226 && Nat.eqb y 128
       && (Nat.leb 128 z && Nat.leb z 138 || Nat.eqb z 168 || Nat.eqb z 169
           || Nat.eqb z 175))
   || (Nat.eqb x 226 && Nat.eqb y 129 && Nat.eqb z 159)
   || (Nat.eqb x 227 && Nat.eqb y 128 && Nat.eqb z 128)
   || (Nat.eqb x 239 && Nat.eqb y 187 && Nat.eqb z 191))%bool.

Fixpoint trimStart (s : string) : string :=
  match s with
  | EmptyString => s
  | String a r1 =>
      if is_ascii_ws a then trimStart r1
      else match r1 with
           | EmptyString => s
           | String b r2 =>
               if is_ws2 a b then trimStart r2
               else match r2 with
                    | EmptyString => s
                    | String c r3 => if is_ws3 a b c then trimStart r3 else s
                    end
           end
  end.

(** The value of [c] as a digit in the given radix, if it is one. *)
Definition digit_value (radix : Z) (c : ascii) : option Z :=
  let n := Z.of_nat (code c) in
  let v := if in_range 48 57 c then Some (n - 48)
           else if in_range 97 122 c then Some (n - 87)
           else if in_range 65 90 c then Some (n - 55)
           else None in
  match v with
  | Some d => if d <? radix then Some d else None
  | None => None
  end.

(** Reads the longest prefix of radix digits; [acc] is [None] until a digit
    has been read. *)
Fixpoint parse_digits (radix : Z) (s : string) (acc : option Z) : option Z :=
  match s with
  | EmptyString => acc
  | String c rest =>
      match digit_value radix c with
      | Some d =>
          parse_digits radix rest
            (Some (match acc with Some a => a * radix + d | None => d end))
      | None => acc
      end
  end.

Definition strip_sign (s : string) : Z * string :=
  match s with
  | String "-" r => (-1, r)
  | String "+" r => (1, r)
  | _ => (1, s)
  end.

Definition strip_hex_prefix (s : string) : Z * string :=
  match s with
  | String "0" (String "x" r) => (16, r)
  | String "0" (String "X" r) => (16, r)
  | _ => (10, s)
  end.

Definition parseInt_string (input : string) : option Z :=
  let '(sign, s1) := strip_sign (trimStart input) in
  let '(radix, s2) := strip_hex_prefix s1 in
  match parse_digits radix s2 None with
  | Some n => Some (sign * n)
  | None => None
  end.

(** [parseInt(v)] first converts [v] to a string; an absent value
    ([undefined]) converts to the text "undefined". *)
Definition parseInt (v : option string) : option Z :=
  parseInt_string (match v with Some s => s | None => "undefined" end).

(** ** [text.match(/<@([A-Z0-9]+)>/)]: the first capture group of the
    leftmost match, [None] when there is no match. *)

Definition is_id_char (c : ascii) : bool :=
  (in_range 65 90 c || in_range 48 57 c)%bool.

(** The longest prefix of id characters, and what follows it. *)
Fixpoint span_id (s : string) : string * string :=
  match s with
  | String c r =>
      if is_id_char c
      then let '(id, rest) := span_id r in (String c id, rest)
      else (EmptyString, s)
  | EmptyString => (EmptyString, EmptyString)
  end.

(** A match anchored at the head of [s].  The character class excludes
    '>', so only the longest run of id characters can be followed by it. *)
Definition mention_here (s : string) : option string :=
  match s with
  | String "<" (String "@" r) =>
      match span_id r with
      | (String c id, String ">" _) => Some (String c id)
      | _ => None
      end
  | _ => None
  end.

Fixpoint match_mention (s : string) : option string :=
  match mention_here s with
  | Some id => Some id
  | None =>
      match s with
      | String _ r => match_mention r
      | EmptyString => None
      end
  end.

(** Decimal rendering of numbers inside template strings. *)
Definition nat_to_string (n : nat) : string :=
  NilZero.string_of_uint (Nat.to_uint n).

Definition Z_to_string (z : Z) : string :=
  NilZero.string_of_int (Z.to_int z).

Definition dquote : string := String (ascii_of_nat 34) EmptyString.
Definition newline : string := String (ascii_of_nat 10) EmptyString.

(* ===================================================================== *)
(** * Data model *)
(* ===================================================================== *)

Inductive Status := confirmed | pending | rejected.

Definition Status_eqb (a b : Status) : bool :=
  match a, b with
  | confirmed, confirmed | pending, pending | rejected, rejected => true
  | _, _ => false
  end.

(** A stored Spot document.  [teamId] and [messageTs] are absent from
    documents written through a schema that does not declare them. *)
Record Spot := mkSpot {
  teamId : option string;
  spotterId : string;
  targetId : string;
  imageUrl : string;
  channelId : string;
  messageTs : option string;
  status : Status;
  timestamp : Z
}.

(** The two Spot schemas of the repository differ in the paths they
    declare: the earlier one has neither [teamId] nor [messageTs]; the
    later one declares both and [teamId] is required.  [spotterId],
    [targetId], [imageUrl] and [channelId] are required strings in both;
    [status] defaults to ['confirmed'] and [timestamp] to [Date.now]. *)
Record SpotSchema := mkSchema {
  declares_teamId : bool;
  declares_messageTs : bool
}.

Definition SpotSchema_plain : SpotSchema :=
  {| declares_teamId := false; declares_messageTs := false |}.

Definition SpotSchema_tenant : SpotSchema :=
  {| declares_teamId := true; declares_messageTs := true |}.

(** An Installation document (the schema that declares
    [activeChannelId], default [null]).  The raw installation payload is
    opaque. *)
Record Installation := mkInstallation {
  inst_teamId : string;
  teamName : option string;
  botToken : string;
  botId : option string;
  botUserId : option string;
  activeChannelId : option string;
  installation : string;
  installedAt : Z
}.

(** A file attached to a message; an absent [url_private] is the empty
    string (both are rejected by a required String path). *)
Record SlackFile := mkFile { url_private : string }.

(** An inbound message event.  [files] is empty when the event carries no
    [files] property: [message.files && message.files.length > 0] is falsy
    in both cases. *)
Record Message := mkMessage {
  team : string;
  channel : string;
  user : string;
  text : string;
  ts : string;
  thread_ts : option string;
  files : list SlackFile
}.

(** A slash command invocation. *)
Record Command := mkCommand {
  team_id : string;
  channel_id : string;
  user_id : string;
  command_text : option string
}.

(** ** Query filters: the object literals passed to Mongoose.  A field
    left [None] is not constrained. *)
Record SpotFilter := mkFilter {
  f_teamId : option string;
  f_targetId : option string;
  f_channelId : option string;
  f_messageTs : option string;
  f_status : option Status
}.

(** An equality condition on a path that a document may lack. *)
Definition cond_opt (want : option string) (have : option string) : bool :=
  match want with
  | None => true
  | Some v => match have with Some x => String.eqb x v | None => false end
  end.

Definition cond_str (want : option string) (have : string) : bool :=
  match want with None => true | Some v => String.eqb have v end.

Definition cond_status (want : option Status) (have : Status) : bool :=
  match want with None => true | Some v => Status_eqb have v end.

Definition matches (f : SpotFilter) (s : Spot) : bool :=
  (cond_opt (f_teamId f) (teamId s)
   && cond_str (f_targetId f) (targetId s)
   && cond_str (f_channelId f) (channelId s)
   && cond_opt (f_messageTs f) (messageTs s)
   && cond_status (f_status f) (status s))%bool.

Inductive GroupKey := by_spotterId | by_targetId.

Definition group_field (k : GroupKey) (s : Spot) : string :=
  match k with by_spotterId => spotterId s | by_targetId => targetId s end.

(** One row of a leaderboard: [{ _id, count }]. *)
Record Row := mkRow { _id : string; count : nat }.

(* ===================================================================== *)
(** * Observable events *)
(* ===================================================================== *)

Inductive Block :=
| section_mrkdwn (t : string)
| divider.

(** What a handler passes to [say]: a plain text, a text with a
    [thread_ts], or blocks with a fallback text. *)
Inductive Reply :=
| Text (t : string)
| Threaded (t : string) (thread : string)
| Blocks (blocks : list Block) (t : string).

Inductive StoreOp :=
| InstallationFindOne (teamId : string)
| InstallationFindOneAndUpdate (teamId : string) (activeChannelId : string)
| SpotSave (doc : Spot)
| SpotAggregate (f : SpotFilter) (key : GroupKey) (limit : Z)
| SpotFindNewest (f : SpotFilter) (limit : nat)
| SpotFindOneAndDelete (f : SpotFilter)
| SpotDeleteMany (f : SpotFilter).

(** The operations that can change a collection. *)
Definition is_write (op : StoreOp) : bool :=
  match op with
  | InstallationFindOneAndUpdate _ _ | SpotSave _
  | SpotFindOneAndDelete _ | SpotDeleteMany _ => true
  | _ => false
  end.

Inductive Event :=
| EvAck
| EvSay (r : Reply)
| EvConsoleError
| EvUsersInfo (user : string)
| EvStore (op : StoreOp).

(* ===================================================================== *)
(** * The handler monad *)
(* ===================================================================== *)

Inductive Exn := ValidationError | StoreError | SlackError.

(** The response of [client.users.info]: the call fails, or it yields a
    user whose [is_admin] flag is read. *)
Inductive UsersInfo := InfoFails | InfoUser (is_admin : bool).

Record Env := mkEnv {
  Date_now : Z;
  Spot_schema : SpotSchema;
  users_info : string -> UsersInfo;
  store_rejects : StoreOp -> bool;
  toLocaleDateString : Z -> string
}.

Record State := mkState {
  spots : list Spot;
  installations : list Installation;
  trace : list Event
}.

Inductive Result (A : Type) :=
| Returned (a : A)
| Thrown (e : Exn).
Arguments Returned {A} a.
Arguments Thrown {A} e.

Definition M (A : Type) : Type := Env -> State -> Result A * State.

Definition ret {A} (a : A) : M A := fun _ s => (Returned a, s).

Definition bind {A B} (m : M A) (k : A -> M B) : M B :=
  fun env s =>
    match m env s with
    | (Returned a, s1) => k a env s1
    | (Thrown e, s1) => (Thrown e, s1)
    end.

Definition throw {A} (e : Exn) : M A := fun _ s => (Thrown e, s).

(** [try { body } catch (error) { handler }] *)
Definition try_catch {A} (body : M A) (handler : Exn -> M A) : M A :=
  fun env s =>
    match body env s with
    | (Returned a, s1) => (Returned a, s1)
    | (Thrown e, s1) => handler e env s1
    end.

Notation "x <- m ;; k" := (bind m (fun x => k))
  (at level 61, m at next level, right associativity).
Notation "m ;; k" := (bind m (fun _ => k))
  (at level 61, right associativity).

Definition emit (e : Event) (s : State) : State :=
  {| spots := spots s; installations := installations s;
     trace := trace s ++ [e] |}.

Definition ack : M unit := fun _ s => (Returned tt, emit EvAck s).
Definition say (r : Reply) : M unit := fun _ s => (Returned tt, emit (EvSay r) s).
Definition console_error : M unit :=
  fun _ s => (Returned tt, emit EvConsoleError s).
Definition ask {A} (f : Env -> A) : M A := fun env s => (Returned (f env), s).

(** [await client.users.info({ user })] followed by [.user.is_admin]. *)
Definition client_users_info (u : string) : M bool :=
  fun env s =>
    match users_info env u with
    | InfoFails => (Thrown SlackError, emit (EvUsersInfo u) s)
    | InfoUser b => (Returned b, emit (EvUsersInfo u) s)
    end.

(** A store operation is recorded, then either rejected by the store or
    carried out on the collections. *)
Definition store_call {A} (op : StoreOp)
    (run : list Spot -> list Installation -> A * list Spot * list Installation)
    : M A :=
  fun env s =>
    let s1 := emit (EvStore op) s in
    if store_rejects env op then (Thrown StoreError, s1)
    else let '(a, sp, ins) := run (spots s1) (installations s1) in
         (Returned a,
          {| spots := sp; installations := ins; trace := trace s1 |}).

(** The replies sent and the store operations issued, in order. *)
Definition replies (t : list Event) : list Reply :=
  flat_map (fun e => match e with EvSay r => [r] | _ => [] end) t.

Definition store_ops (t : list Event) : list StoreOp :=
  flat_map (fun e => match e with EvStore op => [op] | _ => [] end) t.

(* ===================================================================== *)
(** * The store: Mongoose model operations used by the handlers *)
(* ===================================================================== *)

(** ** Pure parts *)

Definition for_team (t : string) (r : Installation) : bool :=
  String.eqb (inst_teamId r) t.

(** The first document of the tenant, with its active channel replaced
    (no upsert: the collection is unchanged when there is none). *)
Fixpoint update_first (t c : string) (l : list Installation)
  : list Installation :=
  match l with
  | [] => []
  | r :: rest =>
      if for_team t r
      then {| inst_teamId := inst_teamId r; teamName := teamName r;
              botToken := botToken r; botId := botId r;
              botUserId := botUserId r; activeChannelId := Some c;
              installation := installation r;
              installedAt := installedAt r |} :: rest
      else r :: update_first t c rest
  end.

(** Removes the first document that satisfies [p]. *)
Fixpoint remove_first (p : Spot -> bool) (l : list Spot)
  : option Spot * list Spot :=
  match l with
  | [] => (None, [])
  | x :: rest =>
      if p x then (Some x, rest)
      else let '(found, rest') := remove_first p rest in (found, x :: rest')
  end.

(** [$group: { _id: <field>, count: { $sum: 1 } }]; groups are listed in
    order of first appearance (the store promises no order). *)
Fixpoint bump (k : string) (rows : list Row) : list Row :=
  match rows with
  | [] => [ {| _id := k; count := 1 |} ]
  | r :: rest =>
      if String.eqb (_id r) k
      then {| _id := k; count := S (count r) |} :: rest
      else r :: bump k rest
  end.

Definition group_count (key : GroupKey) (l : list Spot) : list Row :=
  fold_left (fun rows s => bump (group_field key s) rows) l [].

(** Sorting in descending order of a weight; elements of equal weight keep
    their relative order. *)
Fixpoint insert_desc {A} (w : A -> Z) (x : A) (l : list A) : list A :=
  match l with
  | [] => [x]
  | y :: rest => if w x <? w y then y :: insert_desc w x rest else x :: l
  end.

Definition sort_desc {A} (w : A -> Z) (l : list A) : list A :=
  fold_right (insert_desc w) [] l.

(** The pipeline [$match, $group, $sort: { count: -1 }, $limit]. *)
Definition pipeline (f : SpotFilter) (key : GroupKey) (limit : Z)
    (l : list Spot) : list Row :=
  firstn (Z.to_nat limit)
    (sort_desc (fun r => Z.of_nat (count r))
       (group_count key (filter (matches f) l))).

(** [find(f).sort({ timestamp: -1 }).limit(n)] *)
Definition newest (f : SpotFilter) (n : nat) (l : list Spot) : list Spot :=
  firstn n (sort_desc timestamp (filter (matches f) l)).

(** ** [new Spot({...})]: paths the schema does not declare are dropped
    (strict mode), [status] and [timestamp] take their defaults. *)
Definition make_Spot (env : Env) (team_ : option string)
    (spotter target image channel_ : string) (msgTs : option string)
    : Spot :=
  {| teamId := if declares_teamId (Spot_schema env) then team_ else None;
     spotterId := spotter;
     targetId := target;
     imageUrl := image;
     channelId := channel_;
     messageTs := if declares_messageTs (Spot_schema env) then msgTs else None;
     status := confirmed;
     timestamp := Date_now env |}.

Definition new_Spot (team_ : option string)
    (spotter target image channel_ : string) (msgTs : option string)
    : M Spot :=
  fun env s =>
    (Returned (make_Spot env team_ spotter target image channel_ msgTs), s).

(** The [required: true] validators of the schema: a required String path
    must hold a non-empty string. *)
Definition valid (sch : SpotSchema) (d : Spot) : bool :=
  ((if declares_teamId sch
    then match teamId d with Some t => truthy t | None => false end
    else true)
   && truthy (spotterId d) && truthy (targetId d)
   && truthy (imageUrl d) && truthy (channelId d))%bool.

(** ** Monadic operations *)

(** [Installation.findOne({ teamId })] *)
Definition Installation_findOne (t : string) : M (option Installation) :=
  store_call (InstallationFindOne t)
    (fun sp ins => (find (for_team t) ins, sp, ins)).

(** [Installation.findOneAndUpdate({ teamId }, { activeChannelId })] *)
Definition Installation_findOneAndUpdate (t c : string)
  : M (option Installation) :=
  store_call (InstallationFindOneAndUpdate t c)
    (fun sp ins => (find (for_team t) ins, sp, update_first t c ins)).

(** [doc.save()]: validation happens before the document is sent. *)
Definition Spot_save (d : Spot) : M unit :=
  sch <- ask Spot_schema ;;
  if valid sch d
  then store_call (SpotSave d) (fun sp ins => (tt, (sp ++ [d])%list, ins))
  else throw ValidationError.

(** [Spot.aggregate([...])]: the store refuses a [$limit] that is not
    positive. *)
Definition Spot_aggregate (f : SpotFilter) (key : GroupKey) (limit : Z)
  : M (list Row) :=
  rows <- store_call (SpotAggregate f key limit)
            (fun sp ins => (pipeline f key limit sp, sp, ins)) ;;
  if limit <=? 0 then throw StoreError else ret rows.

(** [Spot.find(f).sort({ timestamp: -1 }).limit(n)] *)
Definition Spot_find_newest (f : SpotFilter) (n : nat) : M (list Spot) :=
  store_call (SpotFindNewest f n) (fun sp ins => (newest f n sp, sp, ins)).

(** [Spot.findOneAndDelete(f)] *)
Definition Spot_findOneAndDelete (f : SpotFilter) : M (option Spot) :=
  store_call (SpotFindOneAndDelete f)
    (fun sp ins => let '(found, rest) := remove_first (matches f) sp in
                   (found, rest, ins)).

(** [Spot.deleteMany(f)], yielding [deletedCount]. *)
Definition Spot_deleteMany (f : SpotFilter) : M nat :=
  store_call (SpotDeleteMany f)
    (fun sp ins =>
       (length (filter (matches f) sp),
        filter (fun s => negb (matches f s)) sp, ins)).

(* ===================================================================== *)
(** * Parts shared by both variants *)
(* ===================================================================== *)

(** [let limit = parseInt(command.text) || 10; if (limit > 25) limit = 25;]
    [NaN] and [0] are the falsy numbers. *)
Definition leaderboard_limit (command_text_ : option string) : Z :=
  let limit :=
    match parseInt command_text_ with
    | Some n => if n =? 0 then 10 else n
    | None => 10
    end in
  if limit >? 25 then 25 else limit.

Definition medal (index : nat) : string :=
  match index with
  | 0%nat => "🥇"
  | 1%nat => "🥈"
  | 2%nat => "🥉"
  | _ => "•"
  end.

(** The body of [leaderboard.forEach((entry, index) => ...)]: the lines
    appended to the message, [unit_] being "spots" or "times". *)
Fixpoint board_lines (unit_ : string) (index : nat) (rows : list Row)
  : string :=
  match rows with
  | [] => ""
  | entry :: rest =>
      medal index ++ " <@" ++ _id entry ++ ">: *"
        ++ nat_to_string (count entry) ++ "* " ++ unit_ ++ newline
        ++ board_lines unit_ (S index) rest
  end.

(** One gallery block per spot. *)
Definition gallery_block (fmt : Z -> string) (spot : Spot) : Block :=
  section_mrkdwn
    ("🗓 *" ++ fmt (timestamp spot) ++ "* by <@" ++ spotterId spot ++ ">"
       ++ newline ++ "🔗 <" ++ imageUrl spot ++ "|View Evidence>").

Definition gallery_blocks (fmt : Z -> string) (targetUser : string)
    (found : list Spot) : list Block :=
  ([ section_mrkdwn
       ("📸 *Last " ++ nat_to_string (length found) ++ " times <@"
          ++ targetUser ++ "> was spotted:*");
     divider ] ++ map (gallery_block fmt) found)%list.

Definition has_files (m : Message) : bool :=
  match files m with [] => false | _ :: _ => true end.

(** [message.files[0].url_private] *)
Definition first_file_url (m : Message) : string :=
  match files m with f :: _ => url_private f | [] => "" end.

Definition spot_logged (m : Message) (targetUser : string) : Reply :=
  Text ("✅ *Spot Logged!* <@" ++ user m ++ "> has captured <@"
          ++ targetUser ++ "> in the wild.").

Definition trouble_saving : Reply :=
  Text "⚠️ I had trouble saving that spot to the database.".

Definition no_photo (m : Message) : Reply :=
  Text ("📸 No photo, no glory, <@" ++ user m ++ ">!").

Definition pics_usage : Reply :=
  Text ("👀 Who do you want to see? Usage: " ++ dquote ++ "pics <@User>"
          ++ dquote).

Definition is_clean (targetUser : string) : Reply :=
  Text ("🤷 <@" ++ targetUser ++ "> is clean! No photos found.").

Definition trouble_photos : Reply :=
  Text "⚠️ I couldn't dig up those photos right now.".

Definition veto_denied (m : Message) (root : string) : Reply :=
  Threaded ("🚫 *Access Denied.* <@" ++ user m
              ++ ">, only Workspace Admins can veto spots.") root.

Definition vetoed (fmt : Z -> string) (m : Message) (deletedSpot : Spot)
    (root : string) : Reply :=
  Threaded ("🔨 *Vetoed!* Admin <@" ++ user m ++ "> removed this spot "
              ++ "(<@" ++ spotterId deletedSpot ++ "> spotted <@"
              ++ targetId deletedSpot ++ "> on "
              ++ fmt (timestamp deletedSpot) ++ ").") root.

Definition no_spot_found (root : string) : Reply :=
  Threaded
    "🤷 No spot found for this message. It may have already been vetoed."
    root.

Definition trouble_veto (root : string) : Reply :=
  Threaded "⚠️ I had trouble processing the veto." root.

Definition reset_denied (c : Command) : Reply :=
  Text ("🚫 *Access Denied.* <@" ++ user_id c
          ++ ">, you are not a Workspace Admin.").

Definition already_clean : Reply := Text "🧹 The board is already clean.".

Definition cannot_verify : Reply :=
  Text "⚠️ I couldn't verify your admin status with Slack.".

Definition trouble_spotboard : Reply :=
  Text "⚠️ I had trouble crunching the numbers for the leaderboard.".

Definition trouble_caughtboard : Reply :=
  Text "⚠️ I had trouble loading the Caughtboard.".

Definition spotboard_text (limit : Z) (rows : list Row) : Reply :=
  Text ("🏆 *Top " ++ Z_to_string limit ++ " Spotters*" ++ newline
          ++ board_lines "spots" 0 rows).

Definition caughtboard_text (limit : Z) (rows : list Row) : Reply :=
  Text ("🎯 *Top " ++ Z_to_string limit ++ " Most Wanted (Caught)*"
          ++ newline ++ board_lines "times" 0 rows).

(* ===================================================================== *)
(** * The multi-tenant bot ([app.js]) *)
(* ===================================================================== *)

Module MultiTenant.

(** [record?.activeChannelId || null] *)
Definition active_of (record : option Installation) : option string :=
  match record with
  | Some r =>
      match activeChannelId r with
      | Some c => if truthy c then Some c else None
      | None => None
      end
  | None => None
  end.

Definition getActiveChannel (teamId_ : string) : M (option string) :=
  record <- Installation_findOne teamId_ ;;
  ret (active_of record).

Definition isActiveChannel (teamId_ channelId_ : string) : M bool :=
  active <- getActiveChannel teamId_ ;;
  match active with
  | None => ret false
  | Some a => ret (String.eqb a channelId_)
  end.

Definition not_active : Reply :=
  Text ("⚠️ SpotBot isn't active in this channel. "
          ++ "An admin can run `/setchannel` to activate it.").

Definition setchannel_denied (c : Command) : Reply :=
  Text ("🚫 *Access Denied.* <@" ++ user_id c
          ++ ">, only Workspace Admins can set the SpotBot channel.").

Definition now_active : Reply :=
  Text ("✅ *SpotBot is now active in this channel!* "
          ++ "All spotting will happen here.").

Definition trouble_setchannel : Reply :=
  Text "⚠️ I had trouble setting the channel.".

Definition kaboom (c : Command) (deletedCount : nat) : Reply :=
  Text ("*Kaboom!* Admin <@" ++ user_id c ++ "> has wiped the board. "
          ++ nat_to_string deletedCount ++ " spots deleted.").

Definition no_spots_yet : Reply :=
  Text "No spots yet! Go touch grass and find someone!".

Definition nobody_caught : Reply :=
  Text "Everyone is a ninja here. No one has been caught yet!".

(** [app.command('/setchannel', ...)] *)
Definition setchannel_command (command : Command) : M unit :=
  ack ;;
  try_catch
    (isAdmin <- client_users_info (user_id command) ;;
     if negb isAdmin then say (setchannel_denied command)
     else
       Installation_findOneAndUpdate (team_id command) (channel_id command) ;;
       say now_active)
    (fun _ => console_error ;; say trouble_setchannel).

(** [app.message(/spot|spotted|<@[A-Z0-9]+>/i, ...)] *)
Definition spot_listener (message : Message) : M unit :=
  channelOk <- isActiveChannel (team message) (channel message) ;;
  if negb channelOk then ret tt
  else
    let targetUser := match_mention (text message) in
    let hasImage := has_files message in
    match targetUser, hasImage with
    | Some target, true =>
        try_catch
          (newSpot <- new_Spot (Some (team message)) (user message) target
                        (first_file_url message) (channel message)
                        (Some (ts message)) ;;
           Spot_save newSpot ;;
           say (spot_logged message target))
          (fun _ => console_error ;; say trouble_saving)
    | Some _, false => say (no_photo message)
    | None, _ => ret tt
    end.

Definition board_filter (command : Command) : SpotFilter :=
  {| f_teamId := Some (team_id command); f_targetId := None;
     f_channelId := Some (channel_id command); f_messageTs := None;
     f_status := Some confirmed |}.

(** [app.command('/spotboard', ...)] *)
Definition spotboard_command (command : Command) : M unit :=
  ack ;;
  active <- isActiveChannel (team_id command) (channel_id command) ;;
  if negb active then say not_active
  else
    let limit := leaderboard_limit (command_text command) in
    try_catch
      (leaderboard <- Spot_aggregate (board_filter command) by_spotterId
                        limit ;;
       match leaderboard with
       | [] => say no_spots_yet
       | _ :: _ => say (spotboard_text limit leaderboard)
       end)
      (fun _ => console_error ;; say trouble_spotboard).

(** [app.command('/caughtboard', ...)] *)
Definition caughtboard_command (command : Command) : M unit :=
  ack ;;
  active <- isActiveChannel (team_id command) (channel_id command) ;;
  if negb active then say not_active
  else
    let limit := leaderboard_limit (command_text command) in
    try_catch
      (leaderboard <- Spot_aggregate (board_filter command) by_targetId
                        limit ;;
       match leaderboard with
       | [] => say nobody_caught
       | _ :: _ => say (caughtboard_text limit leaderboard)
       end)
      (fun _ => console_error ;; say trouble_caughtboard).

Definition pics_filter (message : Message) (targetUser : string)
  : SpotFilter :=
  {| f_teamId := Some (team message); f_targetId := Some targetUser;
     f_channelId := Some (channel message); f_messageTs := None;
     f_status := Some confirmed |}.

(** [app.message(/pics/i, ...)] *)
Definition pics_listener (message : Message) : M unit :=
  active <- isActiveChannel (team message) (channel message) ;;
  if negb active then ret tt
  else
    match match_mention (text message) with
    | None => say pics_usage
    | Some targetUser =>
        try_catch
          (found <- Spot_find_newest (pics_filter message targetUser) 10 ;;
           match found with
           | [] => say (is_clean targetUser)
           | _ :: _ =>
               fmt <- ask toLocaleDateString ;;
               say (Blocks (gallery_blocks fmt targetUser found)
                      ("Gallery for <@" ++ targetUser ++ ">"))
           end)
          (fun _ => console_error ;; say trouble_photos)
    end.

Definition veto_filter (message : Message) (root : string) : SpotFilter :=
  {| f_teamId := Some (team message); f_targetId := None;
     f_channelId := Some (channel message); f_messageTs := Some root;
     f_status := None |}.

(** [app.message(/^veto$/i, ...)] *)
Definition veto_listener (message : Message) : M unit :=
  active <- isActiveChannel (team message) (channel message) ;;
  if negb active then ret tt
  else
    match thread_ts message with
    | None => ret tt
    | Some root =>
        if (negb (truthy root) || String.eqb root (ts message))%bool
        then ret tt
        else
          try_catch
            (isAdmin <- client_users_info (user message) ;;
             if negb isAdmin then say (veto_denied message root)
             else
               deleted <- Spot_findOneAndDelete (veto_filter message root) ;;
               match deleted with
               | Some deletedSpot =>
                   fmt <- ask toLocaleDateString ;;
                   say (vetoed fmt message deletedSpot root)
               | None => say (no_spot_found root)
               end)
            (fun _ => console_error ;; say (trouble_veto root))
    end.

Definition reset_filter (command : Command) : SpotFilter :=
  {| f_teamId := Some (team_id command); f_targetId := None;
     f_channelId := Some (channel_id command); f_messageTs := None;
     f_status := None |}.

(** [app.command('/reset', ...)] *)
Definition reset_command (command : Command) : M unit :=
  ack ;;
  active <- isActiveChannel (team_id command) (channel_id command) ;;
  if negb active then say not_active
  else
    try_catch
      (isAdmin <- client_users_info (user_id command) ;;
       if negb isAdmin then say (reset_denied command)
       else
         deletedCount <- Spot_deleteMany (reset_filter command) ;;
         if Nat.ltb 0 deletedCount then say (kaboom command deletedCount)
         else say already_clean)
      (fun _ => console_error ;; say cannot_verify).

End MultiTenant.

(* ===================================================================== *)
(** * The single-tenant bot (socket mode) *)
(* ===================================================================== *)

Module SingleTenant.

(** The channel id the spot and pics listeners compare against. *)
Definition the_channel : string := "C0AD6UA1G92".

Definition kaboom (c : Command) (deletedCount : nat) : Reply :=
  Text ("qm *Kaboom!* Admin <@" ++ user_id c ++ "> has wiped the board. "
          ++ nat_to_string deletedCount ++ " spots deleted.").

Definition no_spots_yet : Reply :=
  Text "zb No spots yet! Go touch grass and find someone!".

Definition nobody_caught : Reply :=
  Text "zbHs Everyone is a ninja here. No one has been caught yet!".

(** [app.message(/spot|spotted/i, ...)] *)
Definition spot_listener (message : Message) : M unit :=
  if negb (String.eqb (channel message) the_channel) then ret tt
  else
    let targetUser := match_mention (text message) in
    let hasImage := has_files message in
    match targetUser, hasImage with
    | Some target, true =>
        try_catch
          (newSpot <- new_Spot None (user message) target
                        (first_file_url message) (channel message)
                        (Some (ts message)) ;;
           Spot_save newSpot ;;
           say (spot_logged message target))
          (fun _ => console_error ;; say trouble_saving)
    | Some _, false => say (no_photo message)
    | None, _ => ret tt
    end.

Definition board_filter (command : Command) : SpotFilter :=
  {| f_teamId := None; f_targetId := None;
     f_channelId := Some (channel_id command); f_messageTs := None;
     f_status := Some confirmed |}.

(** [app.command('/spotboard', ...)] *)
Definition spotboard_command (command : Command) : M unit :=
  ack ;;
  let limit := leaderboard_limit (command_text command) in
  try_catch
    (leaderboard <- Spot_aggregate (board_filter command) by_spotterId
                      limit ;;
     match leaderboard with
     | [] => say no_spots_yet
     | _ :: _ => say (spotboard_text limit leaderboard)
     end)
    (fun _ => console_error ;; say trouble_spotboard).

(** [app.command('/caughtboard', ...)] *)
Definition caughtboard_command (command : Command) : M unit :=
  ack ;;
  let limit := leaderboard_limit (command_text command) in
  try_catch
    (leaderboard <- Spot_aggregate (board_filter command) by_targetId
                      limit ;;
     match leaderboard with
     | [] => say nobody_caught
     | _ :: _ => say (caughtboard_text limit leaderboard)
     end)
    (fun _ => console_error ;; say trouble_caughtboard).

Definition pics_filter (message : Message) (targetUser : string)
  : SpotFilter :=
  {| f_teamId := None; f_targetId := Some targetUser;
     f_channelId := Some (channel message); f_messageTs := None;
     f_status := Some confirmed |}.

(** [app.message(/pics/i, ...)] *)
Definition pics_listener (message : Message) : M unit :=
  if negb (String.eqb (channel message) the_channel) then ret tt
  else
    match match_mention (text message) with
    | None => say pics_usage
    | Some targetUser =>
        try_catch
          (found <- Spot_find_newest (pics_filter message targetUser) 10 ;;
           match found with
           | [] => say (is_clean targetUser)
           | _ :: _ =>
               fmt <- ask toLocaleDateString ;;
               say (Blocks (gallery_blocks fmt targetUser found)
                      ("Gallery for <@" ++ targetUser ++ ">"))
           end)
          (fun _ => console_error ;; say trouble_photos)
    end.

Definition veto_filter (message : Message) (root : string) : SpotFilter :=
  {| f_teamId := None; f_targetId := None;
     f_channelId := Some (channel message); f_messageTs := Some root;
     f_status := None |}.

(** [app.message(/^veto$/i, ...)] *)
Definition veto_listener (message : Message) : M unit :=
  match thread_ts message with
  | None => ret tt
  | Some root =>
      if (negb (truthy root) || String.eqb root (ts message))%bool
      then ret tt
      else
        try_catch
          (isAdmin <- client_users_info (user message) ;;
           if negb isAdmin then say (veto_denied message root)
           else
             deleted <- Spot_findOneAndDelete (veto_filter message root) ;;
             match deleted with
             | Some deletedSpot =>
                 fmt <- ask toLocaleDateString ;;
                 say (vetoed fmt message deletedSpot root)
             | None => say (no_spot_found root)
             end)
          (fun _ => console_error ;; say (trouble_veto root))
  end.

Definition reset_filter (command : Command) : SpotFilter :=
  {| f_teamId := None; f_targetId := None;
     f_channelId := Some (channel_id command); f_messageTs := None;
     f_status := None |}.

(** [app.command('/reset', ...)] *)
Definition reset_command (command : Command) : M unit :=
  ack ;;
  try_catch
    (isAdmin <- client_users_info (user_id command) ;;
     if negb isAdmin then say (reset_denied command)
     else
       deletedCount <- Spot_deleteMany (reset_filter command) ;;
       if Nat.ltb 0 deletedCount then say (kaboom command deletedCount)
       else say already_clean)
    (fun _ => console_error ;; say cannot_verify).

End SingleTenant.

(* ===================================================================== *)
(** * Vocabulary of the statements *)
(* ===================================================================== *)

(** The active channel bound for a tenant, as the channel gate reads it. *)
Definition bound_channel (ins : list Installation) (t : string)
  : option string :=
  MultiTenant.active_of (find (for_team t) ins).

(** The event the channel gate leaves in the trace. *)
Definition gate_lookup (t : string) : Event :=
  EvStore (InstallationFindOne t).

(** The [$limit] values of the aggregations issued. *)
Definition aggregation_limits (t : list Event) : list Z :=
  flat_map (fun e => match e with
                     | EvStore (SpotAggregate _ _ l) => [l]
                     | _ => []
                     end) t.

(** An active-channel field counts as unset when it is absent, [null] or
    the empty string: the values [record?.activeChannelId || null] maps to
    [null]. *)
Definition unset (a : option string) : Prop := a = None \/ a = Some "".

(** Whether the channel gate lets channel [c] of tenant [t] through. *)
Definition gate_passes (ins : list Installation) (t c : string) : bool :=
  match bound_channel ins t with Some a => String.eqb a c | None => false end.

(** What a [/reset] leaves behind and reports. *)
Definition after_reset (f : SpotFilter) (l : list Spot) : list Spot :=
  filter (fun x => negb (matches f x)) l.

Definition reset_report (kaboom : nat -> Reply) (n : nat) : Reply :=
  if Nat.ltb 0 n then kaboom n else already_clean.

(** The groups an aggregation ranks, before [$sort] and [$limit]. *)
Definition groups (f : SpotFilter) (key : GroupKey) (l : list Spot)
  : list Row :=
  group_count key (filter (matches f) l).

(** The reply of a leaderboard command for the rows it got. *)
Definition board_reply (empty : Reply) (render : Z -> list Row -> Reply)
    (limit : Z) (rows : list Row) : Reply :=
  match rows with [] => empty | _ :: _ => render limit rows end.

(** The trace a leaderboard command leaves once the gate (if any) is
    behind it: the aggregation, then the ranked list, the "nobody yet"
    message, or the error reply. *)
Definition board_events (env : Env) (op : StoreOp) (limit : Z)
    (rows : list Row) (empty : Reply) (render : Z -> list Row -> Reply)
    (trouble : Reply) : list Event :=
  if (store_rejects env op || (limit <=? 0))%bool
  then [EvStore op; EvConsoleError; EvSay trouble]
  else [EvStore op; EvSay (board_reply empty render limit rows)].

(** A computation only ever appends to the trace, and its first events
    are [pre]. *)
Definition starts_with {A} (pre : list Event) (m : M A) : Prop :=
  forall env s,
    exists rest, trace (snd (m env s)) = (trace s ++ pre ++ rest)%list.

(** The save of a document succeeds when it passes the schema's
    validators and the store accepts the write. *)
Definition save_succeeds (env : Env) (d : Spot) : bool :=
  (valid (Spot_schema env) d && negb (store_rejects env (SpotSave d)))%bool.


(** The part the two veto listeners share, from the Authorization Check
    on, for the filter [f] each of them builds. *)
Definition veto_body (f : SpotFilter) (m : Message) (root : string)
  : M unit :=
  try_catch
    (isAdmin <- client_users_info (user m) ;;
     if negb isAdmin then say (veto_denied m root)
     else
       deleted <- Spot_findOneAndDelete f ;;
       match deleted with
       | Some deletedSpot =>
           fmt <- ask toLocaleDateString ;;
           say (vetoed fmt m deletedSpot root)
       | None => say (no_spot_found root)
       end)
    (fun _ => console_error ;; say (trouble_veto root)).

(** A veto took effect between [s] and [s']: exactly one Spot, [d], is
    gone, it is the first one the filter [f] selects, and the confirmation
    was sent in the thread of [root]: it names the administrator, the
    spotter, the target and the date of the Spot removed. *)
Definition vetoed_exactly (env : Env) (m : Message) (root : string)
    (f : SpotFilter) (s s' : State) (d : Spot) : Prop :=
  exists before after,
    spots s = (before ++ d :: after)%list
    /\ spots s' = (before ++ after)%list
    /\ Forall (fun x => matches f x = false) before
    /\ matches f d = true
    /\ messageTs d = Some root
    /\ channelId d = channel m
    /\ installations s' = installations s
    /\ replies (trace s')
       = (replies (trace s)
            ++ [Threaded
                  ("🔨 *Vetoed!* Admin <@" ++ user m
                     ++ "> removed this spot " ++ "(<@" ++ spotterId d
                     ++ "> spotted <@" ++ targetId d ++ "> on "
                     ++ toLocaleDateString env (timestamp d) ++ ").")
                  root])%list.

(** What a veto listener guarantees on every run [r] from [s]. *)
Definition veto_only_when (r : Result unit * State) (env : Env) (s : State)
    (m : Message) (f : string -> SpotFilter) : Prop :=
  (spots (snd r) <> spots s ->
   exists root d,
     thread_ts m = Some root /\ root <> ts m
     /\ users_info env (user m) = InfoUser true
     /\ vetoed_exactly env m root (f root) s (snd r) d)
  /\ (thread_ts m = None \/ thread_ts m = Some (ts m) ->
      spots (snd r) = spots s
      /\ installations (snd r) = installations s
      /\ replies (trace (snd r)) = replies (trace s)).

(** What it does for an administrator's threaded reply once the store
    answers: a matching Spot is removed and confirmed in the thread; when
    none matches, the thread of [root] is told so. *)
Definition veto_decides (r : Result unit * State) (env : Env) (s : State)
    (m : Message) (root : string) (f : SpotFilter) : Prop :=
  fst r = Returned tt
  /\ ((exists x, In x (spots s) /\ matches f x = true) ->
      exists d, vetoed_exactly env m root f s (snd r) d)
  /\ ((forall x, In x (spots s) -> matches f x = false) ->
      spots (snd r) = spots s
      /\ installations (snd r) = installations s
      /\ replies (trace (snd r))
         = (replies (trace s)
              ++ [Threaded
                    ("🤷 No spot found for this message. "
                       ++ "It may have already been vetoed.")
                    root])%list).

(** The part the two pics listeners share once a target is known, for the
    filter [f] each of them builds. *)
Definition pics_body (f : SpotFilter) (targetUser : string) : M unit :=
  try_catch
    (found <- Spot_find_newest f 10 ;;
     match found with
     | [] => say (is_clean targetUser)
     | _ :: _ =>
         fmt <- ask toLocaleDateString ;;
         say (Blocks (gallery_blocks fmt targetUser found)
                ("Gallery for <@" ++ targetUser ++ ">"))
     end)
    (fun _ => console_error ;; say trouble_photos).

(** The reply of a pics listener for the spots it found. *)
Definition pics_reply (fmt : Z -> string) (targetUser : string)
    (found : list Spot) : Reply :=
  match found with
  | [] => is_clean targetUser
  | _ :: _ =>
      Blocks (gallery_blocks fmt targetUser found)
        ("Gallery for <@" ++ targetUser ++ ">")
  end.

(** Descending order of a weight; for Spots, newest first. *)
Definition descending {A} (w : A -> Z) (a b : A) : Prop := w b <= w a.

Definition newer_or_equal : Spot -> Spot -> Prop := descending timestamp.

(** A run [r] from [s] wrote nothing: both collections are as they were
    and every store operation it issued is a read. *)
Definition read_only (r : Result unit * State) (s : State) : Prop :=
  spots (snd r) = spots s
  /\ installations (snd r) = installations s
  /\ exists new,
       trace (snd r) = (trace s ++ new)%list
       /\ Forall (fun op => is_write op = false) (store_ops new).

(** What a pics listener does with a message that mentions [t], once the
    store answers the query [f]: it replies with the "is clean" text when
    nothing is found, and otherwise with a heading, a divider and one
    block per Spot found, which shows the date of the Spot, its spotter
    and a link to its image. *)
Definition gallery (r : Result unit * State) (env : Env) (s : State)
    (f : SpotFilter) (t : string) : Prop :=
  let found := newest f 10 (spots s) in
  let clean := Text ("🤷 <@" ++ t ++ "> is clean! No photos found.") in
  let shown :=
    Blocks
      (section_mrkdwn
         ("📸 *Last " ++ nat_to_string (length found) ++ " times <@" ++ t
            ++ "> was spotted:*")
       :: divider
       :: map (fun spot =>
                 section_mrkdwn
                   ("🗓 *" ++ toLocaleDateString env (timestamp spot)
                      ++ "* by <@" ++ spotterId spot ++ ">" ++ newline
                      ++ "🔗 <" ++ imageUrl spot ++ "|View Evidence>"))
            found)
      ("Gallery for <@" ++ t ++ ">") in
  fst r = Returned tt
  /\ replies (trace (snd r))
     = (replies (trace s)
          ++ [match found with [] => clean | _ :: _ => shown end])%list
  /\ (length found <= 10)%nat
  /\ Forall (fun x => In x (spots s) /\ matches f x = true) found
  /\ StronglySorted newer_or_equal found
  /\ (exists older,
        Permutation (found ++ older) (filter (matches f) (spots s))
        /\ (forall a b, In a found -> In b older -> newer_or_equal a b)
        /\ ((length found < 10)%nat -> older = []))
  /\ ((forall x, In x (spots s) -> matches f x = false) ->
      replies (trace (snd r)) = (replies (trace s) ++ [clean])%list)
  /\ (found <> [] ->
      replies (trace (snd r)) = (replies (trace s) ++ [shown])%list).

(** The natural number a decimal numeral denotes. *)
Definition decimal_value (numeral : string) : option nat :=
  option_map Nat.of_uint (NilZero.uint_of_string numeral).

(* ===================================================================== *)
(** * The installation store of the multi-tenant bot *)
(* ===================================================================== *)

(** The installation object Bolt passes to [storeInstallation]: only the
    properties the function reads, and the object itself as an opaque
    payload.  [team] and [bot] are absent from some installations (an
    organization-wide install has no [team]). *)
Record SlackTeam := mkSlackTeam {
  slack_team_id : string;
  slack_team_name : option string
}.

Record SlackBot := mkSlackBot {
  slack_bot_token : string;
  slack_bot_id : option string;
  slack_bot_userId : option string
}.

Record SlackInstallation := mkSlackInstallation {
  slack_team : option SlackTeam;
  slack_bot : option SlackBot;
  slack_payload : string
}.

Inductive InstallError :=
| TypeError
| NoInstallationFound (teamId : string)
| InstallStoreError.

Inductive Outcome (A : Type) :=
| Done (a : A)
| Failed (e : InstallError).
Arguments Done {A} a.
Arguments Failed {A} e.

(** Whether the store rejects the upsert or the deletion of a tenant's
    Installation. *)
Record InstallFaults := mkInstallFaults {
  upsert_rejected : string -> bool;
  deleteOne_rejected : string -> bool
}.

(** A field of an update document that is [undefined] is left out of the
    update. *)
Definition or_keep {A} (new old : option A) : option A :=
  match new with Some v => Some v | None => old end.

(** [findOneAndUpdate({ teamId }, { teamId, teamName, botToken, botId,
    botUserId, installation }, { upsert: true, new: true })]: the first
    document of the tenant gets the listed fields and keeps the others; when
    there is none, a document is inserted with the schema defaults
    ([activeChannelId: null], [installedAt: Date.now]). *)
Fixpoint upsert_installation (now : Z) (t : SlackTeam) (b : SlackBot)
    (payload : string) (l : list Installation) : list Installation :=
  match l with
  | [] =>
      [ {| inst_teamId := slack_team_id t; teamName := slack_team_name t;
           botToken := slack_bot_token b; botId := slack_bot_id b;
           botUserId := slack_bot_userId b; activeChannelId := None;
           installation := payload; installedAt := now |} ]
  | r :: rest =>
      if for_team (slack_team_id t) r
      then {| inst_teamId := slack_team_id t;
              teamName := or_keep (slack_team_name t) (teamName r);
              botToken := slack_bot_token b;
              botId := or_keep (slack_bot_id b) (botId r);
              botUserId := or_keep (slack_bot_userId b) (botUserId r);
              activeChannelId := activeChannelId r;
              installation := payload;
              installedAt := installedAt r |} :: rest
      else r :: upsert_installation now t b payload rest
  end.

(** [Installation.deleteOne({ teamId })] *)
Fixpoint delete_first (t : string) (l : list Installation)
  : list Installation :=
  match l with
  | [] => []
  | r :: rest => if for_team t r then rest else r :: delete_first t rest
  end.

Definition with_installations (s : State) (ins : list Installation)
  : State :=
  {| spots := spots s; installations := ins; trace := trace s |}.

Module installationStore.

(** [storeInstallation]: reading [installation.team.id] or
    [installation.bot.token] of an installation without [team] or [bot]
    throws before the store is reached. *)
Definition storeInstallation (faults : InstallFaults) (env : Env)
    (installation_ : SlackInstallation) (s : State) : Outcome unit * State :=
  match slack_team installation_, slack_bot installation_ with
  | Some t, Some b =>
      if upsert_rejected faults (slack_team_id t)
      then (Failed InstallStoreError, s)
      else (Done tt,
            with_installations s
              (upsert_installation (Date_now env) t b
                 (slack_payload installation_) (installations s)))
  | _, _ => (Failed TypeError, s)
  end.

(** [fetchInstallation] *)
Definition fetchInstallation (env : Env) (teamId_ : string) (s : State)
  : Outcome string * State :=
  match Installation_findOne teamId_ env s with
  | (Returned (Some record), s1) => (Done (installation record), s1)
  | (Returned None, s1) => (Failed (NoInstallationFound teamId_), s1)
  | (Thrown _, s1) => (Failed InstallStoreError, s1)
  end.

(** [deleteInstallation] *)
Definition deleteInstallation (faults : InstallFaults) (teamId_ : string)
    (s : State) : Outcome unit * State :=
  if deleteOne_rejected faults teamId_
  then (Failed InstallStoreError, s)
  else (Done tt,
        with_installations s (delete_first teamId_ (installations s))).

End installationStore.

(** At most one Installation per tenant (the unique index on [teamId]). *)
Definition unique_tenants (ins : list Installation) : Prop :=
  NoDup (map inst_teamId ins).

(* ===================================================================== *)
(** * Footprints of the handlers *)
(* ===================================================================== *)

(** Every run of [m] takes a state to one related to it by [R]. *)
Definition keeps {A} (R : State -> State -> Prop) (m : M A) : Prop :=
  forall env s, R s (snd (m env s)).

Definition same_installations (s s' : State) : Prop :=
  installations s' = installations s.

(** Both collections are as they were and every store operation issued in
    between is a read. *)
Definition only_reads (s s' : State) : Prop :=
  spots s' = spots s
  /\ installations s' = installations s
  /\ exists new,
       trace s' = (trace s ++ new)%list
       /\ Forall (fun op => is_write op = false) (store_ops new).

(** The Spots of a channel, of one tenant or of any. *)
Definition scope_filter (tenant : option string) (c : string) : SpotFilter :=
  {| f_teamId := tenant; f_targetId := None; f_channelId := Some c;
     f_messageTs := None; f_status := None |}.

(** From [s] to [s'] Spots were at most removed, and only Spots selected by
    [f]: those outside [f] are all there, in their order, and no Spot is
    new. *)
Definition removes_only (f : SpotFilter) (s s' : State) : Prop :=
  installations s' = installations s
  /\ filter (fun x => negb (matches f x)) (spots s')
     = filter (fun x => negb (matches f x)) (spots s)
  /\ incl (spots s') (spots s)
  /\ (length (spots s') <= length (spots s))%nat.

(** From [s] to [s'] at most one Spot was appended, and it satisfies [P]. *)
Definition appends_at_most_one (P : Spot -> Prop) (s s' : State) : Prop :=
  installations s' = installations s
  /\ exists new,
       spots s' = (spots s ++ new)%list
       /\ (length new <= 1)%nat
       /\ Forall P new.

(** What the schema in force guarantees of a stored Spot. *)
Definition spot_ok (env : Env) (d : Spot) : Prop :=
  valid (Spot_schema env) d = true.

(** The invariant of the store: every Spot passes the validators of the
    schema in force and no tenant has two Installations. *)
Definition store_invariant (env : Env) (s : State) : Prop :=
  Forall (spot_ok env) (spots s) /\ unique_tenants (installations s).

(** The handlers of both bots, as one type of invocation. *)
Inductive Call :=
| mt_setchannel (c : Command)
| mt_spot (m : Message)
| mt_spotboard (c : Command)
| mt_caughtboard (c : Command)
| mt_pics (m : Message)
| mt_veto (m : Message)
| mt_reset (c : Command)
| st_spot (m : Message)
| st_spotboard (c : Command)
| st_caughtboard (c : Command)
| st_pics (m : Message)
| st_veto (m : Message)
| st_reset (c : Command).

Definition handle (call : Call) : M unit :=
  match call with
  | mt_setchannel c => MultiTenant.setchannel_command c
  | mt_spot m => MultiTenant.spot_listener m
  | mt_spotboard c => MultiTenant.spotboard_command c
  | mt_caughtboard c => MultiTenant.caughtboard_command c
  | mt_pics m => MultiTenant.pics_listener m
  | mt_veto m => MultiTenant.veto_listener m
  | mt_reset c => MultiTenant.reset_command c
  | st_spot m => SingleTenant.spot_listener m
  | st_spotboard c => SingleTenant.spotboard_command c
  | st_caughtboard c => SingleTenant.caughtboard_command c
  | st_pics m => SingleTenant.pics_listener m
  | st_veto m => SingleTenant.veto_listener m
  | st_reset c => SingleTenant.reset_command c
  end.

(** Anything that can happen to the store: a handler runs, a workspace
    installs the bot, a workspace uninstalls it. *)
Inductive Action :=
| Handle (call : Call)
| Install (faults : InstallFaults) (installation_ : SlackInstallation)
| Uninstall (faults : InstallFaults) (teamId_ : string).

Definition step (env : Env) (a : Action) (s : State) : State :=
  match a with
  | Handle call => snd (handle call env s)
  | Install faults i => snd (installationStore.storeInstallation faults env i s)
  | Uninstall faults t => snd (installationStore.deleteInstallation faults t s)
  end.

(** A history: actions in order, each in the environment it met. *)
Fixpoint run_history (h : list (Env * Action)) (s : State) : State :=
  match h with
  | [] => s
  | (env, a) :: rest => run_history rest (step env a s)
  end.

(** No Spot of [s'] is new. *)
Definition no_new_spots (s s' : State) : Prop := incl (spots s') (spots s).

(** The document a spot listener builds for a message and a target. *)
Definition spot_for (env : Env) (tenant : option string) (m : Message)
    (target : string) : Spot :=
  make_Spot env tenant (user m) target (first_file_url m) (channel m)
    (Some (ts m)).

(** What a spot listener past its gate appends for a message. *)
Definition logged (env : Env) (tenant : option string) (m : Message)
  : list Spot :=
  match match_mention (text m), has_files m with
  | Some target, true =>
      if save_succeeds env (spot_for env tenant m target)
      then [spot_for env tenant m target]
      else []
  | _, _ => []
  end.

(* ===================================================================== *)
(** * Vocabulary of the leaderboards *)
(* ===================================================================== *)

(** The number of Spots of [l] that [f] selects and whose grouping field
    is [k]. *)
Definition tally (f : SpotFilter) (key : GroupKey) (k : string)
    (l : list Spot) : nat :=
  length (filter (fun s => (matches f s
                            && String.eqb (group_field key s) k)%bool) l).

(** The count a list of rows gives for [k]: that of its first row with
    this id, 0 when there is none. *)
Definition row_count (k : string) (rows : list Row) : nat :=
  match find (fun r => String.eqb (_id r) k) rows with
  | Some r => count r
  | None => 0%nat
  end.

Definition by_count (r : Row) : Z := Z.of_nat (count r).

(* ===================================================================== *)
(** * Vocabulary of mentions *)
(* ===================================================================== *)

(** The strings of [[A-Z0-9]*]. *)
Fixpoint id_chars (s : string) : bool :=
  match s with
  | EmptyString => true
  | String c r => (is_id_char c && id_chars r)%bool
  end.

(** The text of a mention of [id]. *)
Definition mention_of (id : string) : string := "<@" ++ id ++ ">".

(* ===================================================================== *)
(** * Sample worlds *)
(* ===================================================================== *)

Definition sample_users (u : string) : UsersInfo :=
  if String.eqb u "UADMIN" then InfoUser true
  else if String.eqb u "UGHOST" then InfoFails
  else InfoUser false.

Definition env_mt : Env :=
  {| Date_now := 1770000000000;
     Spot_schema := SpotSchema_tenant;
     users_info := sample_users;
     store_rejects := fun _ => false;
     toLocaleDateString := fun _ => "Feb 2, 2:40 AM" |}.

Definition env_st : Env :=
  {| Date_now := 1770000000000;
     Spot_schema := SpotSchema_plain;
     users_info := sample_users;
     store_rejects := fun _ => false;
     toLocaleDateString := fun _ => "Feb 2, 2:40 AM" |}.

Definition inst_T1 : Installation :=
  {| inst_teamId := "T1"; teamName := Some "Acme"; botToken := "xoxb-1";
     botId := Some "B1"; botUserId := Some "U0BOT";
     activeChannelId := Some "C1"; installation := "{}";
     installedAt := 1760000000000 |}.

Definition spot_1 : Spot :=
  mkSpot (Some "T1") "U1" "U2" "https://files.example/1.png" "C1"
    (Some "1769000000.000100") confirmed 1769000000000.

Definition spot_2 : Spot :=
  mkSpot (Some "T1") "U3" "U2" "https://files.example/2.png" "C1"
    (Some "1769500000.000200") confirmed 1769500000000.

Definition spot_3 : Spot :=
  mkSpot (Some "T1") "U1" "U4" "https://files.example/3.png" "C2"
    (Some "1769600000.000300") confirmed 1769600000000.

Definition state_mt : State :=
  {| spots := [spot_1; spot_2; spot_3]; installations := [inst_T1];
     trace := [] |}.

(** A Spot as the single-tenant bot stores it, in a channel other than
    the hard-coded one. *)
Definition spot_4 : Spot :=
  mkSpot None "U1" "U2" "https://files.example/4.png" "C1" None confirmed
    1769000000000.

Definition spot_5 : Spot :=
  mkSpot None "U3" "U2" "https://files.example/5.png" "C0AD6UA1G92"
    (Some "1769500000.000200") confirmed 1769500000000.

Definition state_st : State :=
  {| spots := [spot_4; spot_5]; installations := []; trace := [] |}.

Definition admin_in_C1 : Command :=
  {| team_id := "T1"; channel_id := "C1"; user_id := "UADMIN";
     command_text := Some "" |}.


Definition ghost_in_C1 : Command :=
  {| team_id := "T1"; channel_id := "C1"; user_id := "UGHOST";
     command_text := None |}.

Definition admin_in_C9 : Command :=
  {| team_id := "T1"; channel_id := "C9"; user_id := "UADMIN";
     command_text := Some "-3" |}.

Definition top_minus_3 : Command :=
  {| team_id := "T1"; channel_id := "C1"; user_id := "U1";
     command_text := Some "-3" |}.

Definition top_5 : Command :=
  {| team_id := "T1"; channel_id := "C1"; user_id := "U1";
     command_text := Some "5" |}.

Definition spotted_with_photo : Message :=
  {| team := "T1"; channel := "C1"; user := "U1";
     text := "spotted <@U2> by the coffee machine";
     ts := "1770000000.000500"; thread_ts := None;
     files := [ {| url_private := "https://files.example/9.png" |} ] |}.

Definition spotted_in_the_channel : Message :=
  {| team := "T1"; channel := "C0AD6UA1G92"; user := "U1";
     text := "spotted <@U2> by the coffee machine";
     ts := "1770000000.000500"; thread_ts := None;
     files := [ {| url_private := "https://files.example/9.png" |} ] |}.

Definition spotted_elsewhere : Message :=
  {| team := "T1"; channel := "C9"; user := "U1";
     text := "spotted <@U2> by the coffee machine";
     ts := "1770000000.000500"; thread_ts := None;
     files := [ {| url_private := "https://files.example/9.png" |} ] |}.

Definition pics_of_U2 : Message :=
  {| team := "T1"; channel := "C1"; user := "U5"; text := "pics <@U2>";
     ts := "1770000001.000600"; thread_ts := None; files := [] |}.

Definition pics_in_the_channel : Message :=
  {| team := "T1"; channel := "C0AD6UA1G92"; user := "U5";
     text := "pics <@U2>"; ts := "1770000001.000600"; thread_ts := None;
     files := [] |}.

Definition veto_of_spot_1 : Message :=
  {| team := "T1"; channel := "C1"; user := "UADMIN"; text := "veto";
     ts := "1770000002.000700";
     thread_ts := Some "1769000000.000100"; files := [] |}.

Definition veto_of_spot_5 : Message :=
  {| team := "T1"; channel := "C0AD6UA1G92"; user := "UADMIN";
     text := "veto"; ts := "1770000002.000700";
     thread_ts := Some "1769500000.000200"; files := [] |}.

Definition veto_by_ghost : Message :=
  {| team := "T1"; channel := "C1"; user := "UGHOST"; text := "veto";
     ts := "1770000002.000700";
     thread_ts := Some "1769000000.000100"; files := [] |}.

(** ** Installations, and further messages *)

Definition install_T2 : SlackInstallation :=
  {| slack_team := Some {| slack_team_id := "T2";
                           slack_team_name := Some "Globex" |};
     slack_bot := Some {| slack_bot_token := "xoxb-2";
                          slack_bot_id := Some "B2";
                          slack_bot_userId := Some "U0BOT2" |};
     slack_payload := "{ team: T2 }" |}.

Definition reinstall_T1 : SlackInstallation :=
  {| slack_team := Some {| slack_team_id := "T1"; slack_team_name := None |};
     slack_bot := Some {| slack_bot_token := "xoxb-1b";
                          slack_bot_id := None;
                          slack_bot_userId := None |};
     slack_payload := "{ team: T1, again }" |}.

Definition no_faults : InstallFaults :=
  {| upsert_rejected := fun _ => false;
     deleteOne_rejected := fun _ => false |}.

Definition veto_of_the_photo : Message :=
  {| team := "T1"; channel := "C1"; user := "UADMIN"; text := "veto";
     ts := "1770000003.000800";
     thread_ts := Some "1770000000.000500"; files := [] |}.

Definition pics_of_U4 : Message :=
  {| team := "T1"; channel := "C1"; user := "U5"; text := "pics <@U4>";
     ts := "1770000001.000600"; thread_ts := None; files := [] |}.


(* ===================================================================== *)
(** * Verification *)
(* ===================================================================== *)

Example parseInt_5 : parseInt (Some "5") = Some 5.
Proof. reflexivity. Qed.
Example parseInt_hex : parseInt (Some " 0x1F") = Some 31.
Proof. reflexivity. Qed.
Example parseInt_prefix : parseInt (Some "12 people") = Some 12.
Proof. reflexivity. Qed.
Example parseInt_abc : parseInt (Some "abc") = None.
Proof. reflexivity. Qed.
Example parseInt_absent : parseInt None = None.
Proof. reflexivity. Qed.
Example match_mention_first :
  match_mention "spotted <@u1> <@U2ABC> and <@U3>" = Some "U2ABC".
Proof. reflexivity. Qed.
Example match_mention_none : match_mention "spotted <@> nobody" = None.
Proof. reflexivity. Qed.

(** The end-to-end case: a photo of U2 posted by U1 in the bound channel. *)
Example spot_logged_end_to_end :
  MultiTenant.spot_listener spotted_with_photo env_mt state_mt
  = (Returned tt,
     {| spots :=
          [spot_1; spot_2; spot_3;
           mkSpot (Some "T1") "U1" "U2" "https://files.example/9.png" "C1"
             (Some "1770000000.000500") confirmed 1770000000000];
        installations := [inst_T1];
        trace :=
          [EvStore (InstallationFindOne "T1");
           EvStore
             (SpotSave
                (mkSpot (Some "T1") "U1" "U2" "https://files.example/9.png"
                   "C1" (Some "1770000000.000500") confirmed 1770000000000));
           EvSay
             (Text
                "✅ *Spot Logged!* <@U1> has captured <@U2> in the wild.")]
     |}).
Proof. reflexivity. Qed.

(** "/spotboard" with no argument, in the bound channel. *)
Example spotboard_default :
  replies
    (trace (snd (MultiTenant.spotboard_command ghost_in_C1 env_mt state_mt)))
  = [Text ("🏆 *Top 10 Spotters*" ++ newline
             ++ "🥇 <@U1>: *1* spots" ++ newline
             ++ "🥈 <@U3>: *1* spots" ++ newline)].
Proof. reflexivity. Qed.

(** ** Proof tools *)

Ltac monad_unfold :=
  unfold bind, ret, try_catch, throw, ack, say, console_error, ask,
    client_users_info, store_call.

Ltac trace_norm := repeat rewrite <- app_assoc; cbn [app].

(** ** Lists *)

Lemma replies_app t1 t2 : replies (t1 ++ t2) = (replies t1 ++ replies t2)%list.
Proof. apply flat_map_app. Qed.

Lemma aggregation_limits_app t1 t2 :
  aggregation_limits (t1 ++ t2)
  = (aggregation_limits t1 ++ aggregation_limits t2)%list.
Proof. apply flat_map_app. Qed.

Lemma filter_length_split {A} (p : A -> bool) l :
  length l
  = (length (filter p l) + length (filter (fun x => negb (p x)) l))%nat.
Proof.
  induction l as [|x l IH]; cbn; [reflexivity|].
  destruct (p x); cbn; lia.
Qed.

Lemma filter_none {A} (p : A -> bool) l :
  filter p (filter (fun x => negb (p x)) l) = [].
Proof.
  induction l as [|x l IH]; cbn; [reflexivity|].
  destruct (p x) eqn:E; cbn; [exact IH|]. rewrite E. exact IH.
Qed.

Lemma find_none_iff t ins :
  find (for_team t) ins = None <-> (forall r, In r ins -> inst_teamId r <> t).
Proof.
  split.
  - intros H r Hin E. apply (find_none _ _ H) in Hin. unfold for_team in Hin.
    rewrite E, String.eqb_refl in Hin. discriminate.
  - intros H. destruct (find (for_team t) ins) eqn:E; [|reflexivity].
    apply find_some in E. destruct E as [Hin E]. unfold for_team in E.
    apply String.eqb_eq in E. exfalso. exact (H _ Hin E).
Qed.


Lemma insert_desc_length {A} (w : A -> Z) x l :
  length (insert_desc w x l) = S (length l).
Proof.
  induction l as [|y l IH]; cbn; [reflexivity|].
  destruct (w x <? w y); cbn; [rewrite IH|]; reflexivity.
Qed.

Lemma sort_desc_length {A} (w : A -> Z) l : length (sort_desc w l) = length l.
Proof.
  induction l as [|x l IH]; cbn; [reflexivity|].
  rewrite insert_desc_length. unfold sort_desc in IH. rewrite IH. reflexivity.
Qed.

Lemma pipeline_length f key limit l :
  length (pipeline f key limit l)
  = Nat.min (Z.to_nat limit) (length (groups f key l)).
Proof.
  unfold pipeline, groups. rewrite length_firstn, sort_desc_length. reflexivity.
Qed.

(** ** The channel gate *)

Lemma isActiveChannel_run env s t c :
  store_rejects env (InstallationFindOne t) = false ->
  MultiTenant.isActiveChannel t c env s =
    (Returned (gate_passes (installations s) t c), emit (gate_lookup t) s).
Proof.
  intros H. unfold MultiTenant.isActiveChannel, MultiTenant.getActiveChannel,
    Installation_findOne, store_call, bind, ret, gate_passes, bound_channel,
    gate_lookup.
  rewrite H. cbn.
  destruct (MultiTenant.active_of _); reflexivity.
Qed.

(** C4. [isActiveChannel(tenant, channel)] fails closed: it returns false
    when the tenant has no Installation or the Installation's active
    channel is unset, and otherwise returns true exactly when the stored
    active channel is the given channel.  (It returns whenever the store
    answers the lookup, which is the only thing it does.) *)
Theorem isActiveChannel_fails_closed env s t c :
  store_rejects env (InstallationFindOne t) = false ->
  exists b,
    MultiTenant.isActiveChannel t c env s
    = (Returned b, emit (gate_lookup t) s)
    /\ ((forall r, In r (installations s) -> inst_teamId r <> t) -> b = false)
    /\ (forall r, find (for_team t) (installations s) = Some r ->
          unset (activeChannelId r) -> b = false)
    /\ (forall r a, find (for_team t) (installations s) = Some r ->
          activeChannelId r = Some a -> a <> "" -> (b = true <-> a = c)).
Proof.
  intros H. eexists. split; [apply isActiveChannel_run; exact H|].
  unfold gate_passes, bound_channel. split; [|split].
  - intros Hn. apply find_none_iff in Hn. rewrite Hn. reflexivity.
  - intros r Hr [U|U]; rewrite Hr; cbn [MultiTenant.active_of];
      rewrite U; reflexivity.
  - intros r a Hr Ha Hne. rewrite Hr. cbn [MultiTenant.active_of].
    rewrite Ha. destruct a; [congruence|]. cbn [truthy].
    apply String.eqb_eq.
Qed.


(** ** Leaderboards *)

Lemma Spot_aggregate_run env s f key limit :
  Spot_aggregate f key limit env s
  = (if (store_rejects env (SpotAggregate f key limit) || (limit <=? 0))%bool
     then Thrown StoreError
     else Returned (pipeline f key limit (spots s)),
     emit (EvStore (SpotAggregate f key limit)) s).
Proof.
  unfold Spot_aggregate. monad_unfold.
  destruct (store_rejects env _); cbn; [reflexivity|].
  destruct (limit <=? 0); destruct s; reflexivity.
Qed.

Lemma leaderboard_limit_eq text :
  leaderboard_limit text
  = match parseInt text with
    | None => 10
    | Some n => if n =? 0 then 10 else if 25 <? n then 25 else n
    end.
Proof.
  unfold leaderboard_limit. destruct (parseInt text) as [n|]; [|reflexivity].
  destruct (Z.eqb_spec n 0); [reflexivity|].
  rewrite Z.gtb_ltb. reflexivity.
Qed.

Ltac board_run :=
  monad_unfold; cbn [fst snd];
  rewrite Spot_aggregate_run; unfold board_events, board_reply;
  match goal with
  | |- context [(store_rejects ?e ?o || ?b)%bool] =>
      destruct (store_rejects e o || b)%bool
  end;
  unfold emit; cbn [trace spots installations];
  [ trace_norm; reflexivity
  | match goal with
    | |- context [pipeline ?f ?k ?l ?sp] => destruct (pipeline f k l sp)
    end;
    cbn [trace spots installations]; trace_norm; reflexivity ].

Lemma st_spotboard_run env s c :
  let limit := leaderboard_limit (command_text c) in
  let f := SingleTenant.board_filter c in
  SingleTenant.spotboard_command c env s
  = (Returned tt,
     {| spots := spots s; installations := installations s;
        trace := trace s ++ EvAck ::
          board_events env (SpotAggregate f by_spotterId limit) limit
            (pipeline f by_spotterId limit (spots s))
            SingleTenant.no_spots_yet spotboard_text trouble_spotboard |}).
Proof.
  intros limit f. subst limit f. unfold SingleTenant.spotboard_command.
  board_run.
Qed.

Lemma st_caughtboard_run env s c :
  let limit := leaderboard_limit (command_text c) in
  let f := SingleTenant.board_filter c in
  SingleTenant.caughtboard_command c env s
  = (Returned tt,
     {| spots := spots s; installations := installations s;
        trace := trace s ++ EvAck ::
          board_events env (SpotAggregate f by_targetId limit) limit
            (pipeline f by_targetId limit (spots s))
            SingleTenant.nobody_caught caughtboard_text trouble_caughtboard |}).
Proof.
  intros limit f. subst limit f. unfold SingleTenant.caughtboard_command.
  board_run.
Qed.

Ltac pass_gate Hg Hp :=
  unfold bind at 1; unfold ack; unfold bind at 1;
  rewrite isActiveChannel_run by exact Hg;
  cbn [installations emit]; rewrite Hp; cbn [negb].

Lemma mt_spotboard_run env s c :
  store_rejects env (InstallationFindOne (team_id c)) = false ->
  gate_passes (installations s) (team_id c) (channel_id c) = true ->
  let limit := leaderboard_limit (command_text c) in
  let f := MultiTenant.board_filter c in
  MultiTenant.spotboard_command c env s
  = (Returned tt,
     {| spots := spots s; installations := installations s;
        trace := trace s ++ EvAck :: gate_lookup (team_id c) ::
          board_events env (SpotAggregate f by_spotterId limit) limit
            (pipeline f by_spotterId limit (spots s))
            MultiTenant.no_spots_yet spotboard_text trouble_spotboard |}).
Proof.
  intros Hg Hp limit f. subst limit f. unfold MultiTenant.spotboard_command.
  pass_gate Hg Hp. board_run.
Qed.

Lemma mt_caughtboard_run env s c :
  store_rejects env (InstallationFindOne (team_id c)) = false ->
  gate_passes (installations s) (team_id c) (channel_id c) = true ->
  let limit := leaderboard_limit (command_text c) in
  let f := MultiTenant.board_filter c in
  MultiTenant.caughtboard_command c env s
  = (Returned tt,
     {| spots := spots s; installations := installations s;
        trace := trace s ++ EvAck :: gate_lookup (team_id c) ::
          board_events env (SpotAggregate f by_targetId limit) limit
            (pipeline f by_targetId limit (spots s))
            MultiTenant.nobody_caught caughtboard_text trouble_caughtboard |}).
Proof.
  intros Hg Hp limit f. subst limit f. unfold MultiTenant.caughtboard_command.
  pass_gate Hg Hp. board_run.
Qed.

Lemma board_events_limits env f key limit rows empty render trouble :
  aggregation_limits
    (board_events env (SpotAggregate f key limit) limit rows empty render
       trouble)
  = [limit].
Proof.
  unfold board_events. destruct (_ || _)%bool; reflexivity.
Qed.

Lemma board_events_replies env op limit rows empty render trouble :
  store_rejects env op = false -> 0 < limit ->
  replies (board_events env op limit rows empty render trouble)
  = [board_reply empty render limit rows].
Proof.
  intros H Hl. unfold board_events. rewrite H.
  destruct (Z.leb_spec limit 0); [lia|]. reflexivity.
Qed.

(** C10. The leaderboard limit has no lower clamp: a text that parses to a
    negative integer [n] yields the limit [n], and that is the [$limit] the
    commands send to the store; the text "0" parses to the falsy 0 and
    yields the default 10; a parsed value other than 0 is changed only
    when it is strictly greater than 25. *)
Theorem leaderboard_limit_has_no_lower_clamp :
  (forall text n,
      parseInt text = Some n -> n < 0 -> leaderboard_limit text = n)
  /\ (parseInt (Some "0") = Some 0 /\ leaderboard_limit (Some "0") = 10)
  /\ (forall text n,
        parseInt text = Some n -> n <> 0 ->
        (leaderboard_limit text <> n <-> 25 < n))
  /\ (forall env s c,
        aggregation_limits
          (trace (snd (SingleTenant.spotboard_command c env s)))
        = (aggregation_limits (trace s)
             ++ [leaderboard_limit (command_text c)])%list)
  /\ (forall env s c,
        aggregation_limits
          (trace (snd (SingleTenant.caughtboard_command c env s)))
        = (aggregation_limits (trace s)
             ++ [leaderboard_limit (command_text c)])%list)
  /\ (forall env s c,
        store_rejects env (InstallationFindOne (team_id c)) = false ->
        gate_passes (installations s) (team_id c) (channel_id c) = true ->
        aggregation_limits
          (trace (snd (MultiTenant.spotboard_command c env s)))
        = (aggregation_limits (trace s)
             ++ [leaderboard_limit (command_text c)])%list)
  /\ (forall env s c,
        store_rejects env (InstallationFindOne (team_id c)) = false ->
        gate_passes (installations s) (team_id c) (channel_id c) = true ->
        aggregation_limits
          (trace (snd (MultiTenant.caughtboard_command c env s)))
        = (aggregation_limits (trace s)
             ++ [leaderboard_limit (command_text c)])%list).
Proof.
  split; [|split; [|split; [|split; [|split; [|split]]]]].
  - intros text n Hp Hn. rewrite leaderboard_limit_eq, Hp.
    destruct (Z.eqb_spec n 0); [lia|]. destruct (Z.ltb_spec 25 n); lia.
  - split; reflexivity.
  - intros text n Hp Hn. rewrite leaderboard_limit_eq, Hp.
    destruct (Z.eqb_spec n 0); [lia|]. destruct (Z.ltb_spec 25 n); lia.
  - intros env s c. rewrite st_spotboard_run. cbn [snd trace].
    rewrite aggregation_limits_app.
    change (aggregation_limits (EvAck :: ?t)) with (aggregation_limits t).
    rewrite board_events_limits. reflexivity.
  - intros env s c. rewrite st_caughtboard_run. cbn [snd trace].
    rewrite aggregation_limits_app.
    change (aggregation_limits (EvAck :: ?t)) with (aggregation_limits t).
    rewrite board_events_limits. reflexivity.
  - intros env s c Hg Hp. rewrite mt_spotboard_run by assumption.
    cbn [snd trace]. rewrite aggregation_limits_app.
    change (aggregation_limits (EvAck :: gate_lookup ?x :: ?t))
      with (aggregation_limits t).
    rewrite board_events_limits. reflexivity.
  - intros env s c Hg Hp. rewrite mt_caughtboard_run by assumption.
    cbn [snd trace]. rewrite aggregation_limits_app.
    change (aggregation_limits (EvAck :: gate_lookup ?x :: ?t))
      with (aggregation_limits t).
    rewrite board_events_limits. reflexivity.
Qed.

(** C5, as stated, fails on the text "0": it is numeric and does not
    exceed 25, yet the limit is not the parsed value. *)
Lemma leaderboard_limit_zero_counterexample :
  ~ (forall text n,
        parseInt text = Some n -> n <= 25 -> leaderboard_limit text = n).
Proof.
  intros H. specialize (H (Some "0") 0 eq_refl). vm_compute in H.
  specialize (H ltac:(discriminate)). discriminate.
Qed.

(** C5, amended.  The limit of [/spotboard] and [/caughtboard] is 10 when
    the text is absent, not numeric or parses to 0; 25 when the parsed
    value exceeds 25; the parsed value otherwise.  The aggregation returns
    when the store accepts it and the limit is positive, and the list it
    returns has at most that many rows: at most 5 for "5", at most 25 for
    "999", exactly 10 for "abc" or no text when at least 10 groups exist.
    The commands reply with exactly those rows. *)
Theorem leaderboard_limit_and_rows :
  (forall text, parseInt text = None -> leaderboard_limit text = 10)
  /\ (forall text, parseInt text = Some 0 -> leaderboard_limit text = 10)
  /\ (forall text n,
        parseInt text = Some n -> 25 < n -> leaderboard_limit text = 25)
  /\ (forall text n,
        parseInt text = Some n -> n <> 0 -> n <= 25 ->
        leaderboard_limit text = n)
  /\ (leaderboard_limit (Some "5") = 5
      /\ leaderboard_limit (Some "999") = 25
      /\ leaderboard_limit (Some "abc") = 10
      /\ leaderboard_limit (Some "") = 10
      /\ leaderboard_limit None = 10)
  /\ (forall env s f key text,
        store_rejects env (SpotAggregate f key (leaderboard_limit text))
        = false ->
        0 < leaderboard_limit text ->
        Spot_aggregate f key (leaderboard_limit text) env s
        = (Returned (pipeline f key (leaderboard_limit text) (spots s)),
           emit (EvStore (SpotAggregate f key (leaderboard_limit text))) s))
  /\ (forall env s f key text rows s',
        Spot_aggregate f key (leaderboard_limit text) env s
        = (Returned rows, s') ->
        Z.of_nat (length rows) <= leaderboard_limit text
        /\ (leaderboard_limit text = 10 ->
            (10 <= length (groups f key (spots s)))%nat ->
            length rows = 10%nat))
  /\ (forall env s c,
        let limit := leaderboard_limit (command_text c) in
        let f := SingleTenant.board_filter c in
        0 < limit ->
        (store_rejects env (SpotAggregate f by_spotterId limit) = false ->
         replies (trace (snd (SingleTenant.spotboard_command c env s)))
         = (replies (trace s)
              ++ [board_reply SingleTenant.no_spots_yet spotboard_text limit
                    (pipeline f by_spotterId limit (spots s))])%list)
        /\ (store_rejects env (SpotAggregate f by_targetId limit) = false ->
            replies (trace (snd (SingleTenant.caughtboard_command c env s)))
            = (replies (trace s)
                 ++ [board_reply SingleTenant.nobody_caught caughtboard_text
                       limit (pipeline f by_targetId limit (spots s))])%list))
  /\ (forall env s c,
        let limit := leaderboard_limit (command_text c) in
        let f := MultiTenant.board_filter c in
        0 < limit ->
        store_rejects env (InstallationFindOne (team_id c)) = false ->
        gate_passes (installations s) (team_id c) (channel_id c) = true ->
        (store_rejects env (SpotAggregate f by_spotterId limit) = false ->
         replies (trace (snd (MultiTenant.spotboard_command c env s)))
         = (replies (trace s)
              ++ [board_reply MultiTenant.no_spots_yet spotboard_text limit
                    (pipeline f by_spotterId limit (spots s))])%list)
        /\ (store_rejects env (SpotAggregate f by_targetId limit) = false ->
            replies (trace (snd (MultiTenant.caughtboard_command c env s)))
            = (replies (trace s)
                 ++ [board_reply MultiTenant.nobody_caught caughtboard_text
                       limit (pipeline f by_targetId limit (spots s))])%list)).
Proof.
  repeat match goal with |- _ /\ _ => split end.
  - intros text Hp. rewrite leaderboard_limit_eq, Hp. reflexivity.
  - intros text Hp. rewrite leaderboard_limit_eq, Hp. reflexivity.
  - intros text n Hp Hn. rewrite leaderboard_limit_eq, Hp.
    destruct (Z.eqb_spec n 0); [lia|]. destruct (Z.ltb_spec 25 n); lia.
  - intros text n Hp Hn Hle. rewrite leaderboard_limit_eq, Hp.
    destruct (Z.eqb_spec n 0); [lia|]. destruct (Z.ltb_spec 25 n); lia.
  - reflexivity.
  - reflexivity.
  - reflexivity.
  - reflexivity.
  - reflexivity.
  - intros env s f key text Hs Hl. rewrite Spot_aggregate_run, Hs.
    destruct (Z.leb_spec (leaderboard_limit text) 0); [lia|]. reflexivity.
  - intros env s f key text rows s' H. rewrite Spot_aggregate_run in H.
    destruct (store_rejects env _); [discriminate|]. cbn [orb] in H.
    destruct (Z.leb_spec (leaderboard_limit text) 0); [discriminate|].
    injection H as <- _. rewrite pipeline_length. split; [lia|].
    intros -> Hg. change (Z.to_nat 10) with 10%nat. lia.
  - intros env s c limit f Hl. subst limit f. split; intros Hs.
    + rewrite st_spotboard_run. cbn [snd trace]. rewrite replies_app.
      change (replies (EvAck :: ?t)) with (replies t).
      rewrite board_events_replies by assumption. reflexivity.
    + rewrite st_caughtboard_run. cbn [snd trace]. rewrite replies_app.
      change (replies (EvAck :: ?t)) with (replies t).
      rewrite board_events_replies by assumption. reflexivity.
  - intros env s c limit f Hl Hg Hp. subst limit f. split; intros Hs.
    + rewrite mt_spotboard_run by assumption. cbn [snd trace].
      rewrite replies_app.
      change (replies (EvAck :: gate_lookup ?x :: ?t)) with (replies t).
      rewrite board_events_replies by assumption. reflexivity.
    + rewrite mt_caughtboard_run by assumption. cbn [snd trace].
      rewrite replies_app.
      change (replies (EvAck :: gate_lookup ?x :: ?t)) with (replies t).
      rewrite board_events_replies by assumption. reflexivity.
Qed.

(** ** Filters *)

Lemma cond_opt_some v have :
  cond_opt (Some v) have = true <-> have = Some v.
Proof.
  unfold cond_opt. destruct have as [x|].
  - rewrite String.eqb_eq. split; congruence.
  - split; discriminate.
Qed.

Lemma cond_str_some v have : cond_str (Some v) have = true <-> have = v.
Proof. unfold cond_str. apply String.eqb_eq. Qed.

Lemma cond_status_confirmed have :
  cond_status (Some confirmed) have = true <-> have = confirmed.
Proof. unfold cond_status. destruct have; cbn; split; congruence. Qed.

Lemma matches_mt_reset c x :
  matches (MultiTenant.reset_filter c) x = true
  <-> teamId x = Some (team_id c) /\ channelId x = channel_id c.
Proof.
  unfold matches, MultiTenant.reset_filter.
  cbn [f_teamId f_targetId f_channelId f_messageTs f_status].
  rewrite !andb_true_iff, cond_opt_some, cond_str_some. cbn. tauto.
Qed.

Lemma matches_st_reset c x :
  matches (SingleTenant.reset_filter c) x = true
  <-> channelId x = channel_id c.
Proof.
  unfold matches, SingleTenant.reset_filter.
  cbn [f_teamId f_targetId f_channelId f_messageTs f_status].
  rewrite !andb_true_iff, cond_str_some. cbn. tauto.
Qed.

Lemma in_after_reset f l x :
  In x (after_reset f l) <-> In x l /\ matches f x <> true.
Proof.
  unfold after_reset. rewrite filter_In.
  destruct (matches f x); cbn; intuition congruence.
Qed.

Lemma after_reset_removed f l :
  length (filter (matches f) l)
  = (length l - length (after_reset f l))%nat.
Proof.
  unfold after_reset. pose proof (filter_length_split (matches f) l). lia.
Qed.

Lemma after_reset_again f l :
  length (filter (matches f) (after_reset f l)) = 0%nat.
Proof. unfold after_reset. rewrite filter_none. reflexivity. Qed.

Lemma after_reset_idem f l : after_reset f (after_reset f l) = after_reset f l.
Proof.
  unfold after_reset. induction l as [|x l IH]; cbn; [reflexivity|].
  destruct (matches f x) eqn:E; cbn; [exact IH|]. rewrite E. cbn.
  rewrite IH. reflexivity.
Qed.

(** ** [/reset] *)

Lemma mt_reset_run env s c :
  store_rejects env (InstallationFindOne (team_id c)) = false ->
  gate_passes (installations s) (team_id c) (channel_id c) = true ->
  users_info env (user_id c) = InfoUser true ->
  store_rejects env (SpotDeleteMany (MultiTenant.reset_filter c)) = false ->
  MultiTenant.reset_command c env s =
    (Returned tt,
     {| spots := after_reset (MultiTenant.reset_filter c) (spots s);
        installations := installations s;
        trace := trace s ++
          [EvAck; gate_lookup (team_id c); EvUsersInfo (user_id c);
           EvStore (SpotDeleteMany (MultiTenant.reset_filter c));
           EvSay (reset_report (MultiTenant.kaboom c)
                    (length (filter (matches (MultiTenant.reset_filter c))
                               (spots s))))] |}).
Proof.
  intros Hg Hp Ha Hd. unfold MultiTenant.reset_command.
  pass_gate Hg Hp.
  unfold Spot_deleteMany. monad_unfold. cbn [emit trace spots installations].
  rewrite Ha. cbn beta iota. cbn [negb]. rewrite Hd. cbn beta iota.
  unfold reset_report, after_reset, gate_lookup.
  destruct (Nat.ltb 0 _); unfold emit; cbn [trace spots installations];
    trace_norm; reflexivity.
Qed.

Lemma st_reset_run env s c :
  users_info env (user_id c) = InfoUser true ->
  store_rejects env (SpotDeleteMany (SingleTenant.reset_filter c)) = false ->
  SingleTenant.reset_command c env s =
    (Returned tt,
     {| spots := after_reset (SingleTenant.reset_filter c) (spots s);
        installations := installations s;
        trace := trace s ++
          [EvAck; EvUsersInfo (user_id c);
           EvStore (SpotDeleteMany (SingleTenant.reset_filter c));
           EvSay (reset_report (SingleTenant.kaboom c)
                    (length (filter (matches (SingleTenant.reset_filter c))
                               (spots s))))] |}).
Proof.
  intros Ha Hd. unfold SingleTenant.reset_command.
  unfold Spot_deleteMany. monad_unfold. cbn [emit trace spots installations].
  rewrite Ha. cbn beta iota. cbn [negb]. rewrite Hd. cbn beta iota.
  unfold reset_report, after_reset.
  destruct (Nat.ltb 0 _); unfold emit; cbn [trace spots installations];
    trace_norm; reflexivity.
Qed.

(** The numeral [nat_to_string] writes reads back as the number. *)
Lemma nat_to_string_reads_back n : decimal_value (nat_to_string n) = Some n.
Proof.
  unfold decimal_value, nat_to_string.
  destruct (Nat.to_uint n) as [| | | | | | | | | |] eqn:E;
    try (rewrite <- E, NilZero.usu by (rewrite E; discriminate);
         cbn [option_map]; rewrite Unsigned.of_to; reflexivity).
  rewrite NilZero.usu_nil. cbn [option_map].
  rewrite <- (Unsigned.of_to n), E. reflexivity.
Qed.

(** C6. An authorized [/reset] removes all and only the Spots of the
    invoking channel (and tenant, in the multi-tenant bot) and keeps the
    others in place.  When it removed some, its reply is the "Kaboom" text
    with the administrator and the decimal numeral of the number of Spots
    actually removed; when it removed none, the reply is the "already
    clean" text.  A second [/reset] right after it removes nothing and
    replies that the board is already clean. *)
Theorem reset_deletes_its_scope :
  (forall env s c,
      store_rejects env (InstallationFindOne (team_id c)) = false ->
      gate_passes (installations s) (team_id c) (channel_id c) = true ->
      users_info env (user_id c) = InfoUser true ->
      store_rejects env (SpotDeleteMany (MultiTenant.reset_filter c))
      = false ->
      exists s1 s2,
        MultiTenant.reset_command c env s = (Returned tt, s1)
        /\ (forall x, In x (spots s1) <->
              In x (spots s)
              /\ ~ (teamId x = Some (team_id c)
                    /\ channelId x = channel_id c))
        /\ spots s1 = after_reset (MultiTenant.reset_filter c) (spots s)
        /\ installations s1 = installations s
        /\ replies (trace s1)
           = (replies (trace s)
                ++ [if Nat.ltb 0 (length (spots s) - length (spots s1))
                    then Text ("*Kaboom!* Admin <@" ++ user_id c
                                 ++ "> has wiped the board. "
                                 ++ nat_to_string
                                      (length (spots s) - length (spots s1))
                                 ++ " spots deleted.")
                    else Text "🧹 The board is already clean."])%list
        /\ MultiTenant.reset_command c env s1 = (Returned tt, s2)
        /\ spots s2 = spots s1
        /\ replies (trace s2)
           = (replies (trace s1)
                ++ [Text "🧹 The board is already clean."])%list)
  /\ (forall env s c,
        users_info env (user_id c) = InfoUser true ->
        store_rejects env (SpotDeleteMany (SingleTenant.reset_filter c))
        = false ->
        exists s1 s2,
          SingleTenant.reset_command c env s = (Returned tt, s1)
          /\ (forall x, In x (spots s1) <->
                In x (spots s) /\ channelId x <> channel_id c)
          /\ spots s1 = after_reset (SingleTenant.reset_filter c) (spots s)
          /\ installations s1 = installations s
          /\ replies (trace s1)
             = (replies (trace s)
                  ++ [if Nat.ltb 0 (length (spots s) - length (spots s1))
                      then Text ("qm *Kaboom!* Admin <@" ++ user_id c
                                   ++ "> has wiped the board. "
                                   ++ nat_to_string
                                        (length (spots s)
                                         - length (spots s1))
                                   ++ " spots deleted.")
                      else Text "🧹 The board is already clean."])%list
          /\ SingleTenant.reset_command c env s1 = (Returned tt, s2)
          /\ spots s2 = spots s1
          /\ replies (trace s2)
             = (replies (trace s1)
                  ++ [Text "🧹 The board is already clean."])%list)
  /\ (forall n, decimal_value (nat_to_string n) = Some n).
Proof.
  split; [|split; [|exact nat_to_string_reads_back]].
  - intros env s c Hg Hp Ha Hd.
    do 2 eexists. split; [apply mt_reset_run; assumption|].
    cbn [spots installations trace].
    split; [|split; [|split; [|split; [|split; [|split]]]]].
    + intros x. rewrite in_after_reset, matches_mt_reset. tauto.
    + reflexivity.
    + reflexivity.
    + rewrite replies_app, after_reset_removed. reflexivity.
    + apply mt_reset_run; assumption.
    + apply after_reset_idem.
    + cbn [trace]. rewrite replies_app with (t2 := [_; _; _; _; _]).
      cbn [spots]. rewrite after_reset_again. reflexivity.
  - intros env s c Ha Hd.
    do 2 eexists. split; [apply st_reset_run; assumption|].
    cbn [spots installations trace].
    split; [|split; [|split; [|split; [|split; [|split]]]]].
    + intros x. rewrite in_after_reset, matches_st_reset. tauto.
    + reflexivity.
    + reflexivity.
    + rewrite replies_app, after_reset_removed. reflexivity.
    + apply st_reset_run; assumption.
    + apply after_reset_idem.
    + cbn [trace]. rewrite replies_app with (t2 := [_; _; _; _]).
      cbn [spots]. rewrite after_reset_again. reflexivity.
Qed.

(** ** The Authorization Check *)

Lemma threaded_check root own :
  root <> "" -> root <> own ->
  (negb (truthy root) || String.eqb root own)%bool = false.
Proof.
  intros Hne Hd. destruct root; [congruence|]. cbn [truthy negb orb].
  apply String.eqb_neq. exact Hd.
Qed.

Ltac pass_gate_msg Hg Hp :=
  unfold bind at 1;
  rewrite isActiveChannel_run by exact Hg;
  cbn [installations emit]; rewrite Hp; cbn [negb].

Ltac finish_run :=
  unfold emit, gate_lookup; cbn [trace spots installations];
  trace_norm; reflexivity.


(** ** The trace only grows *)

Lemma starts_with_weaken {A} pre (m : M A) :
  starts_with pre m -> starts_with [] m.
Proof.
  intros H env s. destruct (H env s) as [rest E].
  exists (pre ++ rest)%list. exact E.
Qed.

Lemma grows_ret {A} (a : A) : starts_with [] (ret a).
Proof. intros env s. exists []. cbn. rewrite app_nil_r. reflexivity. Qed.

Lemma grows_throw {A} e : starts_with [] (@throw A e).
Proof. intros env s. exists []. cbn. rewrite app_nil_r. reflexivity. Qed.

Lemma grows_ask {A} (f : Env -> A) : starts_with [] (ask f).
Proof. intros env s. exists []. cbn. rewrite app_nil_r. reflexivity. Qed.

Lemma grows_say r : starts_with [] (say r).
Proof. intros env s. exists [EvSay r]. reflexivity. Qed.

Lemma grows_ack : starts_with [EvAck] ack.
Proof. intros env s. exists []. reflexivity. Qed.

Lemma grows_console_error : starts_with [] console_error.
Proof. intros env s. exists [EvConsoleError]. reflexivity. Qed.

Lemma grows_users_info u : starts_with [] (client_users_info u).
Proof.
  intros env s. exists [EvUsersInfo u]. unfold client_users_info.
  destruct (users_info env u); reflexivity.
Qed.

Lemma grows_new_Spot a b c d e f : starts_with [] (new_Spot a b c d e f).
Proof. intros env s. exists []. cbn. rewrite app_nil_r. reflexivity. Qed.

Lemma grows_store_call {A} op
    (run : list Spot -> list Installation
           -> A * list Spot * list Installation) :
  starts_with [EvStore op] (store_call op run).
Proof.
  intros env s. exists []. unfold store_call.
  destruct (store_rejects env op); [reflexivity|].
  cbn [emit spots installations]. destruct (run _ _) as [[a sp] ins].
  reflexivity.
Qed.

Lemma grows_bind {A B} pre (m : M A) (k : A -> M B) :
  starts_with pre m -> (forall a, starts_with [] (k a)) ->
  starts_with pre (bind m k).
Proof.
  intros Hm Hk env s. unfold bind. destruct (Hm env s) as [r1 E1].
  destruct (m env s) as [[a|e] s1]; cbn [snd] in *.
  - destruct (Hk a env s1) as [r2 E2]. exists (r1 ++ r2)%list.
    rewrite E2, E1. cbn [app]. rewrite <- !app_assoc. reflexivity.
  - exists r1. exact E1.
Qed.

Lemma grows_try_catch {A} (body : M A) (handler : Exn -> M A) :
  starts_with [] body -> (forall e, starts_with [] (handler e)) ->
  starts_with [] (try_catch body handler).
Proof.
  intros Hm Hk env s. unfold try_catch. destruct (Hm env s) as [r1 E1].
  destruct (body env s) as [[a|e] s1]; cbn [snd] in *.
  - exists r1. exact E1.
  - destruct (Hk e env s1) as [r2 E2]. exists (r1 ++ r2)%list.
    rewrite E2, E1. cbn [app]. rewrite <- !app_assoc. reflexivity.
Qed.

Lemma grows_after_ack {A} pre (m : M A) :
  starts_with pre m -> starts_with (EvAck :: pre) (bind ack (fun _ => m)).
Proof.
  intros Hm env s. unfold bind, ack. destruct (Hm env (emit EvAck s)) as [r E].
  exists r. rewrite E. cbn [emit trace]. rewrite <- !app_assoc. reflexivity.
Qed.

Lemma gate_is_first t c :
  starts_with [gate_lookup t] (MultiTenant.isActiveChannel t c).
Proof.
  unfold MultiTenant.isActiveChannel, MultiTenant.getActiveChannel.
  apply grows_bind.
  - apply grows_bind; [apply grows_store_call | intros; apply grows_ret].
  - intros [a|]; apply grows_ret.
Qed.

(** Discharges [starts_with [] m] for a handler body by following its
    structure. *)
Ltac grows :=
  repeat first
    [ apply grows_ret | apply grows_throw | apply grows_ask | apply grows_say
    | apply grows_console_error | apply grows_users_info
    | apply grows_new_Spot
    | apply (starts_with_weaken [EvAck]); apply grows_ack
    | eapply starts_with_weaken; apply grows_store_call
    | apply grows_try_catch
    | apply (grows_bind [])
    | match goal with
      | |- forall _, _ => intro
      | |- starts_with _ (if ?b then _ else _) => destruct b
      | |- starts_with _ (match ?x with _ => _ end) => destruct x
      end ].

Lemma grows_Spot_save d : starts_with [] (Spot_save d).
Proof. unfold Spot_save. grows. Qed.

Lemma grows_Spot_aggregate f k l : starts_with [] (Spot_aggregate f k l).
Proof. unfold Spot_aggregate. grows. Qed.

Lemma mt_spot_gate_first m :
  starts_with [gate_lookup (team m)] (MultiTenant.spot_listener m).
Proof.
  unfold MultiTenant.spot_listener. apply grows_bind; [apply gate_is_first|].
  grows; apply grows_Spot_save.
Qed.

Lemma mt_pics_gate_first m :
  starts_with [gate_lookup (team m)] (MultiTenant.pics_listener m).
Proof.
  unfold MultiTenant.pics_listener, Spot_find_newest.
  apply grows_bind; [apply gate_is_first|]. grows.
Qed.

Lemma mt_veto_gate_first m :
  starts_with [gate_lookup (team m)] (MultiTenant.veto_listener m).
Proof.
  unfold MultiTenant.veto_listener, Spot_findOneAndDelete.
  apply grows_bind; [apply gate_is_first|]. grows.
Qed.

Lemma mt_spotboard_gate_first c :
  starts_with [EvAck; gate_lookup (team_id c)]
    (MultiTenant.spotboard_command c).
Proof.
  unfold MultiTenant.spotboard_command. apply grows_after_ack.
  apply grows_bind; [apply gate_is_first|].
  grows; apply grows_Spot_aggregate.
Qed.

Lemma mt_caughtboard_gate_first c :
  starts_with [EvAck; gate_lookup (team_id c)]
    (MultiTenant.caughtboard_command c).
Proof.
  unfold MultiTenant.caughtboard_command. apply grows_after_ack.
  apply grows_bind; [apply gate_is_first|].
  grows; apply grows_Spot_aggregate.
Qed.

Lemma mt_reset_gate_first c :
  starts_with [EvAck; gate_lookup (team_id c)] (MultiTenant.reset_command c).
Proof.
  unfold MultiTenant.reset_command, Spot_deleteMany. apply grows_after_ack.
  apply grows_bind; [apply gate_is_first|]. grows.
Qed.

(** ** The channel gate in the handlers *)

Lemma users_info_is_first u :
  starts_with [EvUsersInfo u] (client_users_info u).
Proof.
  intros env s. exists []. unfold client_users_info.
  destruct (users_info env u); reflexivity.
Qed.

Lemma grows_try_catch_after {A} pre (body : M A) (handler : Exn -> M A) :
  starts_with pre body -> (forall e, starts_with [] (handler e)) ->
  starts_with pre (try_catch body handler).
Proof.
  intros Hm Hk env s. unfold try_catch. destruct (Hm env s) as [r1 E1].
  destruct (body env s) as [[a|e] s1]; cbn [snd] in *.
  - exists r1. exact E1.
  - destruct (Hk e env s1) as [r2 E2]. exists (r1 ++ r2)%list.
    rewrite E2, E1. cbn [app]. rewrite <- !app_assoc. reflexivity.
Qed.

Lemma aggregate_is_first f k l :
  starts_with [EvStore (SpotAggregate f k l)] (Spot_aggregate f k l).
Proof.
  unfold Spot_aggregate. apply grows_bind; [apply grows_store_call|].
  intros rows. destruct (l <=? 0); [apply grows_throw | apply grows_ret].
Qed.

(** The single-tenant handlers that have no channel gate. *)
Lemma st_spotboard_ungated c :
  starts_with
    [EvAck;
     EvStore (SpotAggregate (SingleTenant.board_filter c) by_spotterId
                (leaderboard_limit (command_text c)))]
    (SingleTenant.spotboard_command c).
Proof.
  unfold SingleTenant.spotboard_command. apply grows_after_ack.
  cbv zeta. apply grows_try_catch_after.
  - apply grows_bind; [apply aggregate_is_first|]. grows.
  - grows.
Qed.

Lemma st_caughtboard_ungated c :
  starts_with
    [EvAck;
     EvStore (SpotAggregate (SingleTenant.board_filter c) by_targetId
                (leaderboard_limit (command_text c)))]
    (SingleTenant.caughtboard_command c).
Proof.
  unfold SingleTenant.caughtboard_command. apply grows_after_ack.
  cbv zeta. apply grows_try_catch_after.
  - apply grows_bind; [apply aggregate_is_first|]. grows.
  - grows.
Qed.

Lemma st_reset_ungated c :
  starts_with [EvAck; EvUsersInfo (user_id c)] (SingleTenant.reset_command c).
Proof.
  unfold SingleTenant.reset_command, Spot_deleteMany. apply grows_after_ack.
  apply grows_try_catch_after.
  - apply grows_bind; [apply users_info_is_first|]. grows.
  - grows.
Qed.

Lemma st_reset_reaches_the_store env s c :
  users_info env (user_id c) = InfoUser true ->
  exists rest,
    trace (snd (SingleTenant.reset_command c env s))
    = (trace s
         ++ [EvAck; EvUsersInfo (user_id c);
             EvStore (SpotDeleteMany (SingleTenant.reset_filter c))]
         ++ rest)%list.
Proof.
  intros Ha. unfold SingleTenant.reset_command, Spot_deleteMany.
  monad_unfold. cbn [emit trace spots installations].
  rewrite Ha. cbn beta iota. cbn [negb].
  destruct (store_rejects env _); cbn beta iota;
    [|destruct (Nat.ltb 0 _)];
    unfold emit; cbn [snd trace spots installations]; trace_norm;
    eexists; cbn [app]; reflexivity.
Qed.

Lemma st_veto_ungated m root :
  thread_ts m = Some root -> root <> "" -> root <> ts m ->
  starts_with [EvUsersInfo (user m)] (SingleTenant.veto_listener m).
Proof.
  intros Ht Hne Hd. unfold SingleTenant.veto_listener, Spot_findOneAndDelete.
  rewrite Ht, (threaded_check _ _ Hne Hd).
  apply grows_try_catch_after.
  - apply grows_bind; [apply users_info_is_first|]. grows.
  - grows.
Qed.

Lemma st_veto_reaches_the_store m root :
  thread_ts m = Some root -> root <> "" -> root <> ts m ->
  forall env s,
    users_info env (user m) = InfoUser true ->
    exists rest,
      trace (snd (SingleTenant.veto_listener m env s))
      = (trace s
           ++ [EvUsersInfo (user m);
               EvStore (SpotFindOneAndDelete
                          (SingleTenant.veto_filter m root))]
           ++ rest)%list.
Proof.
  intros Ht Hne Hd env s Ha.
  unfold SingleTenant.veto_listener, Spot_findOneAndDelete.
  rewrite Ht, (threaded_check _ _ Hne Hd). monad_unfold.
  cbn [emit trace spots installations]. rewrite Ha. cbn beta iota.
  cbn [negb].
  destruct (store_rejects env _); cbn beta iota;
    [|destruct (remove_first _ _) as [[d|] others]];
    unfold emit; cbn [snd trace spots installations]; trace_norm;
    eexists; cbn [app]; reflexivity.
Qed.

Lemma unbound_gate_fails ins t c :
  bound_channel ins t = None -> gate_passes ins t c = false.
Proof. intros H. unfold gate_passes. rewrite H. reflexivity. Qed.

(** C3, as stated, fails for the single-tenant bot: its [/reset] has no
    channel gate.  Invoked by an administrator in a channel other than the
    hard-coded one, it replies with no "not active" notice and deletes the
    Spots of that channel. *)
Lemma single_tenant_reset_is_not_gated :
  channel_id admin_in_C1 <> SingleTenant.the_channel
  /\ SingleTenant.reset_command admin_in_C1 env_st state_st
     = (Returned tt,
        {| spots := [spot_5]; installations := [];
           trace := [EvAck; EvUsersInfo "UADMIN";
                     EvStore (SpotDeleteMany
                                (SingleTenant.reset_filter admin_in_C1));
                     EvSay (SingleTenant.kaboom admin_in_C1 1)] |}).
Proof. split; [discriminate | reflexivity]. Qed.

(** C3, amended.  In the multi-tenant bot every message listener and every
    command except [/setchannel] consults the channel gate before anything
    else (commands right after acknowledging); when the gate fails a
    message listener stops silently and a command replies with the "not
    active" notice, so for a tenant with no bound active channel the only
    store access of a gated handler is the gate's own Installation lookup
    and no Spot is read or written.  In the single-tenant bot only the
    spot and pics listeners are gated, by equality with the hard-coded
    channel: elsewhere they do nothing at all.  Its [/spotboard],
    [/caughtboard] and [/reset] commands and its veto listener have no
    channel gate: in whatever channel they are invoked, the leaderboards
    go straight from the acknowledgement to the aggregation over the
    invoking channel, [/reset] to the administrator lookup and, for an
    administrator, to the deletion, and a threaded veto to the
    administrator lookup and, for an administrator, to the removal. *)
Theorem multi_tenant_handlers_are_gated :
  (forall m c,
      starts_with [gate_lookup (team m)] (MultiTenant.spot_listener m)
      /\ starts_with [gate_lookup (team m)] (MultiTenant.pics_listener m)
      /\ starts_with [gate_lookup (team m)] (MultiTenant.veto_listener m)
      /\ starts_with [EvAck; gate_lookup (team_id c)]
           (MultiTenant.spotboard_command c)
      /\ starts_with [EvAck; gate_lookup (team_id c)]
           (MultiTenant.caughtboard_command c)
      /\ starts_with [EvAck; gate_lookup (team_id c)]
           (MultiTenant.reset_command c))
  /\ (forall env s m,
        store_rejects env (InstallationFindOne (team m)) = false ->
        gate_passes (installations s) (team m) (channel m) = false ->
        MultiTenant.spot_listener m env s
        = (Returned tt, emit (gate_lookup (team m)) s)
        /\ MultiTenant.pics_listener m env s
           = (Returned tt, emit (gate_lookup (team m)) s)
        /\ MultiTenant.veto_listener m env s
           = (Returned tt, emit (gate_lookup (team m)) s))
  /\ (forall env s c,
        store_rejects env (InstallationFindOne (team_id c)) = false ->
        gate_passes (installations s) (team_id c) (channel_id c) = false ->
        let denied :=
          (Returned tt,
           {| spots := spots s; installations := installations s;
              trace :=
                trace s
                  ++ [EvAck; gate_lookup (team_id c);
                      EvSay (Text ("⚠️ SpotBot isn't active in this channel. "
                                     ++ "An admin can run `/setchannel` "
                                     ++ "to activate it."))] |}) in
        MultiTenant.spotboard_command c env s = denied
        /\ MultiTenant.caughtboard_command c env s = denied
        /\ MultiTenant.reset_command c env s = denied)
  /\ (forall ins t c,
        bound_channel ins t = None -> gate_passes ins t c = false)
  /\ (forall env s m,
        channel m <> SingleTenant.the_channel ->
        SingleTenant.spot_listener m env s = (Returned tt, s)
        /\ SingleTenant.pics_listener m env s = (Returned tt, s))
  /\ (forall c,
        starts_with
          [EvAck;
           EvStore (SpotAggregate (SingleTenant.board_filter c) by_spotterId
                      (leaderboard_limit (command_text c)))]
          (SingleTenant.spotboard_command c)
        /\ starts_with
             [EvAck;
              EvStore (SpotAggregate (SingleTenant.board_filter c)
                         by_targetId (leaderboard_limit (command_text c)))]
             (SingleTenant.caughtboard_command c)
        /\ starts_with [EvAck; EvUsersInfo (user_id c)]
             (SingleTenant.reset_command c))
  /\ (forall env s c,
        users_info env (user_id c) = InfoUser true ->
        exists rest,
          trace (snd (SingleTenant.reset_command c env s))
          = (trace s
               ++ [EvAck; EvUsersInfo (user_id c);
                   EvStore (SpotDeleteMany (SingleTenant.reset_filter c))]
               ++ rest)%list)
  /\ (forall m root,
        thread_ts m = Some root -> root <> "" -> root <> ts m ->
        starts_with [EvUsersInfo (user m)] (SingleTenant.veto_listener m)
        /\ forall env s,
             users_info env (user m) = InfoUser true ->
             exists rest,
               trace (snd (SingleTenant.veto_listener m env s))
               = (trace s
                    ++ [EvUsersInfo (user m);
                        EvStore (SpotFindOneAndDelete
                                   (SingleTenant.veto_filter m root))]
                    ++ rest)%list).
Proof.
  split; [|split; [|split; [|split; [|split; [|split; [|split]]]]]].
  - intros m c.
    repeat split;
      [ apply mt_spot_gate_first | apply mt_pics_gate_first
      | apply mt_veto_gate_first | apply mt_spotboard_gate_first
      | apply mt_caughtboard_gate_first | apply mt_reset_gate_first ].
  - intros env s m Hg Hp.
    unfold MultiTenant.spot_listener, MultiTenant.pics_listener,
      MultiTenant.veto_listener.
    repeat split; pass_gate_msg Hg Hp; reflexivity.
  - intros env s c Hg Hp denied. subst denied.
    unfold MultiTenant.spotboard_command, MultiTenant.caughtboard_command,
      MultiTenant.reset_command.
    repeat split; pass_gate Hg Hp; unfold say; finish_run.
  - exact unbound_gate_fails.
  - intros env s m Hc. apply String.eqb_neq in Hc.
    unfold SingleTenant.spot_listener, SingleTenant.pics_listener.
    rewrite Hc. split; reflexivity.
  - intros c. split; [|split].
    + exact (st_spotboard_ungated c).
    + exact (st_caughtboard_ungated c).
    + exact (st_reset_ungated c).
  - exact st_reset_reaches_the_store.
  - intros m root Ht Hne Hd. split.
    + exact (st_veto_ungated m root Ht Hne Hd).
    + exact (st_veto_reaches_the_store m root Ht Hne Hd).
Qed.

(** ** The spot listener *)




(** ** Veto *)

Lemma isActiveChannel_cases env s t c :
  MultiTenant.isActiveChannel t c env s
  = (if store_rejects env (InstallationFindOne t) then Thrown StoreError
     else Returned (gate_passes (installations s) t c),
     emit (gate_lookup t) s).
Proof.
  destruct (store_rejects env (InstallationFindOne t)) eqn:H.
  - unfold MultiTenant.isActiveChannel, MultiTenant.getActiveChannel,
      Installation_findOne, store_call, bind. rewrite H. reflexivity.
  - apply isActiveChannel_run. exact H.
Qed.

Lemma remove_first_found p l d rest :
  remove_first p l = (Some d, rest) ->
  exists before after,
    l = (before ++ d :: after)%list /\ rest = (before ++ after)%list
    /\ Forall (fun x => p x = false) before /\ p d = true.
Proof.
  revert rest. induction l as [|x l IH]; cbn; intros rest H; [discriminate|].
  destruct (p x) eqn:E.
  - injection H as <- <-. exists [], l. repeat split; [constructor | exact E].
  - destruct (remove_first p l) as [found rest'] eqn:R.
    injection H as -> <-.
    destruct (IH rest' eq_refl) as (b & a & -> & -> & Hb & Hd).
    exists (x :: b), a. repeat split; [constructor; assumption | exact Hd].
Qed.

Lemma remove_first_none p l rest :
  remove_first p l = (None, rest) ->
  rest = l /\ Forall (fun x => p x = false) l.
Proof.
  revert rest. induction l as [|x l IH]; cbn; intros rest H.
  - injection H as <-. split; [reflexivity | constructor].
  - destruct (p x) eqn:E; [discriminate|].
    destruct (remove_first p l) as [found rest'] eqn:R.
    injection H as -> <-. destruct (IH rest' eq_refl) as [-> Hall].
    split; [reflexivity | constructor; assumption].
Qed.

Lemma matches_mt_veto m root x :
  matches (MultiTenant.veto_filter m root) x = true
  <-> teamId x = Some (team m) /\ messageTs x = Some root
      /\ channelId x = channel m.
Proof.
  unfold matches, MultiTenant.veto_filter.
  cbn [f_teamId f_targetId f_channelId f_messageTs f_status].
  rewrite !andb_true_iff, !cond_opt_some, cond_str_some. cbn. tauto.
Qed.

Lemma matches_st_veto m root x :
  matches (SingleTenant.veto_filter m root) x = true
  <-> messageTs x = Some root /\ channelId x = channel m.
Proof.
  unfold matches, SingleTenant.veto_filter.
  cbn [f_teamId f_targetId f_channelId f_messageTs f_status].
  rewrite !andb_true_iff, !cond_opt_some, cond_str_some. cbn. tauto.
Qed.

(** The outcome of the shared part, case by case. *)
Lemma veto_body_run env s f m root :
  let op := SpotFindOneAndDelete f in
  let out new sp :=
    (Returned tt,
     {| spots := sp; installations := installations s;
        trace := trace s ++ EvUsersInfo (user m) :: new |}) in
  veto_body f m root env s
  = match users_info env (user m) with
    | InfoFails => out [EvConsoleError; EvSay (trouble_veto root)] (spots s)
    | InfoUser false => out [EvSay (veto_denied m root)] (spots s)
    | InfoUser true =>
        if store_rejects env op
        then out [EvStore op; EvConsoleError; EvSay (trouble_veto root)]
               (spots s)
        else match remove_first (matches f) (spots s) with
             | (Some d, rest) =>
                 out [EvStore op;
                      EvSay (vetoed (toLocaleDateString env) m d root)] rest
             | (None, rest) =>
                 out [EvStore op; EvSay (no_spot_found root)] rest
             end
    end.
Proof.
  intros op out. subst op out. unfold veto_body, Spot_findOneAndDelete.
  monad_unfold. destruct (users_info env (user m)) as [|[|]];
    cbn [negb emit spots installations trace]; try finish_run.
  destruct (store_rejects env _); [finish_run|].
  destruct (remove_first (matches f) (spots s)) as [[d|] rest]; finish_run.
Qed.

Lemma replies_emit_store op s :
  replies (trace (emit (EvStore op) s)) = replies (trace s).
Proof. cbn [emit trace]. rewrite replies_app. cbn. apply app_nil_r. Qed.

Section VetoBody.
Variables (env : Env) (s0 s : State) (f : SpotFilter) (m : Message)
          (root : string).
Hypothesis same_spots : spots s0 = spots s.
Hypothesis same_installations : installations s0 = installations s.
Hypothesis same_replies : replies (trace s0) = replies (trace s).
Hypothesis f_selects :
  forall x, matches f x = true ->
            messageTs x = Some root /\ channelId x = channel m.

Lemma veto_body_removal d rest :
  remove_first (matches f) (spots s0) = (Some d, rest) ->
  vetoed_exactly env m root f s
    {| spots := rest; installations := installations s0;
       trace := trace s0 ++
         [EvUsersInfo (user m); EvStore (SpotFindOneAndDelete f);
          EvSay (vetoed (toLocaleDateString env) m d root)] |} d.
Proof.
  intros R. apply remove_first_found in R.
  destruct R as (b & a & E & -> & Hb & Hd).
  exists b, a. cbn [spots installations trace].
  rewrite <- same_spots, <- same_installations, <- same_replies.
  destruct (f_selects d Hd) as [Hts Hch].
  repeat split; try assumption.
  rewrite replies_app. reflexivity.
Qed.

Lemma veto_body_only_when :
  spots (snd (veto_body f m root env s0)) <> spots s ->
  exists d,
    users_info env (user m) = InfoUser true
    /\ vetoed_exactly env m root f s (snd (veto_body f m root env s0)) d.
Proof.
  rewrite veto_body_run.
  destruct (users_info env (user m)) as [|[|]]; cbn [snd spots];
    try (intros H; exfalso; apply H; exact same_spots).
  destruct (store_rejects env _); cbn [snd spots];
    try (intros H; exfalso; apply H; exact same_spots).
  destruct (remove_first (matches f) (spots s0)) as [[d|] rest] eqn:R;
    cbn [snd spots]; intros H.
  - exists d. split; [reflexivity|]. apply veto_body_removal. exact R.
  - exfalso. apply H. apply remove_first_none in R. destruct R as [-> _].
    exact same_spots.
Qed.

Lemma veto_body_decides :
  users_info env (user m) = InfoUser true ->
  store_rejects env (SpotFindOneAndDelete f) = false ->
  veto_decides (veto_body f m root env s0) env s m root f.
Proof.
  intros Ha Hd. unfold veto_decides. rewrite veto_body_run, Ha, Hd.
  destruct (remove_first (matches f) (spots s0)) as [[d|] rest] eqn:R;
    cbn [fst snd spots installations trace].
  - split; [reflexivity|]. split.
    + intros _. exists d. apply veto_body_removal. exact R.
    + intros Hnone. exfalso. apply remove_first_found in R.
      destruct R as (b & a & E & _ & _ & Hm).
      rewrite (Hnone d) in Hm; [discriminate|].
      rewrite <- same_spots, E. apply in_elt.
  - apply remove_first_none in R. destruct R as [-> Hall].
    split; [reflexivity|]. split.
    + intros (x & Hin & Hm). exfalso. rewrite <- same_spots in Hin.
      rewrite Forall_forall in Hall. rewrite (Hall x Hin) in Hm.
      discriminate.
    + intros _. rewrite replies_app, same_replies.
      repeat split; assumption.
Qed.
End VetoBody.

Lemma mt_veto_run env s m :
  let s0 := emit (gate_lookup (team m)) s in
  MultiTenant.veto_listener m env s
  = if store_rejects env (InstallationFindOne (team m))
    then (Thrown StoreError, s0)
    else if gate_passes (installations s) (team m) (channel m)
    then match thread_ts m with
         | None => (Returned tt, s0)
         | Some root =>
             if (negb (truthy root) || String.eqb root (ts m))%bool
             then (Returned tt, s0)
             else veto_body (MultiTenant.veto_filter m root) m root env s0
         end
    else (Returned tt, s0).
Proof.
  intros s0. subst s0. unfold MultiTenant.veto_listener. unfold bind at 1.
  rewrite isActiveChannel_cases.
  destruct (store_rejects env _); [reflexivity|].
  destruct (gate_passes _ _ _); [|reflexivity].
  destruct (thread_ts m) as [root|]; [|reflexivity].
  destruct (negb (truthy root) || _)%bool; reflexivity.
Qed.

Lemma st_veto_run env s m :
  SingleTenant.veto_listener m env s
  = match thread_ts m with
    | None => (Returned tt, s)
    | Some root =>
        if (negb (truthy root) || String.eqb root (ts m))%bool
        then (Returned tt, s)
        else veto_body (SingleTenant.veto_filter m root) m root env s
    end.
Proof.
  unfold SingleTenant.veto_listener.
  destruct (thread_ts m) as [root|]; [|reflexivity].
  destruct (negb (truthy root) || _)%bool; reflexivity.
Qed.

Ltac ignored :=
  unfold gate_lookup; cbn [fst snd ret]; rewrite ?replies_emit_store;
  cbn [emit spots installations];
  split; [intros H; exfalso; apply H; reflexivity | intros _; repeat split].

(** C2. In both bots a veto takes effect only for a genuinely threaded
    reply (a thread root that exists and differs from the message's own
    timestamp) written by a workspace administrator, and then removes
    exactly one Spot: the one whose [messageTs] is the thread root and
    whose channel is the message's channel (and, in the multi-tenant bot,
    whose tenant is the message's).  A veto that is not a threaded reply
    is ignored without a reply.  For an administrator's threaded reply, a
    matching Spot is removed and confirmed in the thread, and when none
    matches the thread is told that no spot was found. *)
Theorem veto_removes_the_thread_root_spot :
  (forall env s m,
      veto_only_when (MultiTenant.veto_listener m env s) env s m
        (MultiTenant.veto_filter m))
  /\ (forall env s m root,
        store_rejects env (InstallationFindOne (team m)) = false ->
        gate_passes (installations s) (team m) (channel m) = true ->
        thread_ts m = Some root -> root <> "" -> root <> ts m ->
        users_info env (user m) = InfoUser true ->
        store_rejects env
          (SpotFindOneAndDelete (MultiTenant.veto_filter m root)) = false ->
        veto_decides (MultiTenant.veto_listener m env s) env s m root
          (MultiTenant.veto_filter m root))
  /\ (forall m root x,
        matches (MultiTenant.veto_filter m root) x = true
        <-> teamId x = Some (team m) /\ messageTs x = Some root
            /\ channelId x = channel m)
  /\ (forall env s m,
        veto_only_when (SingleTenant.veto_listener m env s) env s m
          (SingleTenant.veto_filter m))
  /\ (forall env s m root,
        thread_ts m = Some root -> root <> "" -> root <> ts m ->
        users_info env (user m) = InfoUser true ->
        store_rejects env
          (SpotFindOneAndDelete (SingleTenant.veto_filter m root)) = false ->
        veto_decides (SingleTenant.veto_listener m env s) env s m root
          (SingleTenant.veto_filter m root))
  /\ (forall m root x,
        matches (SingleTenant.veto_filter m root) x = true
        <-> messageTs x = Some root /\ channelId x = channel m).
Proof.
  split; [|split; [|split; [|split; [|split]]]].
  - intros env s m. unfold veto_only_when. rewrite mt_veto_run.
    destruct (store_rejects env (InstallationFindOne (team m)));
      [ignored|].
    destruct (gate_passes (installations s) (team m) (channel m));
      cbn [negb]; [|ignored].
    destruct (thread_ts m) as [root|]; [|ignored].
    destruct (truthy root) eqn:Ht; cbn [negb orb]; [|ignored].
    destruct (String.eqb_spec root (ts m)) as [E|E]; [ignored|].
    split.
    + intros H. exists root.
      destruct (veto_body_only_when env (emit (gate_lookup (team m)) s) s
                  (MultiTenant.veto_filter m root) m root) as (d & Ha & Hv);
        try reflexivity.
      * apply replies_emit_store.
      * intros x Hx. apply matches_mt_veto in Hx. tauto.
      * exact H.
      * exists d. repeat split; assumption.
    + intros [H|H]; [discriminate | congruence].
  - intros env s m root Hg Hp Ht Hne Hd Ha Hs.
    rewrite mt_veto_run, Hg, Hp, Ht, (threaded_check _ _ Hne Hd).
    apply (veto_body_decides env (emit (gate_lookup (team m)) s) s);
      try reflexivity; try assumption.
    + apply replies_emit_store.
    + intros x Hx. apply matches_mt_veto in Hx. tauto.
  - exact matches_mt_veto.
  - intros env s m. unfold veto_only_when. rewrite st_veto_run.
    destruct (thread_ts m) as [root|]; [|ignored].
    destruct (truthy root) eqn:Ht; cbn [negb orb]; [|ignored].
    destruct (String.eqb_spec root (ts m)) as [E|E]; [ignored|].
    split.
    + intros H. exists root.
      destruct (veto_body_only_when env s s
                  (SingleTenant.veto_filter m root) m root) as (d & Ha & Hv);
        try reflexivity.
      * intros x Hx. apply matches_st_veto in Hx. tauto.
      * exact H.
      * exists d. repeat split; assumption.
    + intros [H|H]; [discriminate | congruence].
  - intros env s m root Ht Hne Hd Ha Hs.
    rewrite st_veto_run, Ht, (threaded_check _ _ Hne Hd).
    apply (veto_body_decides env s s); try reflexivity; try assumption.
    intros x Hx. apply matches_st_veto in Hx. tauto.
  - exact matches_st_veto.
Qed.

(** ** Sorting *)

Section SortDesc.
Context {A : Type} (w : A -> Z).

Lemma insert_desc_perm x l : Permutation (insert_desc w x l) (x :: l).
Proof.
  induction l as [|y l IH]; cbn; [reflexivity|].
  destruct (w x <? w y); [|reflexivity].
  rewrite IH. apply perm_swap.
Qed.

Lemma sort_desc_perm l : Permutation (sort_desc w l) l.
Proof.
  induction l as [|x l IH]; cbn; [reflexivity|].
  rewrite insert_desc_perm. constructor. exact IH.
Qed.

Lemma insert_desc_sorted x l :
  StronglySorted (descending w) l ->
  StronglySorted (descending w) (insert_desc w x l).
Proof.
  induction 1 as [|y l Hs IH Hy]; cbn; [repeat constructor|].
  destruct (Z.ltb_spec (w x) (w y)).
  - constructor; [exact IH|].
    rewrite Forall_forall in *. intros z Hz.
    apply (Permutation_in _ (insert_desc_perm x l)) in Hz.
    destruct Hz as [<-|Hz]; [unfold descending; lia | apply Hy; exact Hz].
  - constructor; [constructor; assumption|].
    constructor; [unfold descending; lia|].
    rewrite Forall_forall in *. intros z Hz. specialize (Hy z Hz).
    unfold descending in *. lia.
Qed.

Lemma sort_desc_sorted l : StronglySorted (descending w) (sort_desc w l).
Proof.
  induction l as [|x l IH]; cbn; [constructor|].
  apply insert_desc_sorted. exact IH.
Qed.

Lemma sorted_split l1 l2 :
  StronglySorted (descending w) (l1 ++ l2) ->
  StronglySorted (descending w) l1
  /\ forall a b, In a l1 -> In b l2 -> descending w a b.
Proof.
  induction l1 as [|x l1 IH]; cbn; intros H.
  - split; [constructor | intros a b []].
  - inversion H as [|? ? Hs Hx]; subst. destruct (IH Hs) as [H1 H2].
    split.
    + constructor; [exact H1|]. rewrite Forall_forall in *.
      intros z Hz. apply Hx. apply in_or_app. left. exact Hz.
    + intros a b [<-|Ha] Hb.
      * rewrite Forall_forall in Hx. apply Hx. apply in_or_app.
        right. exact Hb.
      * apply H2; assumption.
Qed.
End SortDesc.

(** ** The gallery *)

Lemma filter_nothing {A} (p : A -> bool) l :
  (forall x, In x l -> p x = false) -> filter p l = [].
Proof.
  induction l as [|x l IH]; intros H; [reflexivity|]. cbn.
  rewrite (H x (or_introl eq_refl)). apply IH.
  intros y Hy. apply H. right. exact Hy.
Qed.

Lemma newest_facts f n l :
  let found := newest f n l in
  (length found <= n)%nat
  /\ Forall (fun x => In x l /\ matches f x = true) found
  /\ StronglySorted newer_or_equal found
  /\ (exists older,
        Permutation (found ++ older) (filter (matches f) l)
        /\ (forall a b, In a found -> In b older -> newer_or_equal a b)
        /\ ((length found < n)%nat -> older = []))
  /\ ((forall x, In x l -> matches f x = false) -> found = []).
Proof.
  intros found. subst found. unfold newest.
  set (sorted := sort_desc timestamp (filter (matches f) l)).
  assert (Hperm : Permutation sorted (filter (matches f) l))
    by apply sort_desc_perm.
  assert (Hsorted : StronglySorted newer_or_equal sorted)
    by apply (sort_desc_sorted timestamp).
  rewrite <- (firstn_skipn n sorted) in Hsorted.
  apply (sorted_split timestamp) in Hsorted. destruct Hsorted as [H1 H2].
  split; [apply firstn_le_length|].
  split; [|split; [exact H1|split]].
  - rewrite Forall_forall. intros x Hx.
    assert (Hin : In x sorted)
      by (rewrite <- (firstn_skipn n sorted); apply in_or_app; left; exact Hx).
    apply (Permutation_in _ Hperm) in Hin. apply filter_In in Hin. exact Hin.
  - exists (skipn n sorted). split; [|split].
    + rewrite firstn_skipn. exact Hperm.
    + exact H2.
    + intros Hlt. rewrite length_firstn in Hlt.
      apply skipn_all2. lia.
  - intros Hnone.
    subst sorted. rewrite (filter_nothing _ _ Hnone). cbn. apply firstn_nil.
Qed.

Lemma pics_body_run env s f t :
  let op := SpotFindNewest f 10 in
  pics_body f t env s
  = (Returned tt,
     {| spots := spots s; installations := installations s;
        trace := trace s ++
          (if store_rejects env op
           then [EvStore op; EvConsoleError; EvSay trouble_photos]
           else [EvStore op;
                 EvSay (pics_reply (toLocaleDateString env) t
                          (newest f 10 (spots s)))]) |}).
Proof.
  intros op. subst op. unfold pics_body, Spot_find_newest. monad_unfold.
  destruct (store_rejects env _); [finish_run|].
  cbn [emit spots installations trace]. unfold pics_reply.
  destruct (newest f 10 (spots s)); finish_run.
Qed.

Lemma mt_pics_run env s m :
  let s0 := emit (gate_lookup (team m)) s in
  MultiTenant.pics_listener m env s
  = if store_rejects env (InstallationFindOne (team m))
    then (Thrown StoreError, s0)
    else if gate_passes (installations s) (team m) (channel m)
    then match match_mention (text m) with
         | None => (Returned tt, emit (EvSay pics_usage) s0)
         | Some t => pics_body (MultiTenant.pics_filter m t) t env s0
         end
    else (Returned tt, s0).
Proof.
  intros s0. subst s0. unfold MultiTenant.pics_listener. unfold bind at 1.
  rewrite isActiveChannel_cases.
  destruct (store_rejects env _); [reflexivity|].
  destruct (gate_passes _ _ _); [|reflexivity].
  destruct (match_mention (text m)); reflexivity.
Qed.

Lemma st_pics_run env s m :
  SingleTenant.pics_listener m env s
  = if String.eqb (channel m) SingleTenant.the_channel
    then match match_mention (text m) with
         | None => (Returned tt, emit (EvSay pics_usage) s)
         | Some t => pics_body (SingleTenant.pics_filter m t) t env s
         end
    else (Returned tt, s).
Proof.
  unfold SingleTenant.pics_listener.
  destruct (String.eqb _ _); [|reflexivity].
  destruct (match_mention (text m)); reflexivity.
Qed.

Lemma matches_mt_pics m t x :
  matches (MultiTenant.pics_filter m t) x = true
  <-> teamId x = Some (team m) /\ targetId x = t
      /\ channelId x = channel m /\ status x = confirmed.
Proof.
  unfold matches, MultiTenant.pics_filter.
  cbn [f_teamId f_targetId f_channelId f_messageTs f_status].
  rewrite !andb_true_iff, cond_opt_some, !cond_str_some,
    cond_status_confirmed.
  cbn. tauto.
Qed.

Lemma matches_st_pics m t x :
  matches (SingleTenant.pics_filter m t) x = true
  <-> targetId x = t /\ channelId x = channel m /\ status x = confirmed.
Proof.
  unfold matches, SingleTenant.pics_filter.
  cbn [f_teamId f_targetId f_channelId f_messageTs f_status].
  rewrite !andb_true_iff, !cond_str_some, cond_status_confirmed.
  cbn. tauto.
Qed.

Lemma pics_body_gallery env s0 s f t :
  spots s0 = spots s ->
  replies (trace s0) = replies (trace s) ->
  store_rejects env (SpotFindNewest f 10) = false ->
  gallery (pics_body f t env s0) env s f t.
Proof.
  intros Hs Hr Ha. unfold gallery. rewrite pics_body_run, Ha.
  cbn [fst snd trace]. rewrite replies_app, Hr, Hs.
  change (replies [EvStore ?o; EvSay ?r]) with [r].
  destruct (newest_facts f 10 (spots s)) as (H1 & H2 & H3 & H4 & H5).
  split; [reflexivity|]. split; [reflexivity|].
  split; [exact H1|]. split; [exact H2|]. split; [exact H3|].
  split; [exact H4|]. split.
  - intros Hnone. rewrite (H5 Hnone). reflexivity.
  - intros Hne. unfold pics_reply.
    destruct (newest f 10 (spots s)) as [|x found] eqn:E; [congruence|].
    reflexivity.
Qed.

Lemma pics_body_read_only env s0 s f t pre :
  spots s0 = spots s ->
  installations s0 = installations s ->
  trace s0 = (trace s ++ pre)%list ->
  Forall (fun op => is_write op = false) (store_ops pre) ->
  read_only (pics_body f t env s0) s.
Proof.
  intros Hs Hi Ht Hpre. unfold read_only. rewrite pics_body_run.
  cbn [snd spots installations trace].
  split; [exact Hs|]. split; [exact Hi|].
  rewrite Ht. rewrite <- app_assoc. eexists. split; [reflexivity|].
  unfold store_ops in *. rewrite flat_map_app. apply Forall_app.
  split; [exact Hpre|].
  destruct (store_rejects env _); repeat constructor.
Qed.

Lemma read_only_gate s r t new :
  r = {| spots := spots s; installations := installations s;
         trace := trace s ++ gate_lookup t :: new |} ->
  Forall (fun op => is_write op = false) (store_ops new) ->
  spots r = spots s /\ installations r = installations s
  /\ exists new',
       trace r = (trace s ++ new')%list
       /\ Forall (fun op => is_write op = false) (store_ops new').
Proof.
  intros -> H. cbn [spots installations trace].
  repeat split. eexists. split; [reflexivity|].
  constructor; [reflexivity | exact H].
Qed.

(** C8. A pics listener past its channel gate replies with the usage
    prompt when the message mentions nobody; otherwise it finds the
    confirmed Spots of the mentioned target in the message's channel (and
    tenant, in the multi-tenant bot), keeps the ten newest of them, newest
    first, and replies with a heading, a divider and one block per Spot,
    which shows the date of the Spot, its spotter and a link to its image,
    or with the "is clean" text for the target when there is none.  On
    every run, whatever the store or the message, it writes nothing. *)
Theorem pics_gallery_is_read_only :
  (forall env s m, read_only (MultiTenant.pics_listener m env s) s)
  /\ (forall env s m,
        store_rejects env (InstallationFindOne (team m)) = false ->
        gate_passes (installations s) (team m) (channel m) = true ->
        match_mention (text m) = None ->
        MultiTenant.pics_listener m env s
        = (Returned tt,
           {| spots := spots s; installations := installations s;
              trace :=
                trace s
                  ++ [gate_lookup (team m);
                      EvSay (Text ("👀 Who do you want to see? Usage: "
                                     ++ dquote ++ "pics <@User>"
                                     ++ dquote))] |}))
  /\ (forall env s m t,
        store_rejects env (InstallationFindOne (team m)) = false ->
        gate_passes (installations s) (team m) (channel m) = true ->
        match_mention (text m) = Some t ->
        store_rejects env (SpotFindNewest (MultiTenant.pics_filter m t) 10)
        = false ->
        gallery (MultiTenant.pics_listener m env s) env s
          (MultiTenant.pics_filter m t) t)
  /\ (forall m t x,
        matches (MultiTenant.pics_filter m t) x = true
        <-> teamId x = Some (team m) /\ targetId x = t
            /\ channelId x = channel m /\ status x = confirmed)
  /\ (forall env s m, read_only (SingleTenant.pics_listener m env s) s)
  /\ (forall env s m,
        channel m = SingleTenant.the_channel ->
        match_mention (text m) = None ->
        SingleTenant.pics_listener m env s
        = (Returned tt,
           {| spots := spots s; installations := installations s;
              trace :=
                trace s
                  ++ [EvSay (Text ("👀 Who do you want to see? Usage: "
                                     ++ dquote ++ "pics <@User>"
                                     ++ dquote))] |}))
  /\ (forall env s m t,
        channel m = SingleTenant.the_channel ->
        match_mention (text m) = Some t ->
        store_rejects env (SpotFindNewest (SingleTenant.pics_filter m t) 10)
        = false ->
        gallery (SingleTenant.pics_listener m env s) env s
          (SingleTenant.pics_filter m t) t)
  /\ (forall m t x,
        matches (SingleTenant.pics_filter m t) x = true
        <-> targetId x = t /\ channelId x = channel m
            /\ status x = confirmed).
Proof.
  split; [|split; [|split; [|split; [|split; [|split; [|split]]]]]].
  - intros env s m. rewrite mt_pics_run.
    destruct (store_rejects env _);
      [apply (read_only_gate s _ (team m) []); [reflexivity | constructor]|].
    destruct (gate_passes _ _ _);
      [|apply (read_only_gate s _ (team m) []); [reflexivity | constructor]].
    destruct (match_mention (text m)) as [t|].
    + apply (pics_body_read_only env _ s _ t [gate_lookup (team m)]);
        try reflexivity.
      repeat constructor.
    + apply (read_only_gate s _ (team m) [EvSay pics_usage]);
        [|constructor].
      unfold emit. cbn [spots installations trace]. trace_norm. reflexivity.
  - intros env s m Hg Hp Hm. rewrite mt_pics_run, Hg, Hp, Hm. finish_run.
  - intros env s m t Hg Hp Hm Ha. rewrite mt_pics_run, Hg, Hp, Hm.
    apply pics_body_gallery; [reflexivity | apply replies_emit_store | exact Ha].
  - exact matches_mt_pics.
  - intros env s m. rewrite st_pics_run.
    destruct (String.eqb _ _).
    + destruct (match_mention (text m)) as [t|].
      * apply (pics_body_read_only env _ s _ t []); try reflexivity.
        -- symmetry. apply app_nil_r.
        -- constructor.
      * unfold read_only. cbn [snd emit spots installations trace].
        repeat split. eexists. split; [reflexivity | constructor].
    + unfold read_only. cbn [snd]. repeat split. exists [].
      split; [symmetry; apply app_nil_r | constructor].
  - intros env s m Hc Hm. rewrite st_pics_run, Hc, String.eqb_refl, Hm.
    reflexivity.
  - intros env s m t Hc Hm Ha. rewrite st_pics_run, Hc, String.eqb_refl, Hm.
    apply pics_body_gallery; [reflexivity | reflexivity | exact Ha].
  - exact matches_st_pics.
Qed.

(* ===================================================================== *)
(** * The statements at work on the sample worlds *)
(* ===================================================================== *)

(** The gate lets tenant T1 through in its bound channel C1. *)
Lemma isActiveChannel_fails_closed_witness :
  store_rejects env_mt (InstallationFindOne "T1") = false
  /\ MultiTenant.isActiveChannel "T1" "C1" env_mt state_mt
     = (Returned true, emit (gate_lookup "T1") state_mt).
Proof.
  split; [reflexivity|].
  destruct (isActiveChannel_fails_closed env_mt state_mt "T1" "C1" eq_refl)
    as (b & E & _ & _ & H).
  rewrite E. f_equal. f_equal.
  apply (H inst_T1 "C1"); [reflexivity | reflexivity | discriminate
                          | reflexivity].
Defined.


(** "/spotboard -3" asks the store for [$limit: -3]. *)
Lemma leaderboard_limit_has_no_lower_clamp_witness :
  leaderboard_limit (Some "-3") = -3
  /\ aggregation_limits
       (trace (snd (MultiTenant.spotboard_command top_minus_3 env_mt
                      state_mt)))
     = [-3]
  /\ aggregation_limits
       (trace (snd (MultiTenant.caughtboard_command top_minus_3 env_mt
                      state_mt)))
     = [-3].
Proof.
  destruct leaderboard_limit_has_no_lower_clamp
    as (Hneg & _ & _ & _ & _ & Hspot & Hcaught).
  split; [|split].
  - apply (Hneg (Some "-3") (-3)); [reflexivity | lia].
  - apply (Hspot env_mt state_mt top_minus_3); reflexivity.
  - apply (Hcaught env_mt state_mt top_minus_3); reflexivity.
Defined.

(** "/spotboard 5" in the bound channel ranks the two spotters of C1. *)
Lemma leaderboard_limit_and_rows_witness :
  leaderboard_limit (Some "5") = 5
  /\ leaderboard_limit (Some "26") = 25
  /\ leaderboard_limit (Some "0") = 10
  /\ replies (trace (snd (MultiTenant.spotboard_command top_5 env_mt
                            state_mt)))
     = [spotboard_text 5 [ {| _id := "U1"; count := 1 |};
                           {| _id := "U3"; count := 1 |} ]]
  /\ replies (trace (snd (SingleTenant.caughtboard_command top_5 env_st
                            state_st)))
     = [caughtboard_text 5 [ {| _id := "U2"; count := 1 |} ]].
Proof.
  destruct leaderboard_limit_and_rows
    as (_ & Hzero & Hbig & Hsmall & _ & _ & _ & Hst & Hmt).
  split; [|split; [|split; [|split]]].
  - apply (Hsmall (Some "5") 5); [reflexivity | lia | lia].
  - apply (Hbig (Some "26") 26); [reflexivity | lia].
  - apply (Hzero (Some "0")). reflexivity.
  - apply (Hmt env_mt state_mt top_5); reflexivity.
  - apply (Hst env_st state_st top_5); reflexivity.
Defined.

(** An administrator resets C1: the two Spots of C1 go, the Spot of C2
    stays, the reply says that 2 spots were deleted, and a second reset
    finds the board clean. *)
Lemma reset_deletes_its_scope_witness :
  users_info env_mt (user_id admin_in_C1) = InfoUser true
  /\ (exists s1 s2,
        MultiTenant.reset_command admin_in_C1 env_mt state_mt
        = (Returned tt, s1)
        /\ spots s1 = [spot_3]
        /\ replies (trace s1)
           = [Text ("*Kaboom!* Admin <@UADMIN> has wiped the board. "
                      ++ "2 spots deleted.")]
        /\ MultiTenant.reset_command admin_in_C1 env_mt s1
           = (Returned tt, s2)
        /\ spots s2 = [spot_3]
        /\ replies (trace s2)
           = [Text ("*Kaboom!* Admin <@UADMIN> has wiped the board. "
                      ++ "2 spots deleted.");
              Text "🧹 The board is already clean."])
  /\ (exists s1 s2,
        SingleTenant.reset_command admin_in_C1 env_st state_st
        = (Returned tt, s1)
        /\ spots s1 = [spot_5]
        /\ SingleTenant.reset_command admin_in_C1 env_st s1
           = (Returned tt, s2)
        /\ spots s2 = [spot_5]).
Proof.
  destruct reset_deletes_its_scope as (Hmt & Hst & _).
  split; [reflexivity|]. split.
  - destruct (Hmt env_mt state_mt admin_in_C1 eq_refl eq_refl eq_refl
                eq_refl)
      as (s1 & s2 & E1 & _ & Hs1 & _ & Hr & E2 & Hs2 & Hr2).
    exists s1, s2. split; [exact E1|]. split; [exact Hs1|].
    split; [rewrite Hr, Hs1; reflexivity|]. split; [exact E2|].
    split; [rewrite Hs2; exact Hs1|].
    rewrite Hr2, Hr, Hs1. reflexivity.
  - destruct (Hst env_st state_st admin_in_C1 eq_refl eq_refl)
      as (s1 & s2 & E1 & _ & Hs1 & _ & _ & E2 & Hs2 & _).
    exists s1, s2. split; [exact E1|]. split; [exact Hs1|].
    split; [exact E2|]. rewrite Hs2. exact Hs1.
Defined.


(** Outside the bound channel the multi-tenant handlers stop at the gate;
    outside the hard-coded channel the single-tenant spot listener does
    nothing, while an administrator's veto there goes on to the store. *)
Lemma multi_tenant_handlers_are_gated_witness :
  gate_passes (installations state_mt) "T1" "C9" = false
  /\ MultiTenant.spot_listener spotted_elsewhere env_mt state_mt
     = (Returned tt, emit (gate_lookup "T1") state_mt)
  /\ replies (trace (snd (MultiTenant.reset_command admin_in_C9 env_mt
                            state_mt)))
     = [MultiTenant.not_active]
  /\ SingleTenant.spot_listener spotted_elsewhere env_st state_st
     = (Returned tt, state_st)
  /\ channel veto_of_spot_1 <> SingleTenant.the_channel
  /\ (exists rest,
        trace (snd (SingleTenant.veto_listener veto_of_spot_1 env_st
                      state_st))
        = EvUsersInfo "UADMIN"
            :: EvStore (SpotFindOneAndDelete
                          (SingleTenant.veto_filter veto_of_spot_1
                             "1769000000.000100"))
            :: rest).
Proof.
  destruct multi_tenant_handlers_are_gated
    as (_ & Hmsg & Hcmd & _ & Hst & _ & _ & Hveto).
  split; [reflexivity|]. split; [|split; [|split; [|split]]].
  - apply (Hmsg env_mt state_mt spotted_elsewhere); reflexivity.
  - destruct (Hcmd env_mt state_mt admin_in_C9 eq_refl eq_refl)
      as (_ & _ & E).
    rewrite E. reflexivity.
  - apply (Hst env_st state_st spotted_elsewhere). discriminate.
  - discriminate.
  - destruct (Hveto veto_of_spot_1 "1769000000.000100" eq_refl)
      as [_ H]; [discriminate | discriminate |].
    apply (H env_st state_st). reflexivity.
Defined.


(** An administrator's veto in the thread of the first Spot removes it
    and says so in that thread; a veto in the thread of a message that was
    never logged is told, in that thread, that no spot was found. *)
Lemma veto_removes_the_thread_root_spot_witness :
  users_info env_mt (user veto_of_spot_1) = InfoUser true
  /\ (exists d,
        vetoed_exactly env_mt veto_of_spot_1 "1769000000.000100"
          (MultiTenant.veto_filter veto_of_spot_1 "1769000000.000100")
          state_mt
          (snd (MultiTenant.veto_listener veto_of_spot_1 env_mt state_mt)) d)
  /\ (exists d,
        vetoed_exactly env_st veto_of_spot_5 "1769500000.000200"
          (SingleTenant.veto_filter veto_of_spot_5 "1769500000.000200")
          state_st
          (snd (SingleTenant.veto_listener veto_of_spot_5 env_st state_st))
          d)
  /\ replies (trace (snd (MultiTenant.veto_listener veto_of_spot_1 env_mt
                            state_mt)))
     = [Threaded
          ("🔨 *Vetoed!* Admin <@UADMIN> removed this spot "
             ++ "(<@U1> spotted <@U2> on Feb 2, 2:40 AM).")
          "1769000000.000100"]
  /\ replies (trace (snd (MultiTenant.veto_listener veto_of_the_photo env_mt
                            state_mt)))
     = [Threaded
          ("🤷 No spot found for this message. "
             ++ "It may have already been vetoed.")
          "1770000000.000500"].
Proof.
  destruct veto_removes_the_thread_root_spot
    as (_ & Hmt & _ & _ & Hst & _).
  split; [reflexivity|]. split; [|split; [|split]].
  - destruct (Hmt env_mt state_mt veto_of_spot_1 "1769000000.000100")
      as (_ & Hfound & _);
      [reflexivity | reflexivity | reflexivity | discriminate | discriminate
      | reflexivity | reflexivity |].
    apply Hfound. exists spot_1. split; [left; reflexivity | reflexivity].
  - destruct (Hst env_st state_st veto_of_spot_5 "1769500000.000200")
      as (_ & Hfound & _);
      [reflexivity | discriminate | discriminate | reflexivity
      | reflexivity |].
    apply Hfound. exists spot_5.
    split; [right; left; reflexivity | reflexivity].
  - reflexivity.
  - destruct (Hmt env_mt state_mt veto_of_the_photo "1770000000.000500")
      as (_ & _ & Hnone);
      [reflexivity | reflexivity | reflexivity | discriminate | discriminate
      | reflexivity | reflexivity |].
    destruct Hnone as (_ & _ & Hr); [|exact Hr].
    intros x [<-|[<-|[<-|[]]]]; reflexivity.
Defined.

(** "pics <@U2>" in the bound channel shows the two Spots of U2, the newer
    one first, and leaves the store as it was; "pics <@U4>" finds U4
    clean, whose only Spot is in another channel. *)
Lemma pics_gallery_is_read_only_witness :
  match_mention (text pics_of_U2) = Some "U2"
  /\ gallery (MultiTenant.pics_listener pics_of_U2 env_mt state_mt) env_mt
       state_mt (MultiTenant.pics_filter pics_of_U2 "U2") "U2"
  /\ newest (MultiTenant.pics_filter pics_of_U2 "U2") 10 (spots state_mt)
     = [spot_2; spot_1]
  /\ gallery (SingleTenant.pics_listener pics_in_the_channel env_st state_st)
       env_st state_st (SingleTenant.pics_filter pics_in_the_channel "U2")
       "U2"
  /\ replies (trace (snd (MultiTenant.pics_listener pics_of_U2 env_mt
                            state_mt)))
     = [Blocks
          [section_mrkdwn "📸 *Last 2 times <@U2> was spotted:*";
           divider;
           section_mrkdwn
             ("🗓 *Feb 2, 2:40 AM* by <@U3>" ++ newline
                ++ "🔗 <https://files.example/2.png|View Evidence>");
           section_mrkdwn
             ("🗓 *Feb 2, 2:40 AM* by <@U1>" ++ newline
                ++ "🔗 <https://files.example/1.png|View Evidence>")]
          "Gallery for <@U2>"]
  /\ replies (trace (snd (MultiTenant.pics_listener pics_of_U4 env_mt
                            state_mt)))
     = [Text "🤷 <@U4> is clean! No photos found."].
Proof.
  destruct pics_gallery_is_read_only
    as (_ & _ & Hmt & _ & _ & _ & Hst & _).
  split; [reflexivity|]. split; [|split; [|split; [|split]]].
  - apply (Hmt env_mt state_mt pics_of_U2 "U2"); reflexivity.
  - reflexivity.
  - apply (Hst env_st state_st pics_in_the_channel "U2"); reflexivity.
  - destruct (Hmt env_mt state_mt pics_of_U2 "U2" eq_refl eq_refl eq_refl
                eq_refl) as (_ & _ & _ & _ & _ & _ & _ & Hshown).
    apply Hshown. discriminate.
  - destruct (Hmt env_mt state_mt pics_of_U4 "U4" eq_refl eq_refl eq_refl
                eq_refl) as (_ & _ & _ & _ & _ & _ & Hclean & _).
    apply Hclean. intros x [<-|[<-|[<-|[]]]]; reflexivity.
Defined.

(* ===================================================================== *)
(** * The installation store *)
(* ===================================================================== *)

Lemma for_team_eq t r : for_team t r = true <-> inst_teamId r = t.
Proof. unfold for_team. apply String.eqb_eq. Qed.

Lemma upsert_find_self now t b payload l :
  exists r,
    find (for_team (slack_team_id t)) (upsert_installation now t b payload l)
    = Some r
    /\ installation r = payload
    /\ botToken r = slack_bot_token b
    /\ activeChannelId r
       = match find (for_team (slack_team_id t)) l with
         | Some old => activeChannelId old
         | None => None
         end.
Proof.
  induction l as [|x l IH]; cbn.
  - unfold for_team. cbn. rewrite String.eqb_refl. eexists.
    repeat split.
  - destruct (for_team (slack_team_id t) x) eqn:E; cbn.
    + unfold for_team at 1. cbn. rewrite String.eqb_refl. eexists.
      repeat split.
    + rewrite E. exact IH.
Qed.

Lemma upsert_find_other now t b payload l t' :
  t' <> slack_team_id t ->
  find (for_team t') (upsert_installation now t b payload l)
  = find (for_team t') l.
Proof.
  intros Hne. induction l as [|x l IH]; cbn.
  - unfold for_team. cbn. apply String.eqb_neq in Hne.
    rewrite String.eqb_sym, Hne. reflexivity.
  - destruct (for_team (slack_team_id t) x) eqn:E; cbn.
    + apply for_team_eq in E.
      assert (H1 : for_team t' x = false).
      { unfold for_team. apply String.eqb_neq. congruence. }
      rewrite H1. unfold for_team at 1. cbn.
      apply String.eqb_neq in Hne. rewrite String.eqb_sym, Hne. reflexivity.
    + destruct (for_team t' x); [reflexivity | exact IH].
Qed.

Lemma upsert_tenants now t b payload l :
  map inst_teamId (upsert_installation now t b payload l)
  = match find (for_team (slack_team_id t)) l with
    | Some _ => map inst_teamId l
    | None => (map inst_teamId l ++ [slack_team_id t])%list
    end.
Proof.
  induction l as [|x l IH]; cbn; [reflexivity|].
  destruct (for_team (slack_team_id t) x) eqn:E; cbn.
  - apply for_team_eq in E. rewrite E. reflexivity.
  - rewrite IH. destruct (find _ l); reflexivity.
Qed.

Lemma upsert_unique now t b payload l :
  unique_tenants l -> unique_tenants (upsert_installation now t b payload l).
Proof.
  unfold unique_tenants. intros H. rewrite upsert_tenants.
  destruct (find (for_team (slack_team_id t)) l) eqn:E; [exact H|].
  apply NoDup_app; [exact H | repeat constructor; intros [] |].
  intros x Hx [<-|[]]. apply in_map_iff in Hx. destruct Hx as (r & Hr & Hin).
  apply (find_none _ _ E) in Hin. apply for_team_eq in Hr.
  rewrite Hr in Hin. discriminate.
Qed.

Lemma upsert_bound_channel now t b payload l t' :
  bound_channel (upsert_installation now t b payload l) t'
  = bound_channel l t'.
Proof.
  unfold bound_channel. destruct (String.eqb_spec t' (slack_team_id t)) as [->|Hne].
  - destruct (upsert_find_self now t b payload l) as (r & -> & _ & _ & Ha).
    cbn [MultiTenant.active_of]. rewrite Ha.
    destruct (find (for_team (slack_team_id t)) l); reflexivity.
  - rewrite upsert_find_other by exact Hne. reflexivity.
Qed.

Lemma delete_first_other t t' l :
  t' <> t -> find (for_team t') (delete_first t l) = find (for_team t') l.
Proof.
  intros Hne. induction l as [|x l IH]; cbn; [reflexivity|].
  destruct (for_team t x) eqn:E; cbn.
  - apply for_team_eq in E.
    assert (H1 : for_team t' x = false).
    { unfold for_team. apply String.eqb_neq. congruence. }
    rewrite H1. reflexivity.
  - destruct (for_team t' x); [reflexivity | exact IH].
Qed.

Lemma delete_first_gone t l :
  unique_tenants l -> find (for_team t) (delete_first t l) = None.
Proof.
  unfold unique_tenants. induction l as [|x l IH]; cbn; intros H;
    [reflexivity|].
  inversion H as [|? ? Hx Hl]; subst.
  destruct (for_team t x) eqn:E; cbn.
  - apply for_team_eq in E.
    destruct (find (for_team t) l) as [r|] eqn:F; [|reflexivity].
    apply find_some in F. destruct F as [Hin Hr]. apply for_team_eq in Hr.
    exfalso. apply Hx. apply in_map_iff. exists r. split; [congruence|exact Hin].
  - rewrite E. apply IH. exact Hl.
Qed.

Lemma delete_first_unique t l :
  unique_tenants l -> unique_tenants (delete_first t l).
Proof.
  unfold unique_tenants. induction l as [|x l IH]; cbn; intros H; [exact H|].
  inversion H as [|? ? Hx Hl]; subst.
  destruct (for_team t x); [exact Hl|]. cbn. constructor; [|apply IH; exact Hl].
  intros Hin. apply Hx. apply in_map_iff in Hin.
  destruct Hin as (r & Hr & Hin). apply in_map_iff. exists r.
  split; [exact Hr|]. clear -Hin. induction l as [|y l IH]; [destruct Hin|].
  cbn in Hin. destruct (for_team t y); [right; exact Hin|].
  destruct Hin as [<-|Hin]; [left; reflexivity | right; apply IH; exact Hin].
Qed.

(** X1. Storing an installation and fetching it back: once the store has
    accepted the upsert, [fetchInstallation] for that tenant yields the
    payload just stored, whether the tenant was new or already installed. *)
Theorem storeInstallation_then_fetch faults env env' inst t b s :
  slack_team inst = Some t ->
  slack_bot inst = Some b ->
  upsert_rejected faults (slack_team_id t) = false ->
  store_rejects env' (InstallationFindOne (slack_team_id t)) = false ->
  fst (installationStore.storeInstallation faults env inst s) = Done tt
  /\ fst (installationStore.fetchInstallation env' (slack_team_id t)
            (snd (installationStore.storeInstallation faults env inst s)))
     = Done (slack_payload inst).
Proof.
  intros Ht Hb Hu Hf. unfold installationStore.storeInstallation.
  rewrite Ht, Hb, Hu. cbn [fst snd]. split; [reflexivity|].
  unfold installationStore.fetchInstallation, Installation_findOne,
    store_call.
  rewrite Hf. cbn [emit with_installations spots installations trace].
  destruct (upsert_find_self (Date_now env) t b (slack_payload inst)
              (installations s)) as (r & -> & Hp & _).
  cbn [fst]. rewrite Hp. reflexivity.
Qed.

(** X2. [storeInstallation] keeps tenants apart: whatever its outcome, it
    leaves the Spots alone, keeps at most one Installation per tenant,
    leaves every other tenant's Installation as it was, and adds at most
    one document. *)
Theorem storeInstallation_keeps_tenants_apart faults env inst s :
  let s' := snd (installationStore.storeInstallation faults env inst s) in
  spots s' = spots s
  /\ trace s' = trace s
  /\ (unique_tenants (installations s) -> unique_tenants (installations s'))
  /\ (forall t',
        (forall t, slack_team inst = Some t -> t' <> slack_team_id t) ->
        find (for_team t') (installations s')
        = find (for_team t') (installations s))
  /\ (length (installations s) <= length (installations s')
      <= S (length (installations s)))%nat.
Proof.
  unfold installationStore.storeInstallation.
  destruct (slack_team inst) as [t|]; [|cbn; repeat split; auto; lia].
  destruct (slack_bot inst) as [b|]; [|cbn; repeat split; auto; lia].
  destruct (upsert_rejected faults (slack_team_id t));
    [cbn; repeat split; auto; lia|].
  cbn [snd with_installations spots installations trace].
  split; [reflexivity|]. split; [reflexivity|]. split; [|split].
  - apply upsert_unique.
  - intros t' H. apply upsert_find_other. apply (H t eq_refl).
  - rewrite <- !(length_map inst_teamId), upsert_tenants.
    destruct (find _ _); [lia|]. rewrite length_app. cbn. lia.
Qed.

Lemma storeInstallation_keeps_the_gate_aux faults env inst s t c :
  gate_passes
    (installations (snd (installationStore.storeInstallation faults env inst
                           s))) t c
  = gate_passes (installations s) t c.
Proof.
  unfold installationStore.storeInstallation.
  destruct (slack_team inst) as [tm|]; [|reflexivity].
  destruct (slack_bot inst) as [b|]; [|reflexivity].
  destruct (upsert_rejected faults (slack_team_id tm)); [reflexivity|].
  cbn [snd with_installations installations]. unfold gate_passes.
  rewrite upsert_bound_channel. reflexivity.
Qed.

(** X3. Installing or reinstalling the bot never opens, closes or moves a
    channel gate: for every tenant and channel the gate decides after
    [storeInstallation] as it did before.  A reinstall keeps the bound
    channel; a new tenant starts with the gate closed. *)
Theorem storeInstallation_keeps_the_gate faults env inst s t c :
  gate_passes
    (installations (snd (installationStore.storeInstallation faults env inst
                           s))) t c
  = gate_passes (installations s) t c.
Proof. apply storeInstallation_keeps_the_gate_aux. Qed.

(** X4. After an accepted [deleteInstallation], with at most one
    Installation per tenant, the tenant can no longer be fetched (the
    "no installation found" error), its gate is closed for every channel,
    the other tenants are as before, and the Spots of the tenant are still
    in the store. *)
Theorem deleteInstallation_closes_the_tenant faults env t s :
  unique_tenants (installations s) ->
  deleteOne_rejected faults t = false ->
  store_rejects env (InstallationFindOne t) = false ->
  let s' := snd (installationStore.deleteInstallation faults t s) in
  fst (installationStore.fetchInstallation env t s')
  = Failed (NoInstallationFound t)
  /\ (forall c, gate_passes (installations s') t c = false)
  /\ (forall t', t' <> t ->
        find (for_team t') (installations s')
        = find (for_team t') (installations s))
  /\ unique_tenants (installations s')
  /\ spots s' = spots s.
Proof.
  intros Hu Hd Hf. unfold installationStore.deleteInstallation. rewrite Hd.
  cbn [snd with_installations spots installations].
  split; [|split; [|split; [|split]]].
  - unfold installationStore.fetchInstallation, Installation_findOne,
      store_call.
    rewrite Hf. cbn [emit with_installations spots installations trace].
    rewrite (delete_first_gone t _ Hu). reflexivity.
  - intros c. unfold gate_passes, bound_channel.
    rewrite (delete_first_gone t _ Hu). reflexivity.
  - intros t' Hne. apply delete_first_other. exact Hne.
  - apply delete_first_unique. exact Hu.
  - reflexivity.
Qed.

(** X5. Uninstalling and installing again loses the channel binding: after
    [deleteInstallation] then [storeInstallation] for the same tenant, both
    accepted, the gate is closed for every channel, although a reinstall
    without the uninstall keeps it. *)
Theorem uninstall_then_install_unbinds faults env inst t b s c :
  unique_tenants (installations s) ->
  slack_team inst = Some t ->
  slack_bot inst = Some b ->
  deleteOne_rejected faults (slack_team_id t) = false ->
  upsert_rejected faults (slack_team_id t) = false ->
  gate_passes
    (installations
       (snd (installationStore.storeInstallation faults env inst
               (snd (installationStore.deleteInstallation faults
                       (slack_team_id t) s)))))
    (slack_team_id t) c
  = false.
Proof.
  intros Hu Ht Hb Hd Hup. rewrite storeInstallation_keeps_the_gate_aux.
  unfold installationStore.deleteInstallation. rewrite Hd.
  cbn [snd with_installations installations]. unfold gate_passes, bound_channel.
  rewrite (delete_first_gone _ _ Hu). reflexivity.
Qed.

(* ===================================================================== *)
(** * Footprints *)
(* ===================================================================== *)

Section Keeps.
Variable R : State -> State -> Prop.
Hypothesis R_refl : forall s, R s s.
Hypothesis R_trans : forall a b c, R a b -> R b c -> R a c.
Hypothesis R_event :
  forall s e, (forall op, e <> EvStore op) -> R s (emit e s).

Lemma keeps_ret {A} (a : A) : keeps R (ret a).
Proof. intros env s. apply R_refl. Qed.

Lemma keeps_throw {A} e : keeps R (@throw A e).
Proof. intros env s. apply R_refl. Qed.

Lemma keeps_ask {A} (f : Env -> A) : keeps R (ask f).
Proof. intros env s. apply R_refl. Qed.

Lemma keeps_new_Spot a b c d e f : keeps R (new_Spot a b c d e f).
Proof. intros env s. apply R_refl. Qed.

Lemma keeps_say r : keeps R (say r).
Proof. intros env s. apply R_event. discriminate. Qed.

Lemma keeps_ack : keeps R ack.
Proof. intros env s. apply R_event. discriminate. Qed.

Lemma keeps_console_error : keeps R console_error.
Proof. intros env s. apply R_event. discriminate. Qed.

Lemma keeps_users_info u : keeps R (client_users_info u).
Proof.
  intros env s. unfold client_users_info.
  destruct (users_info env u); apply R_event; discriminate.
Qed.

Lemma keeps_bind {A B} (m : M A) (k : A -> M B) :
  keeps R m -> (forall a, keeps R (k a)) -> keeps R (bind m k).
Proof.
  intros Hm Hk env s. unfold bind. specialize (Hm env s).
  destruct (m env s) as [[a|e] s1]; cbn [snd] in *; [|exact Hm].
  apply (R_trans _ _ _ Hm). apply Hk.
Qed.

Lemma keeps_try_catch {A} (body : M A) (handler : Exn -> M A) :
  keeps R body -> (forall e, keeps R (handler e)) ->
  keeps R (try_catch body handler).
Proof.
  intros Hm Hk env s. unfold try_catch. specialize (Hm env s).
  destruct (body env s) as [[a|e] s1]; cbn [snd] in *; [exact Hm|].
  apply (R_trans _ _ _ Hm). apply Hk.
Qed.

Lemma keeps_store_call {A} op
    (run : list Spot -> list Installation
           -> A * list Spot * list Installation) :
  (forall s, R s (emit (EvStore op) s)) ->
  (forall s a sp ins,
      run (spots s) (installations s) = (a, sp, ins) ->
      R s {| spots := sp; installations := ins; trace := trace s |}) ->
  keeps R (store_call op run).
Proof.
  intros He Hrun env s. unfold store_call.
  destruct (store_rejects env op); cbn [snd]; [apply He|].
  destruct (run _ _) as [[a sp] ins] eqn:E. cbn [snd].
  apply (R_trans _ _ _ (He s)). apply (Hrun _ a). exact E.
Qed.
End Keeps.

Ltac unfold_store_ops :=
  unfold MultiTenant.isActiveChannel, MultiTenant.getActiveChannel,
    Installation_findOne, Installation_findOneAndUpdate, Spot_save,
    Spot_aggregate, Spot_find_newest, Spot_findOneAndDelete, Spot_deleteMany.

Ltac run_result E :=
  repeat match type of E with
         | context [let '(_, _) := ?x in _] => destruct x
         end;
  inversion E; subst; clear E.

(** ** Only [/setchannel] writes to the Installation collection *)

Lemma same_installations_refl s : same_installations s s.
Proof. reflexivity. Qed.

Lemma same_installations_trans a b c :
  same_installations a b -> same_installations b c -> same_installations a c.
Proof. unfold same_installations. congruence. Qed.

Lemma same_installations_emit s e : same_installations s (emit e s).
Proof. reflexivity. Qed.

Ltac keeps_installations :=
  unfold_store_ops;
  repeat match goal with
    | |- forall _, _ => intro
    | |- keeps _ (ret _) => apply (keeps_ret _ same_installations_refl)
    | |- keeps _ (throw _) => apply (keeps_throw _ same_installations_refl)
    | |- keeps _ (ask _) => apply (keeps_ask _ same_installations_refl)
    | |- keeps _ (new_Spot _ _ _ _ _ _) =>
        apply (keeps_new_Spot _ same_installations_refl)
    | |- keeps _ (say _) =>
        apply keeps_say; intros; apply same_installations_emit
    | |- keeps _ ack => apply keeps_ack; intros; apply same_installations_emit
    | |- keeps _ console_error =>
        apply keeps_console_error; intros; apply same_installations_emit
    | |- keeps _ (client_users_info _) =>
        apply keeps_users_info; intros; apply same_installations_emit
    | |- keeps _ (try_catch _ _) =>
        apply (keeps_try_catch _ same_installations_trans)
    | |- keeps _ (bind _ _) => apply (keeps_bind _ same_installations_trans)
    | |- keeps _ (store_call _ _) =>
        apply (keeps_store_call _ same_installations_trans);
        [ intro; apply same_installations_emit
        | let E := fresh "E" in
          intros ? ? ? ? E; run_result E; reflexivity ]
    | |- keeps _ (if ?b then _ else _) => destruct b
    | |- keeps _ (match ?x with _ => _ end) => destruct x
    | |- keeps _ (let _ := _ in _) => cbv zeta
    | |- keeps _ ((fun _ => _) _) => cbv beta
    end.

Lemma handle_keeps_installations call :
  (forall c, call <> mt_setchannel c) ->
  keeps same_installations (handle call).
Proof.
  intros Hcall. destruct call as [c|m|c|c|m|m|c|m|c|c|m|m|c];
    try (exfalso; apply (Hcall c); reflexivity); cbn [handle].
  - unfold MultiTenant.spot_listener. keeps_installations.
  - unfold MultiTenant.spotboard_command. keeps_installations.
  - unfold MultiTenant.caughtboard_command. keeps_installations.
  - unfold MultiTenant.pics_listener. keeps_installations.
  - unfold MultiTenant.veto_listener. keeps_installations.
  - unfold MultiTenant.reset_command. keeps_installations.
  - unfold SingleTenant.spot_listener. keeps_installations.
  - unfold SingleTenant.spotboard_command. keeps_installations.
  - unfold SingleTenant.caughtboard_command. keeps_installations.
  - unfold SingleTenant.pics_listener. keeps_installations.
  - unfold SingleTenant.veto_listener. keeps_installations.
  - unfold SingleTenant.reset_command. keeps_installations.
Qed.

(** X6. Of all the handlers of both bots only [/setchannel] can change the
    Installation collection: every run of any other handler, whatever the
    environment answers, leaves it exactly as it was. *)
Theorem only_setchannel_writes_installations call env s :
  (forall c, call <> mt_setchannel c) ->
  installations (snd (handle call env s)) = installations s.
Proof. intros H. apply (handle_keeps_installations call H). Qed.

(** ** The leaderboards only read *)

Lemma only_reads_refl s : only_reads s s.
Proof.
  unfold only_reads. repeat split. exists [].
  split; [symmetry; apply app_nil_r | constructor].
Qed.

Lemma only_reads_trans a b c :
  only_reads a b -> only_reads b c -> only_reads a c.
Proof.
  intros (Hs1 & Hi1 & n1 & Ht1 & Hr1) (Hs2 & Hi2 & n2 & Ht2 & Hr2).
  unfold only_reads. split; [congruence|]. split; [congruence|].
  exists (n1 ++ n2)%list. split.
  - rewrite Ht2, Ht1, app_assoc. reflexivity.
  - unfold store_ops in *. rewrite flat_map_app. apply Forall_app.
    split; assumption.
Qed.

Lemma only_reads_event s e :
  (forall op, e <> EvStore op) -> only_reads s (emit e s).
Proof.
  intros He. unfold only_reads. repeat split. exists [e].
  split; [reflexivity|].
  destruct e; cbn;
    [constructor | constructor | constructor | constructor|].
  exfalso. apply (He op). reflexivity.
Qed.

Lemma only_reads_read s op :
  is_write op = false -> only_reads s (emit (EvStore op) s).
Proof.
  intros Hop. unfold only_reads. repeat split. exists [EvStore op].
  split; [reflexivity|]. constructor; [exact Hop | constructor].
Qed.

Lemma only_reads_same s :
  only_reads s
    {| spots := spots s; installations := installations s;
       trace := trace s |}.
Proof.
  unfold only_reads. repeat split. exists [].
  split; [symmetry; apply app_nil_r | constructor].
Qed.

Ltac keeps_reading :=
  unfold_store_ops;
  repeat match goal with
    | |- forall _, _ => intro
    | |- keeps _ (ret _) => apply (keeps_ret _ only_reads_refl)
    | |- keeps _ (throw _) => apply (keeps_throw _ only_reads_refl)
    | |- keeps _ (ask _) => apply (keeps_ask _ only_reads_refl)
    | |- keeps _ (say _) => apply (keeps_say _ only_reads_event)
    | |- keeps _ ack => apply (keeps_ack _ only_reads_event)
    | |- keeps _ console_error =>
        apply (keeps_console_error _ only_reads_event)
    | |- keeps _ (client_users_info _) =>
        apply (keeps_users_info _ only_reads_event)
    | |- keeps _ (try_catch _ _) =>
        apply (keeps_try_catch _ only_reads_trans)
    | |- keeps _ (bind _ _) => apply (keeps_bind _ only_reads_trans)
    | |- keeps _ (store_call _ _) =>
        apply (keeps_store_call _ only_reads_trans);
        [ intro; apply only_reads_read; reflexivity
        | let E := fresh "E" in
          intros ? ? ? ? E; run_result E; apply only_reads_same ]
    | |- keeps _ (if ?b then _ else _) => destruct b
    | |- keeps _ (match ?x with _ => _ end) => destruct x
    | |- keeps _ (let _ := _ in _) => cbv zeta
    | |- keeps _ ((fun _ => _) _) => cbv beta
    end.

(** X7. [/spotboard] and [/caughtboard], in both bots, only read: on every
    run, whatever the command text, the gate's answer or the store's, both
    collections are unchanged and no write operation is issued. *)
Theorem leaderboards_only_read c :
  keeps only_reads (MultiTenant.spotboard_command c)
  /\ keeps only_reads (MultiTenant.caughtboard_command c)
  /\ keeps only_reads (SingleTenant.spotboard_command c)
  /\ keeps only_reads (SingleTenant.caughtboard_command c).
Proof.
  unfold MultiTenant.spotboard_command, MultiTenant.caughtboard_command,
    SingleTenant.spotboard_command, SingleTenant.caughtboard_command.
  split; [|split; [|split]]; keeps_reading.
Qed.

(** ** Authorization *)

Lemma only_reads_appended s new :
  Forall (fun op => is_write op = false) (store_ops new) ->
  only_reads s
    {| spots := spots s; installations := installations s;
       trace := trace s ++ new |}.
Proof. intros H. unfold only_reads. repeat split. exists new. auto. Qed.

Ltac quiet :=
  unfold emit, gate_lookup; cbn [negb fst snd spots installations trace];
  trace_norm;
  first
    [ apply only_reads_refl
    | apply only_reads_appended; cbn [store_ops flat_map app];
      repeat constructor ].

Lemma veto_body_unauthorized env s0 s f m root :
  users_info env (user m) <> InfoUser true ->
  only_reads s s0 ->
  only_reads s (snd (veto_body f m root env s0)).
Proof.
  intros Hu H0. apply (only_reads_trans _ _ _ H0).
  rewrite veto_body_run.
  destruct (users_info env (user m)) as [|[|]]; [quiet | congruence | quiet].
Qed.

(** X8. Nothing is changed on behalf of a user the identity service does
    not report as an administrator: when [users.info] fails or answers
    with a user who is not an admin, every run of [/setchannel], [/reset]
    and veto, in both bots, leaves both collections unchanged and issues
    no write operation. *)
Theorem only_admins_change_the_store env s :
  (forall c,
      users_info env (user_id c) <> InfoUser true ->
      only_reads s (snd (MultiTenant.setchannel_command c env s))
      /\ only_reads s (snd (MultiTenant.reset_command c env s))
      /\ only_reads s (snd (SingleTenant.reset_command c env s)))
  /\ (forall m,
        users_info env (user m) <> InfoUser true ->
        only_reads s (snd (MultiTenant.veto_listener m env s))
        /\ only_reads s (snd (SingleTenant.veto_listener m env s))).
Proof.
  split.
  - intros c Hu. split; [|split].
    + unfold MultiTenant.setchannel_command, Installation_findOneAndUpdate.
      monad_unfold.
      destruct (users_info env (user_id c)) as [|[|]];
        [quiet | congruence | quiet].
    + unfold MultiTenant.reset_command. unfold bind at 1. unfold ack.
      unfold bind at 1. rewrite isActiveChannel_cases.
      destruct (store_rejects env (InstallationFindOne (team_id c)));
        [quiet|].
      cbn [installations emit].
      destruct (gate_passes (installations s) (team_id c) (channel_id c));
        cbn [negb]; [|unfold say; quiet].
      unfold Spot_deleteMany. monad_unfold.
      destruct (users_info env (user_id c)) as [|[|]];
        [quiet | congruence | quiet].
    + unfold SingleTenant.reset_command, Spot_deleteMany. monad_unfold.
      destruct (users_info env (user_id c)) as [|[|]];
        [quiet | congruence | quiet].
  - intros m Hu. split.
    + rewrite mt_veto_run.
      destruct (store_rejects env (InstallationFindOne (team m))); [quiet|].
      destruct (gate_passes (installations s) (team m) (channel m));
        [|quiet].
      destruct (thread_ts m) as [root|]; [|quiet].
      destruct (negb (truthy root) || _)%bool; [quiet|].
      apply veto_body_unauthorized; [exact Hu | quiet].
    + rewrite st_veto_run.
      destruct (thread_ts m) as [root|]; [|apply only_reads_refl].
      destruct (negb (truthy root) || _)%bool; [apply only_reads_refl|].
      apply veto_body_unauthorized; [exact Hu | apply only_reads_refl].
Qed.

(** ** Binding the channel *)



Lemma update_first_tenants t c l :
  map inst_teamId (update_first t c l) = map inst_teamId l.
Proof.
  induction l as [|x l IH]; cbn; [reflexivity|].
  destruct (for_team t x); cbn; [reflexivity | rewrite IH; reflexivity].
Qed.



(** ** What reset and veto can remove *)

Lemma filter_out_idem {A} (p : A -> bool) l :
  filter (fun x => negb (p x)) (filter (fun x => negb (p x)) l)
  = filter (fun x => negb (p x)) l.
Proof.
  induction l as [|x l IH]; cbn; [reflexivity|].
  destruct (p x) eqn:E; cbn; [exact IH|]. rewrite E. cbn. rewrite IH.
  reflexivity.
Qed.

Lemma removes_only_same f s s' :
  spots s' = spots s -> installations s' = installations s ->
  removes_only f s s'.
Proof.
  intros Hs Hi. unfold removes_only. rewrite Hs.
  repeat split; [exact Hi | apply incl_refl | lia].
Qed.

Lemma removes_only_all f s s' :
  spots s' = after_reset f (spots s) -> installations s' = installations s ->
  removes_only f s s'.
Proof.
  intros Hs Hi. unfold removes_only, after_reset in *. rewrite Hs.
  split; [exact Hi|]. split; [apply filter_out_idem|]. split.
  - intros x Hx. apply filter_In in Hx. tauto.
  - apply filter_length_le.
Qed.

Lemma removes_only_first g f s s' found :
  remove_first (matches g) (spots s) = (found, spots s') ->
  installations s' = installations s ->
  (forall x, matches g x = true -> matches f x = true) ->
  removes_only f s s' /\ (length (spots s) <= S (length (spots s')))%nat.
Proof.
  intros R Hi Hsub. destruct found as [d|].
  - apply remove_first_found in R.
    destruct R as (b & a & E & E' & _ & Hd). unfold removes_only.
    rewrite E, E'. split; [|rewrite !length_app; cbn; lia].
    split; [exact Hi|]. split; [|split].
    + rewrite !filter_app. cbn. rewrite (Hsub d Hd). reflexivity.
    + intros x Hx. apply in_app_or in Hx. apply in_or_app.
      destruct Hx as [Hx|Hx]; [left; exact Hx | right; right; exact Hx].
    + rewrite !length_app. cbn. lia.
  - apply remove_first_none in R. destruct R as [E _].
    split; [apply removes_only_same; assumption | rewrite E; lia].
Qed.

Lemma scope_covers_mt_veto m root x :
  matches (MultiTenant.veto_filter m root) x = true ->
  matches (scope_filter (Some (team m)) (channel m)) x = true.
Proof.
  unfold matches, MultiTenant.veto_filter, scope_filter.
  cbn [f_teamId f_targetId f_channelId f_messageTs f_status].
  rewrite !andb_true_iff. cbn. tauto.
Qed.

Lemma scope_covers_st_veto m root x :
  matches (SingleTenant.veto_filter m root) x = true ->
  matches (scope_filter None (channel m)) x = true.
Proof.
  unfold matches, SingleTenant.veto_filter, scope_filter.
  cbn [f_teamId f_targetId f_channelId f_messageTs f_status].
  rewrite !andb_true_iff. cbn. tauto.
Qed.

Lemma veto_body_removes env s0 s g f m root :
  spots s0 = spots s -> installations s0 = installations s ->
  (forall x, matches g x = true -> matches f x = true) ->
  removes_only f s (snd (veto_body g m root env s0))
  /\ (length (spots s)
      <= S (length (spots (snd (veto_body g m root env s0)))))%nat.
Proof.
  intros Hs Hi Hsub. rewrite veto_body_run.
  destruct (users_info env (user m)) as [|[|]]; cbn [snd];
    try (split; [apply removes_only_same; assumption
                | cbn [spots]; rewrite Hs; lia]).
  destruct (store_rejects env _); cbn [snd];
    try (split; [apply removes_only_same; assumption
                | cbn [spots]; rewrite Hs; lia]).
  destruct (remove_first (matches g) (spots s0)) as [found rest] eqn:R.
  rewrite Hs in R.
  assert (H : removes_only f s
                {| spots := rest; installations := installations s0;
                   trace := trace s |}
              /\ (length (spots s) <= S (length rest))%nat).
  { apply (removes_only_first g f s
             {| spots := rest; installations := installations s0;
                trace := trace s |} found); assumption. }
  destruct H as [H1 H2]. destruct found; cbn [snd spots]; split; assumption.
Qed.

Ltac untouched :=
  cbn [negb snd]; apply removes_only_same; reflexivity.

(** X10. [/reset] and veto never reach outside their scope and never add
    anything: on every run, whatever the environment answers, the Spots of
    other channels (and, in the multi-tenant bot, of other tenants) are all
    still there in their order, no Spot is new, the Installations are
    unchanged, and a veto removes at most one Spot. *)
Theorem reset_and_veto_stay_in_scope env s :
  (forall c,
      removes_only (scope_filter (Some (team_id c)) (channel_id c)) s
        (snd (MultiTenant.reset_command c env s))
      /\ removes_only (scope_filter None (channel_id c)) s
           (snd (SingleTenant.reset_command c env s)))
  /\ (forall m,
        (removes_only (scope_filter (Some (team m)) (channel m)) s
           (snd (MultiTenant.veto_listener m env s))
         /\ (length (spots s)
             <= S (length (spots (snd (MultiTenant.veto_listener m env
                                         s)))))%nat)
        /\ (removes_only (scope_filter None (channel m)) s
              (snd (SingleTenant.veto_listener m env s))
            /\ (length (spots s)
                <= S (length (spots (snd (SingleTenant.veto_listener m env
                                            s)))))%nat)).
Proof.
  split.
  - intros c. split.
    + unfold MultiTenant.reset_command. unfold bind at 1. unfold ack.
      unfold bind at 1. rewrite isActiveChannel_cases.
      destruct (store_rejects env (InstallationFindOne (team_id c)));
        [untouched|].
      cbn [installations emit].
      destruct (gate_passes (installations s) (team_id c) (channel_id c));
        cbn [negb]; [|unfold say; untouched].
      unfold Spot_deleteMany. monad_unfold.
      destruct (users_info env (user_id c)) as [|[|]]; try untouched.
      cbn [negb emit spots installations trace].
      destruct (store_rejects env _); [untouched|].
      destruct (Nat.ltb 0 _); cbn [snd emit];
        apply removes_only_all; reflexivity.
    + unfold SingleTenant.reset_command, Spot_deleteMany. monad_unfold.
      destruct (users_info env (user_id c)) as [|[|]]; try untouched.
      cbn [negb emit spots installations trace].
      destruct (store_rejects env _); [untouched|].
      destruct (Nat.ltb 0 _); cbn [snd emit];
        apply removes_only_all; reflexivity.
  - intros m. split.
    + rewrite mt_veto_run.
      destruct (store_rejects env (InstallationFindOne (team m)));
        [split; [untouched | cbn; lia]|].
      destruct (gate_passes (installations s) (team m) (channel m));
        [|split; [untouched | cbn; lia]].
      destruct (thread_ts m) as [root|]; [|split; [untouched | cbn; lia]].
      destruct (negb (truthy root) || _)%bool;
        [split; [untouched | cbn; lia]|].
      apply (veto_body_removes env _ s (MultiTenant.veto_filter m root));
        try reflexivity.
      apply scope_covers_mt_veto.
    + rewrite st_veto_run.
      destruct (thread_ts m) as [root|]; [|split; [untouched | cbn; lia]].
      destruct (negb (truthy root) || _)%bool;
        [split; [untouched | cbn; lia]|].
      apply (veto_body_removes env _ s (SingleTenant.veto_filter m root));
        try reflexivity.
      apply scope_covers_st_veto.
Qed.

(** ** What the spot listeners can add *)

Lemma spot_body_appends env s0 m (tenant : option string) :
  let r :=
    match match_mention (text m), has_files m with
    | Some target, true =>
        try_catch
          (newSpot <- new_Spot tenant (user m) target (first_file_url m)
                        (channel m) (Some (ts m)) ;;
           Spot_save newSpot ;;
           say (spot_logged m target))
          (fun _ => console_error ;; say trouble_saving)
    | Some _, false => say (no_photo m)
    | None, _ => ret tt
    end env s0 in
  installations (snd r) = installations s0
  /\ spots (snd r) = (spots s0 ++ logged env tenant m)%list.
Proof.
  unfold logged, spot_for, save_succeeds.
  destruct (match_mention (text m)) as [target|];
    [destruct (has_files m)|]; cbn zeta.
  - unfold new_Spot, Spot_save. monad_unfold.
    set (d := make_Spot env tenant (user m) target (first_file_url m)
                (channel m) (Some (ts m))).
    destruct (valid (Spot_schema env) d);
      [destruct (store_rejects env (SpotSave d))|];
      cbn [negb andb fst snd emit spots installations trace];
      rewrite ?app_nil_r; split; reflexivity.
  - cbn. rewrite app_nil_r. split; reflexivity.
  - cbn. rewrite app_nil_r. split; reflexivity.
Qed.

Lemma logged_facts env tenant m :
  (length (logged env tenant m) <= 1)%nat
  /\ Forall (fun d =>
               spot_ok env d /\ status d = confirmed
               /\ channelId d = channel m /\ spotterId d = user m
               /\ match_mention (text m) = Some (targetId d)
               /\ (exists f others,
                     files m = f :: others /\ imageUrl d = url_private f
                     /\ url_private f <> ""))
       (logged env tenant m).
Proof.
  unfold logged. destruct (match_mention (text m)) as [target|];
    [|split; [cbn; lia | constructor]].
  destruct (has_files m) eqn:Hf; [|split; [cbn; lia | constructor]].
  destruct (save_succeeds env (spot_for env tenant m target)) eqn:Hs;
    [|split; [cbn; lia | constructor]].
  split; [cbn; lia|]. constructor; [|constructor].
  unfold save_succeeds in Hs. apply andb_true_iff in Hs.
  destruct Hs as [Hv _]. unfold spot_ok.
  split; [exact Hv|]. repeat split.
  unfold has_files in Hf. destruct (files m) as [|f others] eqn:E;
    [discriminate|].
  exists f, others. unfold spot_for, first_file_url. rewrite E. cbn.
  split; [reflexivity|]. split; [reflexivity|].
  unfold valid, spot_for, first_file_url in Hv. rewrite E in Hv. cbn in Hv.
  rewrite !andb_true_iff in Hv. destruct Hv as [[_ Hu] _].
  intros E0. rewrite E0 in Hu. discriminate.
Qed.

Lemma mt_spot_run env s m :
  let s0 := emit (gate_lookup (team m)) s in
  MultiTenant.spot_listener m env s
  = if store_rejects env (InstallationFindOne (team m))
    then (Thrown StoreError, s0)
    else if gate_passes (installations s) (team m) (channel m)
    then match match_mention (text m), has_files m with
         | Some target, true =>
             try_catch
               (newSpot <- new_Spot (Some (team m)) (user m) target
                             (first_file_url m) (channel m) (Some (ts m)) ;;
                Spot_save newSpot ;;
                say (spot_logged m target))
               (fun _ => console_error ;; say trouble_saving)
         | Some _, false => say (no_photo m)
         | None, _ => ret tt
         end env s0
    else (Returned tt, s0).
Proof.
  intros s0. subst s0. unfold MultiTenant.spot_listener. unfold bind at 1.
  rewrite isActiveChannel_cases.
  destruct (store_rejects env _); [reflexivity|].
  destruct (gate_passes _ _ _); reflexivity.
Qed.

Lemma mt_spot_appends env s m :
  installations (snd (MultiTenant.spot_listener m env s)) = installations s
  /\ exists new,
       spots (snd (MultiTenant.spot_listener m env s))
       = (spots s ++ new)%list
       /\ (new = [] \/ new = logged env (Some (team m)) m).
Proof.
  rewrite mt_spot_run.
  destruct (store_rejects env (InstallationFindOne (team m)));
    [cbn; split; [reflexivity|]; exists []; rewrite app_nil_r; auto|].
  destruct (gate_passes (installations s) (team m) (channel m));
    [|cbn; split; [reflexivity|]; exists []; rewrite app_nil_r; auto].
  destruct (spot_body_appends env (emit (gate_lookup (team m)) s) m
              (Some (team m))) as [Hi Hs].
  split; [exact Hi|]. eexists. split; [exact Hs | right; reflexivity].
Qed.

Lemma st_spot_appends env s m :
  installations (snd (SingleTenant.spot_listener m env s)) = installations s
  /\ exists new,
       spots (snd (SingleTenant.spot_listener m env s))
       = (spots s ++ new)%list
       /\ (new = [] \/ new = logged env None m).
Proof.
  unfold SingleTenant.spot_listener.
  destruct (negb (String.eqb (channel m) SingleTenant.the_channel));
    [cbn; split; [reflexivity|]; exists []; rewrite app_nil_r; auto|].
  destruct (spot_body_appends env s m None) as [Hi Hs].
  split; [exact Hi|]. eexists. split; [exact Hs | right; reflexivity].
Qed.

(** X11. A spot listener only ever appends: on every run the Spots that
    were stored are still there, unchanged and in order, followed by at
    most one new Spot; a new Spot passes the validators of the schema, is
    confirmed, has the message's channel and author, the first mention as
    target and the non-empty URL of the first file as image. *)
Theorem spot_listener_only_appends env s m :
  let P d :=
    spot_ok env d /\ status d = confirmed
    /\ channelId d = channel m /\ spotterId d = user m
    /\ match_mention (text m) = Some (targetId d)
    /\ (exists f others,
          files m = f :: others /\ imageUrl d = url_private f
          /\ url_private f <> "") in
  appends_at_most_one P s (snd (MultiTenant.spot_listener m env s))
  /\ appends_at_most_one P s (snd (SingleTenant.spot_listener m env s)).
Proof.
  intros P. subst P. unfold appends_at_most_one. split.
  - destruct (mt_spot_appends env s m) as (Hi & new & Hs & [->| ->]).
    + split; [exact Hi|]. exists []. repeat split; [exact Hs | cbn; lia |].
      constructor.
    + split; [exact Hi|]. eexists. split; [exact Hs|].
      apply logged_facts.
  - destruct (st_spot_appends env s m) as (Hi & new & Hs & [->| ->]).
    + split; [exact Hi|]. exists []. repeat split; [exact Hs | cbn; lia |].
      constructor.
    + split; [exact Hi|]. eexists. split; [exact Hs|].
      apply logged_facts.
Qed.

(** ** Who can add a Spot *)

Lemma no_new_spots_refl s : no_new_spots s s.
Proof. apply incl_refl. Qed.

Lemma no_new_spots_trans a b c :
  no_new_spots a b -> no_new_spots b c -> no_new_spots a c.
Proof. unfold no_new_spots. intros H1 H2. apply (incl_tran H2 H1). Qed.

Lemma no_new_spots_event s e :
  (forall op, e <> EvStore op) -> no_new_spots s (emit e s).
Proof. intros _. apply incl_refl. Qed.

Lemma remove_first_incl p l found rest :
  remove_first p l = (found, rest) -> incl rest l.
Proof.
  destruct found as [d|]; intros R.
  - apply remove_first_found in R. destruct R as (b & a & -> & -> & _).
    intros x Hx. apply in_app_or in Hx. apply in_or_app.
    destruct Hx as [Hx|Hx]; [left; exact Hx | right; right; exact Hx].
  - apply remove_first_none in R. destruct R as [-> _]. apply incl_refl.
Qed.

Lemma reading_adds_nothing {A} op (f : list Spot -> list Installation -> A)
    (g : list Installation -> list Installation) :
  keeps no_new_spots (store_call op (fun sp ins => (f sp ins, sp, g ins))).
Proof.
  apply (keeps_store_call _ no_new_spots_trans).
  - intro s. apply incl_refl.
  - intros s a sp ins E. inversion E; subst. apply incl_refl.
Qed.

Lemma findOneAndDelete_adds_nothing f :
  keeps no_new_spots (Spot_findOneAndDelete f).
Proof.
  unfold Spot_findOneAndDelete.
  apply (keeps_store_call _ no_new_spots_trans).
  - intro s. apply incl_refl.
  - intros s a sp ins E.
    destruct (remove_first (matches f) (spots s)) as [found rest] eqn:R.
    inversion E; subst. apply (remove_first_incl _ _ _ _ R).
Qed.

Lemma deleteMany_adds_nothing f : keeps no_new_spots (Spot_deleteMany f).
Proof.
  unfold Spot_deleteMany.
  apply (keeps_store_call _ no_new_spots_trans).
  - intro s. apply incl_refl.
  - intros s a sp ins E. inversion E; subst.
    intros x Hx. apply filter_In in Hx. tauto.
Qed.

Ltac adds_nothing :=
  unfold MultiTenant.isActiveChannel, MultiTenant.getActiveChannel,
    Installation_findOne, Installation_findOneAndUpdate, Spot_aggregate,
    Spot_find_newest;
  repeat match goal with
    | |- forall _, _ => intro
    | |- keeps _ (ret _) => apply (keeps_ret _ no_new_spots_refl)
    | |- keeps _ (throw _) => apply (keeps_throw _ no_new_spots_refl)
    | |- keeps _ (ask _) => apply (keeps_ask _ no_new_spots_refl)
    | |- keeps _ (say _) => apply (keeps_say _ no_new_spots_event)
    | |- keeps _ ack => apply (keeps_ack _ no_new_spots_event)
    | |- keeps _ console_error =>
        apply (keeps_console_error _ no_new_spots_event)
    | |- keeps _ (client_users_info _) =>
        apply (keeps_users_info _ no_new_spots_event)
    | |- keeps _ (try_catch _ _) =>
        apply (keeps_try_catch _ no_new_spots_trans)
    | |- keeps _ (bind _ _) => apply (keeps_bind _ no_new_spots_trans)
    | |- keeps _ (Spot_findOneAndDelete _) =>
        apply findOneAndDelete_adds_nothing
    | |- keeps _ (Spot_deleteMany _) => apply deleteMany_adds_nothing
    | |- keeps _ (store_call _ _) => apply reading_adds_nothing
    | |- keeps _ (if ?b then _ else _) => destruct b
    | |- keeps _ (match ?x with _ => _ end) => destruct x
    | |- keeps _ (let _ := _ in _) => cbv zeta
    | |- keeps _ ((fun _ => _) _) => cbv beta
    end.

Lemma handle_adds_nothing call :
  (forall m, call <> mt_spot m) -> (forall m, call <> st_spot m) ->
  keeps no_new_spots (handle call).
Proof.
  intros Hmt Hst. destruct call as [c|m|c|c|m|m|c|m|c|c|m|m|c];
    try (exfalso; apply (Hmt m); reflexivity);
    try (exfalso; apply (Hst m); reflexivity); cbn [handle].
  - unfold MultiTenant.setchannel_command. adds_nothing.
  - unfold MultiTenant.spotboard_command. adds_nothing.
  - unfold MultiTenant.caughtboard_command. adds_nothing.
  - unfold MultiTenant.pics_listener. adds_nothing.
  - unfold MultiTenant.veto_listener. adds_nothing.
  - unfold MultiTenant.reset_command. adds_nothing.
  - unfold SingleTenant.spotboard_command. adds_nothing.
  - unfold SingleTenant.caughtboard_command. adds_nothing.
  - unfold SingleTenant.pics_listener. adds_nothing.
  - unfold SingleTenant.veto_listener. adds_nothing.
  - unfold SingleTenant.reset_command. adds_nothing.
Qed.

(** X12. Only the spot listeners can add a Spot: after any run of any
    other handler of either bot, every Spot in the store was already there
    before the run. *)
Theorem only_spot_listeners_add_spots call env s d :
  (forall m, call <> mt_spot m) -> (forall m, call <> st_spot m) ->
  In d (spots (snd (handle call env s))) -> In d (spots s).
Proof. intros Hmt Hst. apply (handle_adds_nothing call Hmt Hst env s). Qed.

(** ** The invariant of the store *)

Lemma setchannel_tenants env s c :
  map inst_teamId (installations (snd (MultiTenant.setchannel_command c env s)))
  = map inst_teamId (installations s).
Proof.
  unfold MultiTenant.setchannel_command, Installation_findOneAndUpdate.
  monad_unfold.
  destruct (users_info env (user_id c)) as [|[|]]; try reflexivity.
  cbn [negb emit spots installations trace].
  destruct (store_rejects env _); [reflexivity|].
  cbn [snd emit installations]. apply update_first_tenants.
Qed.

Lemma handle_keeps_unique call env s :
  unique_tenants (installations s) ->
  unique_tenants (installations (snd (handle call env s))).
Proof.
  unfold unique_tenants. intros H.
  destruct call as [c|m|c|c|m|m|c|m|c|c|m|m|c];
    try (match goal with
         | |- context [handle ?call] =>
             let E := fresh "E" in
             assert (E : same_installations s (snd (handle call env s)))
               by (apply handle_keeps_installations; discriminate);
             unfold same_installations in E; rewrite E; exact H
         end).
  cbn [handle]. rewrite setchannel_tenants. exact H.
Qed.

Lemma handle_keeps_spots_ok call env env0 s :
  Spot_schema env = Spot_schema env0 ->
  Forall (spot_ok env0) (spots s) ->
  Forall (spot_ok env0) (spots (snd (handle call env s))).
Proof.
  intros Hsch H.
  assert (Hlogged : forall tenant m,
             Forall (spot_ok env0) (logged env tenant m)).
  { intros tenant m. destruct (logged_facts env tenant m) as [_ Hall].
    rewrite Forall_forall in *. intros d Hd. destruct (Hall d Hd) as [Hok _].
    unfold spot_ok in *. rewrite <- Hsch. exact Hok. }
  destruct call as [c|m|c|c|m|m|c|m|c|c|m|m|c];
    try (match goal with
         | |- context [handle ?call] =>
             let E := fresh "E" in
             assert (E : no_new_spots s (snd (handle call env s)))
               by (apply handle_adds_nothing; discriminate);
             rewrite Forall_forall in *; intros d Hd; apply H;
             apply (E d Hd)
         end).
  - cbn [handle].
    destruct (mt_spot_appends env s m) as (_ & new & -> & [->| ->]);
      apply Forall_app; split; auto.
  - cbn [handle].
    destruct (st_spot_appends env s m) as (_ & new & -> & [->| ->]);
      apply Forall_app; split; auto.
Qed.

Lemma step_keeps_invariant env env0 a s :
  Spot_schema env = Spot_schema env0 ->
  store_invariant env0 s -> store_invariant env0 (step env a s).
Proof.
  intros Hsch [Hs Hu]. unfold store_invariant. destruct a as [call|f i|f t];
    cbn [step].
  - split; [apply handle_keeps_spots_ok; assumption
           | apply handle_keeps_unique; exact Hu].
  - unfold installationStore.storeInstallation.
    destruct (slack_team i); [|split; assumption].
    destruct (slack_bot i); [|split; assumption].
    destruct (upsert_rejected f _); [split; assumption|].
    cbn [snd with_installations spots installations].
    split; [exact Hs | apply upsert_unique; exact Hu].
  - unfold installationStore.deleteInstallation.
    destruct (deleteOne_rejected f t); [split; assumption|].
    cbn [snd with_installations spots installations].
    split; [exact Hs | apply delete_first_unique; exact Hu].
Qed.

(** X13. The store keeps its invariant through any history: if every Spot
    passes the validators of the schema and no tenant has two
    Installations, the same holds after any sequence of handler runs of
    either bot, installs and uninstalls, whatever the identity service and
    the store answer along the way (the schema staying the same). *)
Theorem history_keeps_the_invariant env0 h s :
  Forall (fun ea => Spot_schema (fst ea) = Spot_schema env0) h ->
  store_invariant env0 s ->
  store_invariant env0 (run_history h s).
Proof.
  revert s. induction h as [|[env a] h IH]; intros s Hh Hinv; [exact Hinv|].
  inversion Hh as [|? ? Hsch Hrest]; subst. cbn [run_history].
  apply IH; [exact Hrest|]. apply step_keeps_invariant; assumption.
Qed.

(* ===================================================================== *)
(** * The leaderboards *)
(* ===================================================================== *)

Lemma bump_row_count k k' rows :
  row_count k (bump k' rows)
  = if String.eqb k' k then S (row_count k rows) else row_count k rows.
Proof.
  unfold row_count. induction rows as [|r rows IH]; cbn.
  - destruct (String.eqb k' k); reflexivity.
  - destruct (String.eqb_spec (_id r) k') as [E|E]; cbn.
    + subst k'. destruct (String.eqb (_id r) k); reflexivity.
    + destruct (String.eqb_spec (_id r) k) as [E2|E2].
      * subst k. apply not_eq_sym in E. apply String.eqb_neq in E.
        rewrite E. reflexivity.
      * exact IH.
Qed.

Lemma bump_ids k rows :
  map _id (bump k rows)
  = if existsb (fun r => String.eqb (_id r) k) rows
    then map _id rows
    else (map _id rows ++ [k])%list.
Proof.
  induction rows as [|r rows IH]; cbn; [reflexivity|].
  destruct (String.eqb_spec (_id r) k) as [E|E]; cbn.
  - rewrite E. reflexivity.
  - rewrite IH. destruct (existsb _ rows); reflexivity.
Qed.

Lemma bump_nodup k rows :
  NoDup (map _id rows) -> NoDup (map _id (bump k rows)).
Proof.
  intros H. rewrite bump_ids.
  destruct (existsb (fun r => String.eqb (_id r) k) rows) eqn:E; [exact H|].
  apply NoDup_app; [exact H | repeat constructor; intros [] |].
  intros x Hx [<-|[]]. apply in_map_iff in Hx. destruct Hx as (r & Hr & Hin).
  assert (Ht : existsb (fun r => String.eqb (_id r) k) rows = true).
  { apply existsb_exists. exists r. split; [exact Hin|].
    apply String.eqb_eq. exact Hr. }
  congruence.
Qed.

Lemma bump_positive k rows :
  Forall (fun r => (0 < count r)%nat) rows ->
  Forall (fun r => (0 < count r)%nat) (bump k rows).
Proof.
  induction 1 as [|r rows Hr Hrows IH]; cbn; [repeat constructor|].
  destruct (String.eqb (_id r) k); constructor; cbn; auto; lia.
Qed.

(** Grouping from an accumulator: the general form of [group_count]. *)
Lemma fold_bump key l rows :
  NoDup (map _id rows) ->
  Forall (fun r => (0 < count r)%nat) rows ->
  let rows' := fold_left (fun rows s => bump (group_field key s) rows) l rows in
  NoDup (map _id rows')
  /\ Forall (fun r => (0 < count r)%nat) rows'
  /\ forall k,
       row_count k rows'
       = (row_count k rows
          + length (filter (fun s => String.eqb (group_field key s) k) l))%nat.
Proof.
  revert rows. induction l as [|s l IH]; intros rows Hn Hp; cbn.
  - repeat split; auto.
  - destruct (IH (bump (group_field key s) rows)
                (bump_nodup _ _ Hn) (bump_positive _ _ Hp))
      as (H1 & H2 & H3).
    split; [exact H1|]. split; [exact H2|].
    intros k. rewrite H3, bump_row_count.
    destruct (String.eqb (group_field key s) k); cbn; lia.
Qed.

Lemma row_count_in k r rows :
  NoDup (map _id rows) -> In r rows -> _id r = k -> row_count k rows = count r.
Proof.
  unfold row_count. induction rows as [|x rows IH]; cbn; intros Hn Hin Hk;
    [destruct Hin|].
  inversion Hn as [|? ? Hx Hrest]; subst.
  destruct Hin as [->|Hin].
  - rewrite String.eqb_refl. reflexivity.
  - destruct (String.eqb_spec (_id x) (_id r)) as [E|E].
    + exfalso. apply Hx. rewrite E. apply in_map. exact Hin.
    + apply IH; auto.
Qed.

Lemma filter_filter {A} (p q : A -> bool) l :
  filter q (filter p l) = filter (fun x => (p x && q x)%bool) l.
Proof.
  induction l as [|x l IH]; cbn; [reflexivity|].
  destruct (p x); cbn; [destruct (q x); rewrite IH; reflexivity | exact IH].
Qed.

Lemma in_length_pos {A} (x : A) l : In x l -> (0 < length l)%nat.
Proof. destruct l; [intros [] | cbn; lia]. Qed.

Lemma groups_facts f key l :
  NoDup (map _id (groups f key l))
  /\ (forall r, In r (groups f key l) ->
        count r = tally f key (_id r) l /\ (0 < count r)%nat)
  /\ (forall s, In s l -> matches f s = true ->
        exists r, In r (groups f key l) /\ _id r = group_field key s).
Proof.
  unfold groups, group_count, tally.
  destruct (fold_bump key (filter (matches f) l) [])
    as (Hn & Hp & Hc); [constructor | constructor |].
  cbn zeta in *. split; [exact Hn|]. split.
  - intros r Hr. split.
    + rewrite <- (row_count_in (_id r) r _ Hn Hr eq_refl), Hc.
      cbn. rewrite filter_filter. reflexivity.
    + rewrite Forall_forall in Hp. apply Hp. exact Hr.
  - intros s Hin Hm.
    set (rows := fold_left _ _ _) in *.
    specialize (Hc (group_field key s)). cbn in Hc.
    assert (Hpos : (0 < row_count (group_field key s) rows)%nat).
    { rewrite Hc. rewrite filter_filter.
      assert (Hs : In s (filter (fun x => (matches f x
                   && String.eqb (group_field key x) (group_field key s))%bool)
                   l)).
      { apply filter_In. split; [exact Hin|]. rewrite Hm, String.eqb_refl.
        reflexivity. }
      apply in_length_pos in Hs. cbn. exact Hs. }
    unfold row_count in Hpos.
    destruct (find (fun r => String.eqb (_id r) (group_field key s)) rows)
      as [r|] eqn:F; [|lia].
    apply find_some in F. destruct F as [Hr E]. exists r.
    split; [exact Hr | apply String.eqb_eq; exact E].
Qed.

Lemma pipeline_in_groups f key limit l r :
  In r (pipeline f key limit l) -> In r (groups f key l).
Proof.
  unfold pipeline. intros H.
  assert (H' : In r (sort_desc (fun r => Z.of_nat (count r))
                       (group_count key (filter (matches f) l)))).
  { rewrite <- (firstn_skipn (Z.to_nat limit)). apply in_or_app. left.
    exact H. }
  apply (Permutation_in _ (sort_desc_perm _ _)) in H'. exact H'.
Qed.

(** X14. A leaderboard counts exactly: every row of the aggregation gives,
    for its user, the number of Spots that the filter selects and that
    have this user in the grouping field (spotter or target), which is at
    least one; no user has two rows; and for the filters of the commands
    the Spots selected are the confirmed Spots of the channel (and of the
    tenant, in the multi-tenant bot). *)
Theorem leaderboard_counts_are_exact f key limit l :
  (forall r, In r (pipeline f key limit l) ->
     count r = tally f key (_id r) l /\ (0 < count r)%nat)
  /\ NoDup (map _id (pipeline f key limit l))
  /\ (forall c x,
        matches (MultiTenant.board_filter c) x = true
        <-> teamId x = Some (team_id c) /\ channelId x = channel_id c
            /\ status x = confirmed)
  /\ (forall c x,
        matches (SingleTenant.board_filter c) x = true
        <-> channelId x = channel_id c /\ status x = confirmed).
Proof.
  destruct (groups_facts f key l) as (Hn & Hc & _).
  split; [|split; [|split]].
  - intros r Hr. apply Hc. apply (pipeline_in_groups _ _ _ _ _ Hr).
  - unfold pipeline.
    set (sorted := sort_desc _ _).
    assert (Hs : NoDup (map _id sorted)).
    { apply (Permutation_NoDup (l := map _id (groups f key l))); [|exact Hn].
      apply Permutation_map. symmetry. apply sort_desc_perm. }
    rewrite <- (firstn_skipn (Z.to_nat limit) sorted), map_app in Hs.
    apply NoDup_app_remove_r in Hs. exact Hs.
  - intros c x. unfold matches, MultiTenant.board_filter.
    cbn [f_teamId f_targetId f_channelId f_messageTs f_status].
    rewrite !andb_true_iff, cond_opt_some, cond_str_some,
      cond_status_confirmed.
    cbn. tauto.
  - intros c x. unfold matches, SingleTenant.board_filter.
    cbn [f_teamId f_targetId f_channelId f_messageTs f_status].
    rewrite !andb_true_iff, cond_str_some, cond_status_confirmed.
    cbn. tauto.
Qed.

(** X15. A leaderboard shows the top of the ranking: its rows are in
    descending order of count, there are as many as the limit allows, and
    every user left out has no more Spots than any user shown; every user
    with a selected Spot is in the ranking. *)
Theorem leaderboard_shows_the_top f key limit l :
  StronglySorted (descending by_count) (pipeline f key limit l)
  /\ length (pipeline f key limit l)
     = Nat.min (Z.to_nat limit) (length (groups f key l))
  /\ (forall shown left_out,
        In shown (pipeline f key limit l) ->
        In left_out (groups f key l) ->
        ~ In left_out (pipeline f key limit l) ->
        (count left_out <= count shown)%nat)
  /\ (forall s, In s l -> matches f s = true ->
        exists r, In r (groups f key l) /\ _id r = group_field key s).
Proof.
  destruct (groups_facts f key l) as (_ & _ & Hall).
  assert (Hsorted : StronglySorted (descending by_count)
                      (sort_desc by_count (groups f key l)))
    by apply sort_desc_sorted.
  rewrite <- (firstn_skipn (Z.to_nat limit)) in Hsorted.
  apply sorted_split in Hsorted. destruct Hsorted as [H1 H2].
  split; [exact H1|]. split; [apply pipeline_length|]. split; [|exact Hall].
  intros shown left_out Hs Hg Hn.
  assert (Hin : In left_out (sort_desc by_count (groups f key l))).
  { apply (Permutation_in _ (Permutation_sym (sort_desc_perm _ _))).
    exact Hg. }
  rewrite <- (firstn_skipn (Z.to_nat limit)) in Hin.
  apply in_app_or in Hin. destruct Hin as [Hin|Hin]; [contradiction|].
  specialize (H2 shown left_out Hs Hin). unfold descending, by_count in H2.
  lia.
Qed.

(** X16. A leaderboard is never asked for more than 25 rows, nor for none:
    whatever the command text, the limit is at most 25 and is not 0, and
    the aggregation yields at most 25 rows. *)
Theorem leaderboard_limit_bounds text :
  leaderboard_limit text <= 25
  /\ leaderboard_limit text <> 0
  /\ forall f key l,
       (length (pipeline f key (leaderboard_limit text) l) <= 25)%nat.
Proof.
  assert (H : leaderboard_limit text <= 25 /\ leaderboard_limit text <> 0).
  { rewrite leaderboard_limit_eq. destruct (parseInt text) as [n|]; [|lia].
    destruct (Z.eqb_spec n 0); [lia|]. destruct (Z.ltb_spec 25 n); lia. }
  destruct H as [H1 H2]. split; [exact H1|]. split; [exact H2|].
  intros f key l. rewrite pipeline_length. lia.
Qed.

(* ===================================================================== *)
(** * Mentions *)
(* ===================================================================== *)

Lemma string_app_assoc (a b c : string) : (a ++ b) ++ c = a ++ (b ++ c).
Proof. induction a as [|x a IH]; cbn; [reflexivity | rewrite IH; reflexivity]. Qed.

Lemma span_id_run id rest :
  id_chars id = true ->
  match rest with
  | EmptyString => True
  | String c _ => is_id_char c = false
  end ->
  span_id (id ++ rest) = (id, rest).
Proof.
  intros Hid Hrest. induction id as [|c id IH]; cbn in *.
  - destruct rest as [|c r]; [reflexivity|]. cbn. rewrite Hrest. reflexivity.
  - apply andb_true_iff in Hid. destruct Hid as [Hc Hid].
    rewrite Hc, (IH Hid). reflexivity.
Qed.

Lemma span_id_sound s id rest :
  span_id s = (id, rest) -> s = id ++ rest /\ id_chars id = true.
Proof.
  revert id rest. induction s as [|c s IH]; cbn; intros id rest H.
  - injection H as <- <-. split; reflexivity.
  - destruct (is_id_char c) eqn:Hc.
    + destruct (span_id s) as [a b]. injection H as <- <-.
      destruct (IH a b eq_refl) as [-> Ha]. cbn. rewrite Hc, Ha.
      split; reflexivity.
    + injection H as <- <-. split; reflexivity.
Qed.

Lemma span_id_app x c0 r0 :
  is_id_char c0 = false ->
  span_id (x ++ String c0 r0)
  = match span_id x with
    | (a, EmptyString) => (a, String c0 r0)
    | (a, String b0 b) => (a, String b0 b ++ String c0 r0)
    end.
Proof.
  intros Hc0. induction x as [|c x IH]; cbn.
  - rewrite Hc0. reflexivity.
  - destruct (is_id_char c); [|reflexivity].
    rewrite IH. destruct (span_id x) as [a [|b0 b]]; reflexivity.
Qed.

Lemma mention_here_sound s id :
  mention_here s = Some id ->
  id <> "" /\ id_chars id = true /\ exists post, s = mention_of id ++ post.
Proof.
  unfold mention_here, mention_of.
  destruct s as [|c1 [|c2 r]]; try discriminate.
  - destruct (Ascii.eqb_spec c1 "<"%char); subst;
      [discriminate | destruct c1 as [[] [] [] [] [] [] [] []]; discriminate].
  - intros H.
    assert (E : c1 = "<"%char /\ c2 = "@"%char
                /\ exists c i post,
                     span_id r = (String c i, String ">" post)
                     /\ id = String c i).
    { destruct c1 as [[] [] [] [] [] [] [] []]; try discriminate.
      destruct c2 as [[] [] [] [] [] [] [] []]; try discriminate.
      destruct (span_id r) as [[|c i] [|g post]]; try discriminate.
      destruct g as [[] [] [] [] [] [] [] []]; try discriminate.
      injection H as <-. repeat split. exists c, i, post. split; reflexivity. }
    destruct E as (-> & -> & c & i & post & Hspan & ->).
    apply span_id_sound in Hspan. destruct Hspan as [-> Hid].
    split; [discriminate|]. split; [exact Hid|]. exists post.
    cbn. rewrite string_app_assoc. reflexivity.
Qed.

Lemma mention_here_complete id post :
  id <> "" -> id_chars id = true ->
  mention_here (mention_of id ++ post) = Some id.
Proof.
  intros Hne Hid. unfold mention_of. cbn.
  rewrite string_app_assoc. cbn.
  rewrite (span_id_run id (String ">" post) Hid eq_refl).
  destruct id; [congruence | reflexivity].
Qed.

(** A match cannot straddle the start of a text that begins with '<'. *)
Lemma mention_here_before c p r :
  mention_here (String c p ++ String "<" r) = mention_here (String c p).
Proof.
  unfold mention_here. cbn.
  destruct c as [[] [] [] [] [] [] [] []]; try reflexivity.
  destruct p as [|c2 p]; [reflexivity|]. cbn.
  destruct c2 as [[] [] [] [] [] [] [] []]; try reflexivity.
  rewrite (span_id_app p "<" r eq_refl).
  destruct (span_id p) as [[|a i] [|b0 b]]; reflexivity.
Qed.

Lemma match_mention_past pre r :
  match_mention pre = None ->
  match_mention (pre ++ String "<" r) = match_mention (String "<" r).
Proof.
  induction pre as [|c p IH]; [reflexivity|].
  intros H. cbn [match_mention] in H.
  destruct (mention_here (String c p)) eqn:E; [discriminate|].
  change (String c p ++ String "<" r) with (String c (p ++ String "<" r)).
  cbn [match_mention].
  change (String c (p ++ String "<" r)) with (String c p ++ String "<" r).
  rewrite mention_here_before, E. apply IH. exact H.
Qed.

(** X17. The target of a message is a genuine first mention: when the
    pattern matches, the captured id is not empty, consists of capital
    letters and digits only, and the text reads: something that contains no
    mention, then the mention of that id, then the rest. *)
Theorem match_mention_is_the_first_mention s id :
  match_mention s = Some id ->
  id <> "" /\ id_chars id = true
  /\ exists pre post,
       s = pre ++ mention_of id ++ post /\ match_mention pre = None.
Proof.
  revert id. induction s as [|c s IH]; intros id H.
  - cbn in H. discriminate.
  - cbn [match_mention] in H.
    destruct (mention_here (String c s)) as [i|] eqn:E.
    + injection H as <-. destruct (mention_here_sound _ _ E)
        as (Hne & Hid & post & Hs).
      split; [exact Hne|]. split; [exact Hid|].
      exists "", post. split; [exact Hs | reflexivity].
    + destruct (IH id H) as (Hne & Hid & pre & post & -> & Hpre).
      split; [exact Hne|]. split; [exact Hid|].
      exists (String c pre), post. split; [reflexivity|].
      cbn [match_mention].
      assert (E' : mention_here (String c pre) = None).
      { rewrite <- E.
        change (String c (pre ++ mention_of id ++ post))
          with (String c pre
                  ++ String "<" (String "@" ((id ++ ">") ++ post))).
        rewrite mention_here_before. reflexivity. }
      rewrite E'. exact Hpre.
Qed.

(** X18. Conversely the pattern finds every mention, the leftmost first: a
    text made of a part without mention, the mention of a non-empty id of
    capital letters and digits, and anything after it, has that id as
    target. *)
Theorem match_mention_finds_the_first_mention pre id post :
  id <> "" -> id_chars id = true -> match_mention pre = None ->
  match_mention (pre ++ mention_of id ++ post) = Some id.
Proof.
  intros Hne Hid Hpre.
  change (mention_of id ++ post)
    with (String "<" (String "@" ((id ++ ">") ++ post))).
  rewrite (match_mention_past pre _ Hpre). cbn [match_mention].
  change (String "<" (String "@" ((id ++ ">") ++ post)))
    with (mention_of id ++ post).
  rewrite (mention_here_complete id post Hne Hid). reflexivity.
Qed.

(* ===================================================================== *)
(** * Handlers one after the other *)
(* ===================================================================== *)

Lemma remove_first_last p l d :
  Forall (fun x => p x = false) l -> p d = true ->
  remove_first p (l ++ [d]) = (Some d, l).
Proof.
  intros Hl Hd. induction Hl as [|x l Hx Hl IH]; cbn.
  - rewrite Hd. reflexivity.
  - rewrite Hx, IH. reflexivity.
Qed.

Lemma remove_first_absent p l :
  Forall (fun x => p x = false) l -> remove_first p l = (None, l).
Proof.
  induction 1 as [|x l Hx Hl IH]; cbn; [reflexivity|].
  rewrite Hx, IH. reflexivity.
Qed.

Lemma mt_spot_logged_run env s m t :
  store_rejects env (InstallationFindOne (team m)) = false ->
  gate_passes (installations s) (team m) (channel m) = true ->
  match_mention (text m) = Some t -> has_files m = true ->
  save_succeeds env (spot_for env (Some (team m)) m t) = true ->
  MultiTenant.spot_listener m env s
  = (Returned tt,
     {| spots := spots s ++ [spot_for env (Some (team m)) m t];
        installations := installations s;
        trace := trace s ++
          [gate_lookup (team m);
           EvStore (SpotSave (spot_for env (Some (team m)) m t));
           EvSay (spot_logged m t)] |}).
Proof.
  intros Hg Hp Hm Hf Hs. rewrite mt_spot_run, Hg, Hp, Hm, Hf.
  unfold save_succeeds in Hs. apply andb_true_iff in Hs.
  destruct Hs as [Hv Hj]. apply negb_true_iff in Hj.
  unfold new_Spot, Spot_save. monad_unfold. unfold spot_for in *.
  rewrite Hv, Hj. finish_run.
Qed.

(** X19. In the multi-tenant bot with the schema that declares [teamId]
    and [messageTs], a veto undoes a log: when a message is logged and an
    administrator then replies "veto" in its thread, the Spot just created
    is the one removed and the store holds the same Spots as before the
    message (no earlier Spot being recorded for that message). *)
Theorem veto_undoes_the_log env s m v t :
  declares_teamId (Spot_schema env) = true ->
  declares_messageTs (Spot_schema env) = true ->
  store_rejects env (InstallationFindOne (team m)) = false ->
  gate_passes (installations s) (team m) (channel m) = true ->
  match_mention (text m) = Some t -> has_files m = true ->
  save_succeeds env (spot_for env (Some (team m)) m t) = true ->
  (forall x, In x (spots s) ->
             matches (MultiTenant.veto_filter v (ts m)) x = false) ->
  team v = team m -> channel v = channel m ->
  thread_ts v = Some (ts m) -> ts m <> "" -> ts m <> ts v ->
  users_info env (user v) = InfoUser true ->
  store_rejects env
    (SpotFindOneAndDelete (MultiTenant.veto_filter v (ts m))) = false ->
  let s1 := snd (MultiTenant.spot_listener m env s) in
  let s2 := snd (MultiTenant.veto_listener v env s1) in
  spots s1 = (spots s ++ [spot_for env (Some (team m)) m t])%list
  /\ spots s2 = spots s
  /\ installations s2 = installations s
  /\ replies (trace s2)
     = (replies (trace s)
          ++ [spot_logged m t;
              vetoed (toLocaleDateString env) v
                (spot_for env (Some (team m)) m t) (ts m)])%list.
Proof.
  intros Hdt Hdm Hg Hp Hm Hf Hs Hfresh Htv Hcv Hth Hne Hd Ha Hsv s1 s2.
  subst s1 s2. rewrite (mt_spot_logged_run env s m t) by assumption.
  cbn [snd].
  split; [reflexivity|].
  rewrite mt_veto_run. cbn [installations]. rewrite Htv, Hcv, Hg, Hp, Hth.
  rewrite (threaded_check _ _ Hne Hd), veto_body_run, Ha.
  rewrite Hsv.
  cbn [emit spots installations trace].
  rewrite remove_first_last.
  - cbn [snd spots installations trace]. split; [reflexivity|].
    split; [reflexivity|]. rewrite !replies_app. cbn.
    rewrite <- !app_assoc. reflexivity.
  - apply Forall_forall. exact Hfresh.
  - unfold matches, MultiTenant.veto_filter, spot_for, make_Spot.
    cbn [f_teamId f_targetId f_channelId f_messageTs f_status teamId
         targetId channelId messageTs status].
    rewrite Hdt, Hdm, Htv, Hcv. unfold cond_opt, cond_str, cond_status.
    rewrite !String.eqb_refl. reflexivity.
Qed.

Lemma veto_of_nothing env s0 s g m root :
  spots s0 = spots s ->
  Forall (fun x => matches g x = false) (spots s) ->
  spots (snd (veto_body g m root env s0)) = spots s.
Proof.
  intros Hs Hnone. rewrite veto_body_run.
  destruct (users_info env (user m)) as [|[|]]; try exact Hs.
  destruct (store_rejects env _); [exact Hs|].
  rewrite Hs, (remove_first_absent _ _ Hnone). reflexivity.
Qed.

Lemma no_messageTs_no_match_mt m root x :
  messageTs x = None -> matches (MultiTenant.veto_filter m root) x = false.
Proof.
  intros H. destruct (matches _ x) eqn:E; [|reflexivity].
  apply matches_mt_veto in E. destruct E as (_ & E & _). congruence.
Qed.

Lemma no_messageTs_no_match_st m root x :
  messageTs x = None -> matches (SingleTenant.veto_filter m root) x = false.
Proof.
  intros H. destruct (matches _ x) eqn:E; [|reflexivity].
  apply matches_st_veto in E. destruct E as (E & _). congruence.
Qed.

Lemma logged_without_messageTs env tenant m :
  declares_messageTs (Spot_schema env) = false ->
  Forall (fun x => messageTs x = None) (logged env tenant m).
Proof.
  intros H. unfold logged. destruct (match_mention (text m));
    [|constructor].
  destruct (has_files m); [|constructor].
  destruct (save_succeeds env _); [|constructor].
  constructor; [|constructor]. unfold spot_for, make_Spot. cbn.
  rewrite H. reflexivity.
Qed.

(** X20. A bot that runs on the schema without [messageTs] can log Spots
    but can never veto them: from a store whose Spots carry no
    [messageTs], a spot listener adds only Spots without [messageTs], and
    no veto, whoever sends it and in whatever thread, removes anything. *)
Theorem no_messageTs_no_veto env s m v :
  declares_messageTs (Spot_schema env) = false ->
  Forall (fun x => messageTs x = None) (spots s) ->
  (let s1 := snd (MultiTenant.spot_listener m env s) in
   Forall (fun x => messageTs x = None) (spots s1)
   /\ spots (snd (MultiTenant.veto_listener v env s1)) = spots s1)
  /\ (let s1 := snd (SingleTenant.spot_listener m env s) in
      Forall (fun x => messageTs x = None) (spots s1)
      /\ spots (snd (SingleTenant.veto_listener v env s1)) = spots s1).
Proof.
  intros Hsch Hs. split; intros s1.
  - assert (H1 : Forall (fun x => messageTs x = None) (spots s1)).
    { subst s1. destruct (mt_spot_appends env s m)
        as (_ & new & -> & [->| ->]); apply Forall_app; split; auto.
      apply logged_without_messageTs. exact Hsch. }
    split; [exact H1|]. rewrite mt_veto_run.
    destruct (store_rejects env _); [reflexivity|].
    destruct (gate_passes _ _ _); [|reflexivity].
    destruct (thread_ts v) as [root|]; [|reflexivity].
    destruct (negb (truthy root) || _)%bool; [reflexivity|].
    apply veto_of_nothing; [reflexivity|].
    rewrite Forall_forall in *. intros x Hx.
    apply no_messageTs_no_match_mt. apply H1. exact Hx.
  - assert (H1 : Forall (fun x => messageTs x = None) (spots s1)).
    { subst s1. destruct (st_spot_appends env s m)
        as (_ & new & -> & [->| ->]); apply Forall_app; split; auto.
      apply logged_without_messageTs. exact Hsch. }
    split; [exact H1|]. rewrite st_veto_run.
    destruct (thread_ts v) as [root|]; [|reflexivity].
    destruct (negb (truthy root) || _)%bool; [reflexivity|].
    apply veto_of_nothing; [reflexivity|].
    rewrite Forall_forall in *. intros x Hx.
    apply no_messageTs_no_match_st. apply H1. exact Hx.
Qed.


Lemma remove_the_only_match p l :
  length (filter p l) = 1%nat ->
  exists d rest,
    remove_first p l = (Some d, rest) /\ p d = true
    /\ Forall (fun x => p x = false) rest.
Proof.
  induction l as [|x l IH]; cbn; [discriminate|].
  destruct (p x) eqn:E; cbn; intros H.
  - exists x, l. split; [reflexivity|]. split; [exact E|].
    injection H as H. apply length_zero_iff_nil in H.
    apply Forall_forall. intros y Hy. destruct (p y) eqn:Ey; [|reflexivity].
    assert (Hin : In y (filter p l)) by (apply filter_In; auto).
    rewrite H in Hin. destruct Hin.
  - destruct (IH H) as (d & rest & -> & Hd & Hrest).
    exists d, (x :: rest). split; [reflexivity|]. split; [exact Hd|].
    constructor; assumption.
Qed.

(** X22. Vetoing twice: when exactly one Spot is recorded for the thread
    root, an administrator's first veto removes it and confirms, and the
    same veto sent again removes nothing and answers that no spot was
    found. *)
Theorem second_veto_finds_nothing env s m root :
  thread_ts m = Some root -> root <> "" -> root <> ts m ->
  users_info env (user m) = InfoUser true ->
  (store_rejects env (InstallationFindOne (team m)) = false ->
   gate_passes (installations s) (team m) (channel m) = true ->
   store_rejects env
     (SpotFindOneAndDelete (MultiTenant.veto_filter m root)) = false ->
   length (filter (matches (MultiTenant.veto_filter m root)) (spots s))
   = 1%nat ->
   let s1 := snd (MultiTenant.veto_listener m env s) in
   let s2 := snd (MultiTenant.veto_listener m env s1) in
   exists d,
     In d (spots s) /\ messageTs d = Some root
     /\ length (spots s1) = pred (length (spots s))
     /\ spots s2 = spots s1
     /\ replies (trace s2)
        = (replies (trace s)
             ++ [vetoed (toLocaleDateString env) m d root;
                 no_spot_found root])%list)
  /\ (store_rejects env
        (SpotFindOneAndDelete (SingleTenant.veto_filter m root)) = false ->
      length (filter (matches (SingleTenant.veto_filter m root)) (spots s))
      = 1%nat ->
      let s1 := snd (SingleTenant.veto_listener m env s) in
      let s2 := snd (SingleTenant.veto_listener m env s1) in
      exists d,
        In d (spots s) /\ messageTs d = Some root
        /\ length (spots s1) = pred (length (spots s))
        /\ spots s2 = spots s1
        /\ replies (trace s2)
           = (replies (trace s)
                ++ [vetoed (toLocaleDateString env) m d root;
                    no_spot_found root])%list).
Proof.
  intros Ht Hne Hd Ha. split.
  - intros Hg Hp Hs Hone s1 s2. subst s1 s2.
    destruct (remove_the_only_match _ _ Hone) as (d & rest & R & Hm & Hrest).
    exists d.
    rewrite (mt_veto_run env s), Hg, Hp, Ht, (threaded_check _ _ Hne Hd),
      veto_body_run, Ha, Hs.
    cbn [emit spots installations trace]. rewrite R. cbn [snd].
    rewrite mt_veto_run. cbn [installations].
    rewrite Hg, Hp, Ht, (threaded_check _ _ Hne Hd), veto_body_run, Ha, Hs.
    cbn [emit spots installations trace].
    rewrite (remove_first_absent _ _ Hrest).
    cbn [snd spots installations trace].
    apply remove_first_found in R. destruct R as (b & a & E & -> & _).
    split; [rewrite E; apply in_elt|].
    split; [apply matches_mt_veto in Hm; tauto|].
    split; [rewrite E, !length_app; cbn; lia|]. split; [reflexivity|].
    rewrite !replies_app. cbn. rewrite <- !app_assoc. reflexivity.
  - intros Hs Hone s1 s2. subst s1 s2.
    destruct (remove_the_only_match _ _ Hone) as (d & rest & R & Hm & Hrest).
    exists d.
    rewrite (st_veto_run env s), Ht, (threaded_check _ _ Hne Hd),
      veto_body_run, Ha, Hs.
    rewrite R. cbn [snd].
    rewrite st_veto_run, Ht, (threaded_check _ _ Hne Hd), veto_body_run,
      Ha, Hs.
    cbn [spots installations trace].
    rewrite (remove_first_absent _ _ Hrest).
    cbn [snd spots installations trace].
    apply remove_first_found in R. destruct R as (b & a & E & -> & _).
    split; [rewrite E; apply in_elt|].
    split; [apply matches_st_veto in Hm; tauto|].
    split; [rewrite E, !length_app; cbn; lia|]. split; [reflexivity|].
    rewrite !replies_app. cbn. rewrite <- !app_assoc. reflexivity.
Qed.








(* ===================================================================== *)
(** * The further properties at work on the sample worlds *)
(* ===================================================================== *)

(** Tenant T2 installs the bot and its installation is fetched back. *)
Lemma storeInstallation_then_fetch_witness :
  upsert_rejected no_faults "T2" = false
  /\ fst (installationStore.fetchInstallation env_mt "T2"
            (snd (installationStore.storeInstallation no_faults env_mt
                    install_T2 state_mt)))
     = Done "{ team: T2 }".
Proof.
  split; [reflexivity|].
  destruct (storeInstallation_then_fetch no_faults env_mt env_mt install_T2
              {| slack_team_id := "T2"; slack_team_name := Some "Globex" |}
              {| slack_bot_token := "xoxb-2"; slack_bot_id := Some "B2";
                 slack_bot_userId := Some "U0BOT2" |}
              state_mt eq_refl eq_refl eq_refl eq_refl) as [_ H].
  exact H.
Defined.

(** Tenant T2 installs next to T1: T1's Installation is found as before
    and there is still one Installation per tenant. *)
Lemma storeInstallation_keeps_tenants_apart_witness :
  unique_tenants (installations state_mt)
  /\ unique_tenants
       (installations
          (snd (installationStore.storeInstallation no_faults env_mt
                  install_T2 state_mt)))
  /\ find (for_team "T1")
       (installations
          (snd (installationStore.storeInstallation no_faults env_mt
                  install_T2 state_mt)))
     = Some inst_T1.
Proof.
  assert (U : unique_tenants (installations state_mt))
    by (constructor; [intros [] | constructor]).
  destruct (storeInstallation_keeps_tenants_apart no_faults env_mt install_T2
              state_mt) as (_ & _ & Hu & Hother & _).
  split; [exact U|]. split; [exact (Hu U)|].
  rewrite (Hother "T1"); [reflexivity|].
  intros t [= <-]. discriminate.
Defined.

(** Tenant T1 uninstalls: it cannot be fetched any more, its channel C1 is
    closed and its Spots are still stored. *)
Lemma deleteInstallation_closes_the_tenant_witness :
  unique_tenants (installations state_mt)
  /\ fst (installationStore.fetchInstallation env_mt "T1"
            (snd (installationStore.deleteInstallation no_faults "T1"
                    state_mt)))
     = Failed (NoInstallationFound "T1")
  /\ gate_passes
       (installations
          (snd (installationStore.deleteInstallation no_faults "T1"
                  state_mt))) "T1" "C1"
     = false
  /\ spots (snd (installationStore.deleteInstallation no_faults "T1"
                   state_mt))
     = [spot_1; spot_2; spot_3].
Proof.
  assert (U : unique_tenants (installations state_mt))
    by (constructor; [intros [] | constructor]).
  destruct (deleteInstallation_closes_the_tenant no_faults env_mt "T1"
              state_mt U eq_refl eq_refl) as (Hfetch & Hgate & _ & _ & Hspots).
  split; [exact U|]. split; [exact Hfetch|]. split; [exact (Hgate "C1")|].
  exact Hspots.
Defined.

(** Tenant T1, bound to C1, uninstalls and installs again: C1 is closed,
    although a plain reinstall keeps it open. *)
Lemma uninstall_then_install_unbinds_witness :
  gate_passes (installations state_mt) "T1" "C1" = true
  /\ gate_passes
       (installations
          (snd (installationStore.storeInstallation no_faults env_mt
                  reinstall_T1 state_mt))) "T1" "C1"
     = true
  /\ gate_passes
       (installations
          (snd (installationStore.storeInstallation no_faults env_mt
                  reinstall_T1
                  (snd (installationStore.deleteInstallation no_faults "T1"
                          state_mt))))) "T1" "C1"
     = false.
Proof.
  split; [reflexivity|]. split; [reflexivity|].
  apply (uninstall_then_install_unbinds no_faults env_mt reinstall_T1
           {| slack_team_id := "T1"; slack_team_name := None |}
           {| slack_bot_token := "xoxb-1b"; slack_bot_id := None;
              slack_bot_userId := None |}
           state_mt "C1");
    [constructor; [intros [] | constructor] | reflexivity | reflexivity
    | reflexivity | reflexivity].
Defined.

(** An administrator's [/reset] in C1 leaves the Installation of T1. *)
Lemma only_setchannel_writes_installations_witness :
  spots (snd (handle (mt_reset admin_in_C1) env_mt state_mt)) = [spot_3]
  /\ installations (snd (handle (mt_reset admin_in_C1) env_mt state_mt))
     = [inst_T1].
Proof.
  split; [reflexivity|].
  apply (only_setchannel_writes_installations (mt_reset admin_in_C1) env_mt
           state_mt).
  intros c. discriminate.
Defined.

(** U1, not an administrator, and UGHOST, unknown to the identity service,
    try [/reset] and veto in C1: nothing is written. *)
Lemma only_admins_change_the_store_witness :
  users_info env_mt (user_id top_5) = InfoUser false
  /\ users_info env_mt (user veto_by_ghost) = InfoFails
  /\ only_reads state_mt
       (snd (MultiTenant.reset_command top_5 env_mt state_mt))
  /\ only_reads state_mt
       (snd (MultiTenant.veto_listener veto_by_ghost env_mt state_mt)).
Proof.
  destruct (only_admins_change_the_store env_mt state_mt) as [Hcmd Hmsg].
  split; [reflexivity|]. split; [reflexivity|]. split.
  - destruct (Hcmd top_5) as (_ & H & _); [discriminate | exact H].
  - destruct (Hmsg veto_by_ghost) as (H & _); [discriminate | exact H].
Defined.


(** After an administrator's veto of the first Spot, the second Spot in
    the store is one that was there before. *)
Lemma only_spot_listeners_add_spots_witness :
  In spot_2 (spots (snd (handle (mt_veto veto_of_spot_1) env_mt state_mt)))
  /\ In spot_2 (spots state_mt).
Proof.
  assert (H : In spot_2
                (spots (snd (handle (mt_veto veto_of_spot_1) env_mt
                               state_mt))))
    by (left; reflexivity).
  split; [exact H|].
  apply (only_spot_listeners_add_spots (mt_veto veto_of_spot_1) env_mt
           state_mt spot_2); [intros m; discriminate | intros m; discriminate
                             | exact H].
Defined.

(** A photo is logged, tenant T2 installs, the first Spot is vetoed and
    tenant T1 uninstalls: the store still satisfies its invariant. *)
Lemma history_keeps_the_invariant_witness :
  store_invariant env_mt state_mt
  /\ store_invariant env_mt
       (run_history
          [ (env_mt, Handle (mt_spot spotted_with_photo));
            (env_mt, Install no_faults install_T2);
            (env_mt, Handle (mt_veto veto_of_spot_1));
            (env_mt, Uninstall no_faults "T1") ]
          state_mt).
Proof.
  assert (I : store_invariant env_mt state_mt).
  { split.
    - repeat constructor.
    - constructor; [intros [] | constructor]. }
  split; [exact I|].
  apply (history_keeps_the_invariant env_mt); [|exact I].
  repeat constructor.
Defined.

(** The spotboard of C1 has a row for U1 with one Spot, the one Spot of C1
    that U1 took. *)
Lemma leaderboard_counts_are_exact_witness :
  In {| _id := "U1"; count := 1 |}
     (pipeline (MultiTenant.board_filter top_5) by_spotterId 5
        (spots state_mt))
  /\ tally (MultiTenant.board_filter top_5) by_spotterId "U1"
       (spots state_mt)
     = 1%nat.
Proof.
  assert (H : In {| _id := "U1"; count := 1 |}
                (pipeline (MultiTenant.board_filter top_5) by_spotterId 5
                   (spots state_mt)))
    by (left; reflexivity).
  split; [exact H|].
  destruct (leaderboard_counts_are_exact (MultiTenant.board_filter top_5)
              by_spotterId 5 (spots state_mt)) as (Hrow & _).
  destruct (Hrow _ H) as [E _]. symmetry. exact E.
Defined.

(** With a limit of 1 the spotboard of C1 shows U1 and leaves out U3, who
    has no more Spots than U1. *)
Lemma leaderboard_shows_the_top_witness :
  pipeline (MultiTenant.board_filter top_5) by_spotterId 1 (spots state_mt)
  = [ {| _id := "U1"; count := 1 |} ]
  /\ In {| _id := "U3"; count := 1 |}
       (groups (MultiTenant.board_filter top_5) by_spotterId
          (spots state_mt))
  /\ (count {| _id := "U3"; count := 1 |}
      <= count {| _id := "U1"; count := 1 |})%nat.
Proof.
  destruct (leaderboard_shows_the_top (MultiTenant.board_filter top_5)
              by_spotterId 1 (spots state_mt)) as (_ & _ & Htop & _).
  split; [reflexivity|].
  assert (G : In {| _id := "U3"; count := 1 |}
                (groups (MultiTenant.board_filter top_5) by_spotterId
                   (spots state_mt)))
    by (right; left; reflexivity).
  split; [exact G|].
  apply Htop; [left; reflexivity | exact G |].
  intros [E|[]]. discriminate E.
Defined.

(** The text of the sample photo message reads "spotted ", the mention of
    U2, and the rest. *)
Lemma match_mention_is_the_first_mention_witness :
  match_mention (text spotted_with_photo) = Some "U2"
  /\ exists pre post,
       text spotted_with_photo = pre ++ mention_of "U2" ++ post
       /\ match_mention pre = None.
Proof.
  split; [reflexivity|].
  destruct (match_mention_is_the_first_mention (text spotted_with_photo)
              "U2" eq_refl) as (_ & _ & H).
  exact H.
Defined.

(** A second mention after the first is not the target. *)
Lemma match_mention_finds_the_first_mention_witness :
  id_chars "U2" = true
  /\ match_mention "spotted " = None
  /\ match_mention ("spotted " ++ mention_of "U2" ++ " with <@U7>")
     = Some "U2".
Proof.
  split; [reflexivity|]. split; [reflexivity|].
  apply (match_mention_finds_the_first_mention "spotted " "U2"
           " with <@U7>"); [discriminate | reflexivity | reflexivity].
Defined.

(** U1 posts a photo of U2 in C1 and the administrator vetoes it in its
    thread: the store holds the three Spots it held before. *)
Lemma veto_undoes_the_log_witness :
  gate_passes (installations state_mt) "T1" "C1" = true
  /\ users_info env_mt (user veto_of_the_photo) = InfoUser true
  /\ length (spots (snd (MultiTenant.spot_listener spotted_with_photo env_mt
                           state_mt)))
     = 4%nat
  /\ spots (snd (MultiTenant.veto_listener veto_of_the_photo env_mt
                   (snd (MultiTenant.spot_listener spotted_with_photo env_mt
                           state_mt))))
     = [spot_1; spot_2; spot_3].
Proof.
  split; [reflexivity|]. split; [reflexivity|].
  destruct (veto_undoes_the_log env_mt state_mt spotted_with_photo
              veto_of_the_photo "U2")
    as (H1 & H2 & _);
    [reflexivity | reflexivity | reflexivity | reflexivity | reflexivity
    | reflexivity | reflexivity
    | intros x [<-|[<-|[<-|[]]]]; reflexivity
    | reflexivity | reflexivity | reflexivity | discriminate | discriminate
    | reflexivity | reflexivity |].
  split; [rewrite H1; reflexivity | exact H2].
Defined.

(** On the schema without [messageTs] the single-tenant bot logs the photo
    and the administrator's veto in its thread removes nothing. *)
Lemma no_messageTs_no_veto_witness :
  declares_messageTs (Spot_schema env_st) = false
  /\ length
       (spots (snd (SingleTenant.spot_listener spotted_in_the_channel env_st
                      {| spots := [spot_4]; installations := [];
                         trace := [] |})))
     = 2%nat
  /\ spots
       (snd (SingleTenant.veto_listener
               {| team := "T1"; channel := "C0AD6UA1G92"; user := "UADMIN";
                  text := "veto"; ts := "1770000003.000800";
                  thread_ts := Some "1770000000.000500"; files := [] |}
               env_st
               (snd (SingleTenant.spot_listener spotted_in_the_channel
                       env_st
                       {| spots := [spot_4]; installations := [];
                          trace := [] |}))))
     = spots
         (snd (SingleTenant.spot_listener spotted_in_the_channel env_st
                 {| spots := [spot_4]; installations := [];
                    trace := [] |})).
Proof.
  split; [reflexivity|]. split; [reflexivity|].
  destruct (no_messageTs_no_veto env_st
              {| spots := [spot_4]; installations := []; trace := [] |}
              spotted_in_the_channel
              {| team := "T1"; channel := "C0AD6UA1G92"; user := "UADMIN";
                 text := "veto"; ts := "1770000003.000800";
                 thread_ts := Some "1770000000.000500"; files := [] |})
    as (_ & _ & H); [reflexivity | repeat constructor | exact H].
Defined.


(** The administrator vetoes the first Spot twice: two Spots are left
    after the first veto and after the second. *)
Lemma second_veto_finds_nothing_witness :
  users_info env_mt (user veto_of_spot_1) = InfoUser true
  /\ length (filter (matches (MultiTenant.veto_filter veto_of_spot_1
                                "1769000000.000100")) (spots state_mt))
     = 1%nat
  /\ length (spots (snd (MultiTenant.veto_listener veto_of_spot_1 env_mt
                           state_mt)))
     = 2%nat
  /\ spots (snd (MultiTenant.veto_listener veto_of_spot_1 env_mt
                   (snd (MultiTenant.veto_listener veto_of_spot_1 env_mt
                           state_mt))))
     = spots (snd (MultiTenant.veto_listener veto_of_spot_1 env_mt
                     state_mt)).
Proof.
  split; [reflexivity|]. split; [reflexivity|].
  destruct (second_veto_finds_nothing env_mt state_mt veto_of_spot_1
              "1769000000.000100" eq_refl) as [Hmt _];
    [discriminate | discriminate | reflexivity |].
  destruct (Hmt eq_refl eq_refl eq_refl eq_refl)
    as (d & _ & _ & Hlen & Hsame & _).
  split; [exact Hlen | exact Hsame].
Defined.

